(** * Shipment generator: a shallow embedding of [backend/shipment_generator_v2.py]

    The development follows the Python module top to bottom:
    - [PyFloat], [pyval]: the Python values that spreadsheet cells and
      database columns hold (None, int, float, str, timestamps);
    - [Md5]: the digest behind [generate_shipment_number];
    - [Utf8], [Regex]: text as code points, and the fragment of Python's
      [re] used by the file-name patterns;
    - [DatabaseManager]: the master-data tables and the persisted sequence;
    - [ShipmentXMLGenerator]: the per-row expansion and the pipeline, as a
      state-and-exception monad over the generator object;
    - [Plates]: the merge of the two plate lists.

    Text is kept as byte strings holding the UTF-8 encoding, so that
    [str.encode()] is the identity and byte order is code-point order;
    the routines that count or classify characters ([re], [str.zfill],
    [int]) work on the decoded code points.  What the Python runtime and
    the platform supply from tables of their own is a parameter of the
    development: the text routines ([PyText]), the character tables
    ([Unicode]) and the path routine ([OsPath]). *)

From Stdlib Require Import ZArith Ascii String DecimalString.
From Corelib Require Import SpecFloat.
From stdpp Require Import gmap strings list sorting.

Local Open Scope string_scope.
Local Open Scope list_scope.
Local Open Scope Z_scope.

(* ===================================================================== *)
(** ** Exceptions and results *)
(* ===================================================================== *)

Inductive exn_kind :=
| KeyError | ValueError | TypeError | OverflowError.

(** An exception object: its class and [str(e)]. *)
Record exn := Exn { exn_class : exn_kind; exn_str : string }.

Inductive result (A : Type) :=
| Ok (a : A)
| Raise (e : exn).
Arguments Ok {A} a.
Arguments Raise {A} e.

Definition is_ok {A} (r : result A) : bool :=
  match r with Ok _ => true | Raise _ => false end.

(* ===================================================================== *)
(** ** Python floats: IEEE binary64 through [SpecFloat] *)
(* ===================================================================== *)

Module PyFloat.

Definition prec : Z := 53.
Definition emax : Z := 1024.

Definition mul : spec_float -> spec_float -> spec_float := SFmul prec emax.
Definition add : spec_float -> spec_float -> spec_float := SFadd prec emax.

Definition is_nan (f : spec_float) : bool :=
  match f with S754_nan => true | _ => false end.

(** [bool(f)]: only the two zeros are false. *)
Definition truthy (f : spec_float) : bool :=
  match f with S754_zero _ => false | _ => true end.

(** The sign-magnitude quotient [a / b] of two positive integers, rounded
    to the nearest double (ties to even). *)
Definition of_ratio (neg : bool) (a b : Z) : spec_float :=
  match a with
  | Zpos _ =>
      let '(mz, ez, lz) := SFdiv_core_binary prec emax a 0 b 0 in
      binary_round_aux prec emax neg mz ez lz
  | _ => S754_zero neg
  end.

(** [float(z)] for an int: nearest double, [OverflowError] beyond the
    range. *)
Definition of_int (z : Z) : result spec_float :=
  match binary_normalize prec emax z 0 false with
  | S754_infinity _ =>
      Raise (Exn OverflowError "int too large to convert to float")
  | f => Ok f
  end.

(** [int(f)]: truncation towards zero. *)
Definition to_int (f : spec_float) : result Z :=
  match f with
  | S754_zero _ => Ok 0
  | S754_infinity _ =>
      Raise (Exn OverflowError "cannot convert float infinity to integer")
  | S754_nan =>
      Raise (Exn ValueError "cannot convert float NaN to integer")
  | S754_finite s m e =>
      let mag := if 0 <=? e then Z.pos m * 2 ^ e else Z.pos m / 2 ^ (- e) in
      Ok (if s then - mag else mag)
  end.

(** The integer a float is exactly equal to, if any (for [int == float]). *)
Definition exact_int (f : spec_float) : option Z :=
  match f with
  | S754_zero _ => Some 0
  | S754_finite s m e =>
      if 0 <=? e then Some ((if s then -1 else 1) * (Z.pos m * 2 ^ e))
      else if Z.pos m mod 2 ^ (- e) =? 0
           then Some ((if s then -1 else 1) * (Z.pos m / 2 ^ (- e)))
           else None
  | _ => None
  end.

(** [p / q] rounded to the nearest integer, ties to even ([0 < q]). *)
Definition round_half_even (p q : Z) : Z :=
  let n := p / q in
  let r := 2 * (p mod q) in
  if r <? q then n
  else if q <? r then n + 1
  else if Z.even n then n else n + 1.

(** [round(f, ndigits)] for [0 <= ndigits]: the exact value is rounded
    half-even to [ndigits] decimals, and that decimal is read back as the
    nearest double; non-finite values and zeros round to themselves. *)
Definition round_ndigits (f : spec_float) (ndigits : Z) : spec_float :=
  match f with
  | S754_finite s m e =>
      let scale := 10 ^ ndigits in
      let n := if 0 <=? e then Z.pos m * 2 ^ e * scale
               else round_half_even (Z.pos m * scale) (2 ^ (- e)) in
      of_ratio s n scale
  | _ => f
  end.

(** [a == b] on floats. *)
Definition eqb (a b : spec_float) : bool := SFeqb a b.

Definition div : spec_float -> spec_float -> spec_float := SFdiv prec emax.

(** The double nearest to an integer, as a C conversion gives it. *)
Definition of_Z (z : Z) : spec_float := binary_normalize prec emax z 0 false.

(** [math.floor(f)] for a finite [f]. *)
Definition floor (f : spec_float) : Z :=
  match f with
  | S754_finite s m e =>
      let n := if s then Z.neg m else Z.pos m in
      if 0 <=? e then n * 2 ^ e else n / 2 ^ (- e)
  | _ => 0
  end.

End PyFloat.

(* ===================================================================== *)
(** ** Python values *)
(* ===================================================================== *)

(** What a cell of the manifest, a database column or a field of an output
    record holds.  [VTime] is a timestamp cell, carried by its text. *)
Inductive pyval :=
| VNone
| VInt (z : Z)
| VFloat (f : spec_float)
| VStr (s : string)
| VTime (s : string).

(** [str(z)] for an int. *)
Definition str_of_int (z : Z) : string := NilZero.string_of_int (Z.to_int z).

(** [pd.isna(v)] on a scalar. *)
Definition pd_isna (v : pyval) : bool :=
  match v with
  | VNone => true
  | VFloat f => PyFloat.is_nan f
  | _ => false
  end.

(** [bool(v)]. *)
Definition truthy (v : pyval) : bool :=
  match v with
  | VNone => false
  | VInt z => negb (z =? 0)
  | VFloat f => PyFloat.truthy f
  | VStr s => negb (String.eqb s "")
  | VTime _ => true
  end.

(** [a == b]: ints and floats compare by exact value, other types only
    with themselves. *)
Definition py_eqb (a b : pyval) : bool :=
  match a, b with
  | VNone, VNone => true
  | VInt x, VInt y => x =? y
  | VFloat x, VFloat y => PyFloat.eqb x y
  | VInt x, VFloat y | VFloat y, VInt x =>
      match PyFloat.exact_int y with Some z => x =? z | None => false end
  | VStr x, VStr y => String.eqb x y
  | VTime x, VTime y => String.eqb x y
  | _, _ => false
  end.

(** The text routines of the Python runtime that the program calls and
    whose tables live outside the repository: [str.strip], [str.upper],
    [float(str)] and [repr(float)]. *)
Class PyText := {
  str_strip : string -> string;
  str_upper : string -> string;
  float_of_str : string -> option spec_float;
  float_repr : spec_float -> string
}.

(** [str(v)], which is also what an f-string field [{v}] renders. *)
Definition py_str `{PyText} (v : pyval) : string :=
  match v with
  | VNone => "None"
  | VInt z => str_of_int z
  | VFloat f => float_repr f
  | VStr s => s
  | VTime s => s
  end.

(* ===================================================================== *)
(** ** MD5 (RFC 1321), as [hashlib.md5(data).hexdigest()] computes it *)
(* ===================================================================== *)

Module Md5.

Definition byte_of_ascii (c : ascii) : Z := Z.of_N (N_of_ascii c).

Definition bytes_of_string (s : string) : list Z :=
  map byte_of_ascii (list_ascii_of_string s).

Definition mask32 : Z := 0xFFFFFFFF.
Definition add32 (a b : Z) : Z := Z.land (a + b) mask32.
Definition not32 (a : Z) : Z := Z.lxor a mask32.
Definition rotl32 (x c : Z) : Z :=
  Z.lor (Z.land (Z.shiftl x c) mask32) (Z.shiftr x (32 - c)).

(** Per-round shift amounts. *)
Definition shifts : list Z :=
  [7;12;17;22; 7;12;17;22; 7;12;17;22; 7;12;17;22;
   5; 9;14;20; 5; 9;14;20; 5; 9;14;20; 5; 9;14;20;
   4;11;16;23; 4;11;16;23; 4;11;16;23; 4;11;16;23;
   6;10;15;21; 6;10;15;21; 6;10;15;21; 6;10;15;21].

(** [floor(2^32 * |sin(i + 1)|)]. *)
Definition sines : list Z :=
  [0xd76aa478; 0xe8c7b756; 0x242070db; 0xc1bdceee;
   0xf57c0faf; 0x4787c62a; 0xa8304613; 0xfd469501;
   0x698098d8; 0x8b44f7af; 0xffff5bb1; 0x895cd7be;
   0x6b901122; 0xfd987193; 0xa679438e; 0x49b40821;
   0xf61e2562; 0xc040b340; 0x265e5a51; 0xe9b6c7aa;
   0xd62f105d; 0x02441453; 0xd8a1e681; 0xe7d3fbc8;
   0x21e1cde6; 0xc33707d6; 0xf4d50d87; 0x455a14ed;
   0xa9e3e905; 0xfcefa3f8; 0x676f02d9; 0x8d2a4c8a;
   0xfffa3942; 0x8771f681; 0x6d9d6122; 0xfde5380c;
   0xa4beea44; 0x4bdecfa9; 0xf6bb4b60; 0xbebfbc70;
   0x289b7ec6; 0xeaa127fa; 0xd4ef3085; 0x04881d05;
   0xd9d4d039; 0xe6db99e5; 0x1fa27cf8; 0xc4ac5665;
   0xf4292244; 0x432aff97; 0xab9423a7; 0xfc93a039;
   0x655b59c3; 0x8f0ccc92; 0xffeff47d; 0x85845dd1;
   0x6fa87e4f; 0xfe2ce6e0; 0xa3014314; 0x4e0811a1;
   0xf7537e82; 0xbd3af235; 0x2ad7d2bb; 0xeb86d391].

(** Little-endian bytes of a word, [n] of them. *)
Fixpoint le_bytes (n : nat) (w : Z) : list Z :=
  match n with
  | O => []
  | S n' => Z.land w 0xFF :: le_bytes n' (Z.shiftr w 8)
  end.

Fixpoint le_word (bs : list Z) : Z :=
  match bs with
  | [] => 0
  | b :: bs' => b + 256 * le_word bs'
  end.

(** The message, a 1 bit, zeros up to 56 mod 64, the bit length on 64
    bits. *)
Definition pad (msg : list Z) : list Z :=
  let len := Z.of_nat (length msg) in
  let zeros := Z.to_nat ((55 - len) mod 64) in
  msg ++ [0x80] ++ repeat 0 zeros ++ le_bytes 8 ((8 * len) mod 2 ^ 64).

(** Cut a byte list into [n] consecutive pieces of [k] bytes. *)
Fixpoint chunks (n k : nat) (bs : list Z) : list (list Z) :=
  match n with
  | O => []
  | S n' => take k bs :: chunks n' k (drop k bs)
  end.

Definition words_of_block (block : list Z) : list Z :=
  map le_word (chunks 16 4 block).

Definition md5_state : Type := Z * Z * Z * Z.

Definition step (m : list Z) (st : md5_state) (i : Z) : md5_state :=
  let '(a, b, c, d) := st in
  let '(f, g) :=
    if i <? 16 then (Z.lor (Z.land b c) (Z.land (not32 b) d), i)
    else if i <? 32 then
      (Z.lor (Z.land d b) (Z.land (not32 d) c), (5 * i + 1) mod 16)
    else if i <? 48 then (Z.lxor (Z.lxor b c) d, (3 * i + 5) mod 16)
    else (Z.lxor c (Z.lor b (not32 d)), (7 * i) mod 16) in
  let k := nth (Z.to_nat i) sines 0 in
  let w := nth (Z.to_nat g) m 0 in
  let s := nth (Z.to_nat i) shifts 0 in
  let f' := add32 (add32 (add32 f a) k) w in
  (d, add32 b (rotl32 f' s), b, c).

Definition process_block (st : md5_state) (block : list Z) : md5_state :=
  let m := words_of_block block in
  let '(a, b, c, d) := st in
  let '(a', b', c', d') :=
    fold_left (step m) (map Z.of_nat (seq 0 64)) st in
  (add32 a a', add32 b b', add32 c c', add32 d d').

Definition init : md5_state :=
  (0x67452301, 0xefcdab89, 0x98badcfe, 0x10325476).

Definition digest (msg : list Z) : list Z :=
  let padded := pad msg in
  let blocks := chunks (length padded / 64) 64 padded in
  let '(a, b, c, d) := fold_left process_block blocks init in
  le_bytes 4 a ++ le_bytes 4 b ++ le_bytes 4 c ++ le_bytes 4 d.

Definition hex_digit (n : Z) : ascii :=
  if n <? 10 then ascii_of_N (Z.to_N (48 + n))
  else ascii_of_N (Z.to_N (87 + n)).

Fixpoint hex_of_bytes (bs : list Z) : string :=
  match bs with
  | [] => ""
  | b :: bs' =>
      String (hex_digit (b / 16)) (String (hex_digit (b mod 16))
        (hex_of_bytes bs'))
  end.

Definition hexdigest (s : string) : string :=
  hex_of_bytes (digest (bytes_of_string s)).

(** [int(c, 16)] of one hexadecimal digit. *)
Definition hex_value (c : ascii) : option Z :=
  let n := byte_of_ascii c in
  if (48 <=? n) && (n <=? 57) then Some (n - 48)
  else if (97 <=? n) && (n <=? 102) then Some (n - 87)
  else if (65 <=? n) && (n <=? 70) then Some (n - 55)
  else None.

(** [int(s, 16)] on a string of hexadecimal digits. *)
Fixpoint int_of_hex_from (acc : Z) (s : string) : option Z :=
  match s with
  | EmptyString => Some acc
  | String c s' =>
      match hex_value c with
      | Some v => int_of_hex_from (16 * acc + v) s'
      | None => None
      end
  end.

Definition int_of_hex (s : string) : option Z :=
  match s with
  | EmptyString => None
  | _ => int_of_hex_from 0 s
  end.

End Md5.

(* ===================================================================== *)
(** ** Naive local timestamps: [datetime], [timedelta], [strftime] *)
(* ===================================================================== *)

Module DateTime.

Record datetime := {
  year : Z; month : Z; day : Z;
  hour : Z; minute : Z; second : Z; microsecond : Z
}.

(** Days since 1970-01-01 in the proleptic Gregorian calendar. *)
Definition days_from_civil (y m d : Z) : Z :=
  let y' := if m <=? 2 then y - 1 else y in
  let era := y' / 400 in
  let yoe := y' - era * 400 in
  let mp := (m + 9) mod 12 in
  let doy := (153 * mp + 2) / 5 + d - 1 in
  let doe := yoe * 365 + yoe / 4 - yoe / 100 + doy in
  era * 146097 + doe - 719468.

Definition civil_from_days (z : Z) : Z * Z * Z :=
  let z' := z + 719468 in
  let era := z' / 146097 in
  let doe := z' - era * 146097 in
  let yoe := (doe - doe / 1460 + doe / 36524 - doe / 146096) / 365 in
  let doy := doe - (365 * yoe + yoe / 4 - yoe / 100) in
  let mp := (5 * doy + 2) / 153 in
  let d := doy - (153 * mp + 2) / 5 + 1 in
  let m := if mp <? 10 then mp + 3 else mp - 9 in
  let y := yoe + era * 400 in
  (if m <=? 2 then y + 1 else y, m, d).

(** [dt + timedelta(days=days, minutes=minutes)]. *)
Definition add (dt : datetime) (days minutes : Z) : datetime :=
  let mins := hour dt * 60 + minute dt + minutes in
  let d := days_from_civil (year dt) (month dt) (day dt) + days + mins / 1440 in
  let '(y, m, dd) := civil_from_days d in
  {| year := y; month := m; day := dd;
     hour := (mins mod 1440) / 60; minute := (mins mod 1440) mod 60;
     second := second dt; microsecond := microsecond dt |}.

(** A non-negative number on at least [width] digits, as [%m], [%d],
    [%H], [%M], [%S] (2), [%Y] (4) and [%f] (6) print it. *)
Definition digits (width : nat) (n : Z) : string :=
  let s := str_of_int n in
  string_of_list_ascii
    (repeat "0"%char (width - String.length s)) +:+ s.

(** [strftime('%Y-%m-%d %H:%M')]. *)
Definition strftime_minute (dt : datetime) : string :=
  digits 4 (year dt) +:+ "-" +:+ digits 2 (month dt) +:+ "-"
  +:+ digits 2 (day dt) +:+ " " +:+ digits 2 (hour dt) +:+ ":"
  +:+ digits 2 (minute dt).

(** [strftime('%H%M%S%f')]. *)
Definition strftime_clock (dt : datetime) : string :=
  digits 2 (hour dt) +:+ digits 2 (minute dt) +:+ digits 2 (second dt)
  +:+ digits 6 (microsecond dt).

(** [strftime('%m')] and [strftime('%d')]. *)
Definition strftime_m (dt : datetime) : string := digits 2 (month dt).
Definition strftime_d (dt : datetime) : string := digits 2 (day dt).

End DateTime.

(* ===================================================================== *)
(** ** Text as code points *)
(* ===================================================================== *)

(** A Python [str] is a sequence of code points: [re], [len], [str.zfill]
    and [int] count and classify code points, not bytes.  [Utf8.decode]
    gives the code points of a byte string and [Utf8.encode] the bytes of
    a sequence of code points.  A byte that does not start a well-formed
    sequence stands for the lone surrogate U+DC00 + byte, which is how the
    file-system encoding (surrogateescape) presents such a file name. *)
Module Utf8.

Definition continuation (b : Z) : bool := (0x80 <=? b) && (b <=? 0xBF).

Definition surrogate (c : Z) : bool := (0xD800 <=? c) && (c <=? 0xDFFF).

Fixpoint decode_bytes (bs : list Z) : list Z :=
  match bs with
  | [] => []
  | b0 :: t0 =>
      if b0 <? 0x80 then b0 :: decode_bytes t0
      else
        match t0 with
        | [] => (0xDC00 + b0) :: decode_bytes t0
        | b1 :: t1 =>
            if (0xC2 <=? b0) && (b0 <=? 0xDF) && continuation b1
            then ((b0 - 0xC0) * 64 + (b1 - 0x80)) :: decode_bytes t1
            else
              match t1 with
              | [] => (0xDC00 + b0) :: decode_bytes t0
              | b2 :: t2 =>
                  let c3 := (b0 - 0xE0) * 4096 + (b1 - 0x80) * 64 + (b2 - 0x80) in
                  if (0xE0 <=? b0) && (b0 <=? 0xEF) && continuation b1
                     && continuation b2 && (0x800 <=? c3) && negb (surrogate c3)
                  then c3 :: decode_bytes t2
                  else
                    match t2 with
                    | [] => (0xDC00 + b0) :: decode_bytes t0
                    | b3 :: t3 =>
                        let c4 := (b0 - 0xF0) * 262144 + (b1 - 0x80) * 4096
                                  + (b2 - 0x80) * 64 + (b3 - 0x80) in
                        if (0xF0 <=? b0) && (b0 <=? 0xF4) && continuation b1
                           && continuation b2 && continuation b3
                           && (0x10000 <=? c4) && (c4 <=? 0x10FFFF)
                        then c4 :: decode_bytes t3
                        else (0xDC00 + b0) :: decode_bytes t0
                    end
              end
        end
  end.

Definition decode (s : string) : list Z := decode_bytes (Md5.bytes_of_string s).

Definition encode_point (c : Z) : list Z :=
  if c <? 0x80 then [c]
  else if c <? 0x800 then [0xC0 + c / 64; 0x80 + c mod 64]
  else if (0xDC80 <=? c) && (c <=? 0xDCFF) then [c - 0xDC00]
  else if c <? 0x10000
  then [0xE0 + c / 4096; 0x80 + (c / 64) mod 64; 0x80 + c mod 64]
  else [0xF0 + c / 262144; 0x80 + (c / 4096) mod 64;
        0x80 + (c / 64) mod 64; 0x80 + c mod 64].

Definition encode (t : list Z) : string :=
  string_of_list_ascii
    (map (fun b => ascii_of_N (Z.to_N b)) (concat (map encode_point t))).

End Utf8.

(** The two properties of a code point that the program consults through
    [re] and [int]: whether it is whitespace ([\s], [str.isspace]) and its
    value as a decimal digit ([\d], [int]).  The tables belong to the
    Unicode database of the Python release and grow from one release to
    the next. *)
Class Unicode := {
  is_whitespace : Z -> bool;
  decimal_value : Z -> option Z
}.

Definition is_decimal `{Unicode} (c : Z) : bool :=
  match decimal_value c with Some _ => true | None => false end.

(** The path routine of [os.path] that the program calls; its separators
    are those of the platform. *)
Class OsPath := {
  os_path_basename : string -> string
}.

(* ===================================================================== *)
(** ** The fragment of [re] used by the file-name patterns *)
(* ===================================================================== *)

Module Regex.

(** One-character classes: a literal code point, [\d], [\s]. *)
Inductive cls := Lit (c : Z) | Digit | Space.

(** A pattern is a sequence of items; an item is a class repeated
    greedily between [it_min] and [it_max] times ([None]: no upper
    bound), possibly recorded as a numbered group. *)
Record item := {
  it_cls : cls;
  it_min : nat;
  it_max : option nat;
  it_group : option nat
}.

Definition one (k : cls) : item :=
  {| it_cls := k; it_min := 1; it_max := Some 1%nat; it_group := None |}.
Definition lits (s : string) : list item :=
  map (fun c => one (Lit c)) (Utf8.decode s).
Definition plus (k : cls) : item :=
  {| it_cls := k; it_min := 1; it_max := None; it_group := None |}.
Definition opt (k : cls) : item :=
  {| it_cls := k; it_min := 0; it_max := Some 1%nat; it_group := None |}.
Definition rep (k : cls) (lo hi : nat) : item :=
  {| it_cls := k; it_min := lo; it_max := Some hi; it_group := None |}.
Definition grp (g : nat) (k : cls) (lo hi : nat) : item :=
  {| it_cls := k; it_min := lo; it_max := Some hi; it_group := Some g |}.

(** What the groups of a match hold, as code points. *)
Definition captures : Type := list (nat * list Z).

(** One item against the head of [s], with [rest] matching what follows:
    the item takes [n] characters, and gives them back one by one while
    the rest of the pattern fails. *)
Fixpoint give_back (rest : list Z -> option captures) (it : item)
    (s : list Z) (n : nat) : option captures :=
  let attempt := if (it_min it <=? n)%nat then rest (drop n s) else None in
  match attempt with
  | Some caps =>
      Some match it_group it with
           | Some g => (g, take n s) :: caps
           | None => caps
           end
  | None =>
      match n with
      | O => None
      | S n' => give_back rest it s n'
      end
  end.

(** [m.group(g)] for a group that took part in the match. *)
Fixpoint group (g : nat) (m : captures) : list Z :=
  match m with
  | [] => []
  | (g', s) :: m' => if (g =? g')%nat then s else group g m'
  end.

Section Matching.

Context `{Unicode}.

Definition cls_matches (k : cls) (c : Z) : bool :=
  match k with
  | Lit c' => c =? c'
  | Digit => is_decimal c
  | Space => is_whitespace c
  end.

(** Length of the longest prefix of [s] inside the class. *)
Fixpoint run (k : cls) (s : list Z) : nat :=
  match s with
  | c :: s' => if cls_matches k c then S (run k s') else O
  | [] => O
  end.

(** Match the pattern at the head of [s]: every item first takes as many
    characters as it can. *)
Fixpoint match_here (r : list item) (s : list Z) : option captures :=
  match r with
  | [] => Some []
  | it :: r' =>
      let avail := run (it_cls it) s in
      let most := match it_max it with
                  | Some hi => Nat.min hi avail
                  | None => avail
                  end in
      give_back (match_here r') it s most
  end.

(** [re.search]: the leftmost position where the pattern matches. *)
Fixpoint search_from (r : list item) (s : list Z) : option captures :=
  match match_here r s with
  | Some caps => Some caps
  | None =>
      match s with
      | [] => None
      | _ :: s' => search_from r s'
      end
  end.

Definition search (r : list item) (s : string) : option captures :=
  search_from r (Utf8.decode s).

End Matching.

End Regex.

(** [s.zfill(width)], on code points: the padding goes after a leading
    sign. *)
Definition zfill (width : nat) (s : list Z) : list Z :=
  let zeros := repeat 48 (width - length s) in
  match s with
  | c :: rest =>
      if (c =? 43) || (c =? 45) then c :: zeros ++ rest
      else zeros ++ s
  | [] => zeros
  end.

(** [int(s)] on text made of decimal digits, which is all that reaches it
    from the patterns; [None] stands for its [ValueError]. *)
Fixpoint int_of_text_from `{Unicode} (acc : Z) (s : list Z) : option Z :=
  match s with
  | [] => Some acc
  | c :: s' =>
      match decimal_value c with
      | Some d => int_of_text_from (10 * acc + d) s'
      | None => None
      end
  end.

Definition int_of_text `{Unicode} (s : list Z) : option Z :=
  match s with
  | [] => None
  | _ => int_of_text_from 0 s
  end.

(* ===================================================================== *)
(** ** File-name dates *)
(* ===================================================================== *)

(** [r'Programa_SD_(\d{1,2})_(\d{1,2})_\d{4}_'] *)
Definition pattern_sd : list Regex.item :=
  Regex.lits "Programa_SD_" ++ [Regex.grp 1 Regex.Digit 1 2]
  ++ Regex.lits "_" ++ [Regex.grp 2 Regex.Digit 1 2]
  ++ Regex.lits "_" ++ [Regex.rep Regex.Digit 4 4] ++ Regex.lits "_".

(** [r'Envíos\s+CBs?\s+(\d{1,2})-(\d{1,2})'] *)
Definition pattern_cb : list Regex.item :=
  Regex.lits "Envíos" ++ [Regex.plus Regex.Space]
  ++ Regex.lits "CB" ++ [Regex.opt (Regex.Lit 115)] ++ [Regex.plus Regex.Space]
  ++ [Regex.grp 1 Regex.Digit 1 2] ++ Regex.lits "-"
  ++ [Regex.grp 2 Regex.Digit 1 2].

(** [r'(\d{1,2})_(\d{1,2})'] *)
Definition pattern_generic : list Regex.item :=
  [Regex.grp 1 Regex.Digit 1 2] ++ Regex.lits "_"
  ++ [Regex.grp 2 Regex.Digit 1 2].

(** [(m.group(1).zfill(2), m.group(2).zfill(2))]: the padded day and
    month of a match. *)
Definition day_month (m : Regex.captures) : list Z * list Z :=
  (zfill 2 (Regex.group 1 m), zfill 2 (Regex.group 2 m)).

Section FileNameDates.

Context `{OsPath} `{Unicode}.

(** The [try] body of [ShipmentXMLGenerator.extract_date_from_filename]:
    the nested pattern tests, then the range check; it returns
    (month, day). *)
Definition extract_date_try (file_name : string) : result (string * string) :=
  let found :=
    match Regex.search pattern_sd file_name with
    | Some m => Ok (day_month m)
    | None =>
        match Regex.search pattern_cb file_name with
        | Some m => Ok (day_month m)
        | None =>
            match Regex.search pattern_generic file_name with
            | Some m => Ok (day_month m)
            | None => Raise (Exn ValueError "Patrón de fecha no encontrado")
            end
        end
    end in
  match found with
  | Raise e => Raise e
  | Ok (day, month) =>
      match int_of_text day, int_of_text month with
      | Some day_int, Some month_int =>
          if (1 <=? day_int) && (day_int <=? 31)
             && (1 <=? month_int) && (month_int <=? 12)
          then Ok (Utf8.encode month, Utf8.encode day)
          else Raise (Exn ValueError "Fecha fuera de rango")
      | _, _ => Raise (Exn ValueError "invalid literal for int() with base 10")
      end
  end.

(** [ShipmentXMLGenerator.extract_date_from_filename]; [now] is the reading
    of [datetime.now()] taken in the handler. *)
Definition extract_date_from_filename
    (now : DateTime.datetime) (file_path : string) : string * string :=
  match extract_date_try (os_path_basename file_path) with
  | Ok md => md
  | Raise _ => (DateTime.strftime_m now, DateTime.strftime_d now)
  end.

(** The module-level [extract_date_from_input_file], used for the
    availability workbook: (month, day), or (None, None). *)
Definition extract_date_from_input_file
    (input_file : string) : option string * option string :=
  let file_name := os_path_basename input_file in
  match Regex.search pattern_sd file_name with
  | Some m =>
      let '(day, month) := day_month m in
      (Some (Utf8.encode month), Some (Utf8.encode day))
  | None =>
      match Regex.search pattern_cb file_name with
      | Some m =>
          let '(day, month) := day_month m in
          (Some (Utf8.encode month), Some (Utf8.encode day))
      | None =>
          match Regex.search pattern_generic file_name with
          | Some m =>
              let '(day, month) := day_month m in
              (Some (Utf8.encode month), Some (Utf8.encode day))
          | None => (None, None)
          end
      end
  end.

End FileNameDates.

(* ===================================================================== *)
(** ** DatabaseManager *)
(* ===================================================================== *)

(** A numeric column value as the connector hands it over: an int for an
    integer column, a float for a real one (a DECIMAL value behaves in the
    conversions below as the double nearest to it). *)
Inductive sqlnum :=
| SqlInt (z : Z)
| SqlReal (f : spec_float).

Definition pyval_of_sqlnum (n : sqlnum) : pyval :=
  match n with SqlInt z => VInt z | SqlReal f => VFloat f end.

(** [float(x)] and [int(x)] on a numeric column value. *)
Definition float_of_sqlnum (n : sqlnum) : result spec_float :=
  match n with SqlInt z => PyFloat.of_int z | SqlReal f => Ok f end.

Definition int_of_sqlnum (n : sqlnum) : result Z :=
  match n with SqlInt z => Ok z | SqlReal f => PyFloat.to_int f end.

(** Truth value of a nullable numeric column: NULL and zero are false. *)
Definition sqlnum_truthy (n : option sqlnum) : bool :=
  match n with
  | None => false
  | Some x => truthy (pyval_of_sqlnum x)
  end.

(** Rows of [dados_produtos] (key [codigo]) and of [maestro_envases] (key
    [codigo_envase]); [None] is SQL NULL. *)
Record producto := {
  nombre : option string;
  codigo_commodity : option string;
  hl_por_pallet : option sqlnum;
  bultos_x_pallet : option sqlnum
}.

Record envase := {
  descripcion : option string;
  hl_x_pallet : option sqlnum;
  env_bultos_x_pallet : option sqlnum
}.

(** The store behind the connection.  Master tables are maps from their
    key; [shipment_sequence] lists the column [last_reference_number] by
    ascending [id], so that [ORDER BY id DESC LIMIT 1] is the last element
    and an INSERT appends.  [online] tells whether statements reach the
    server; when they do not, every statement raises the connector's
    error. *)
Record database := {
  online : bool;
  dados_produtos : gmap Z producto;
  maestro_envases : gmap Z envase;
  maestro_dtto : gmap string pyval;
  shipment_sequence : list (option Z)
}.

Definition set_shipment_sequence (db : database) (s : list (option Z)) : database :=
  {| online := online db;
     dados_produtos := dados_produtos db;
     maestro_envases := maestro_envases db;
     maestro_dtto := maestro_dtto db;
     shipment_sequence := s |}.

Module DatabaseManager.

(** [execute_query(query, (key,), fetch_one=True)] for a query by key:
    the row, or [None] when there is none or the statement failed (the
    error is logged and swallowed). *)
Definition execute_query {K R} `{Countable K}
    (db : database) (table : gmap K R) (key : K) : option R :=
  if online db then table !! key else None.

(** [get_next_reference_number]; [now] is the clock reading used by the
    handler. *)
Definition get_next_reference_number
    (now : DateTime.datetime) (db : database) : string * database :=
  if online db then
    let '(next_number, rows) :=
      match last (shipment_sequence db) with
      | Some (Some v) =>
          if negb (v =? 0) then (v + 1, shipment_sequence db)
          else (11111, (shipment_sequence db ++ [Some 11111]))
      | _ => (11111, (shipment_sequence db ++ [Some 11111]))
      end in
    (* UPDATE ... WHERE id = (the highest id) *)
    let rows' := <[ pred (length rows) := Some next_number ]> rows in
    (str_of_int next_number, set_shipment_sequence db rows')
  else
    let timestamp := substring 0 10 (DateTime.strftime_clock now) in
    ("11" +:+ timestamp, db).

(** [get_sku_name] *)
Definition get_sku_name (db : database) (codigo_prod : Z) : pyval :=
  match execute_query db (dados_produtos db) codigo_prod with
  | Some result => from_option VStr VNone (nombre result)
  | None =>
      match execute_query db (maestro_envases db) codigo_prod with
      | Some result => from_option VStr VNone (descripcion result)
      | None => VStr ("PRODUCTO_" +:+ str_of_int codigo_prod)
      end
  end.

(** [get_priority] *)
Definition get_priority (db : database) (origen destino : Z) : pyval :=
  let ruta1 := "BO_" +:+ str_of_int origen +:+ "-BO_" +:+ str_of_int destino in
  let ruta2 := "BO_" +:+ str_of_int destino +:+ "-BO_" +:+ str_of_int origen in
  match execute_query db (maestro_dtto db) ruta1 with
  | Some prioridad => prioridad
  | None =>
      match execute_query db (maestro_dtto db) ruta2 with
      | Some prioridad => prioridad
      | None => VInt 1
      end
  end.

(** [get_commodity] *)
Definition get_commodity (db : database) (codigo_prod : Z) : pyval :=
  match execute_query db (dados_produtos db) codigo_prod with
  | Some result =>
      match codigo_commodity result with
      | Some c => if negb (String.eqb c "") then VStr c else VStr "BO_BR"
      | None => VStr "BO_BR"
      end
  | None => VStr "BO_BR"
  end.

(** [round(float(rate) * float(pallets), 4)] *)
Definition hl_times (rate : sqlnum) (pallets : Z) : result spec_float :=
  match float_of_sqlnum rate with
  | Raise e => Raise e
  | Ok r =>
      match PyFloat.of_int pallets with
      | Raise e => Raise e
      | Ok p => Ok (PyFloat.round_ndigits (PyFloat.mul r p) 4)
      end
  end.

(** The per-pallet rate a query result supplies: the column when the row
    exists and the value is true. *)
Definition rate_of {R} (col : R -> option sqlnum) (result : option R) : option sqlnum :=
  match result with
  | Some row => if sqlnum_truthy (col row) then col row else None
  | None => None
  end.

(** [get_hectolitros]; the [except] clause turns any exception into
    [0.0]. *)
Definition get_hectolitros (db : database) (codigo_prod pallets : Z) : spec_float :=
  let body :=
    match rate_of hl_por_pallet (execute_query db (dados_produtos db) codigo_prod) with
    | Some rate => hl_times rate pallets
    | None =>
        match rate_of hl_x_pallet (execute_query db (maestro_envases db) codigo_prod) with
        | Some rate => hl_times rate pallets
        | None => Ok (S754_zero false)
        end
    end in
  match body with
  | Ok hl => hl
  | Raise _ => S754_zero false
  end.

(** [int(rate) * int(pallets)] *)
Definition bultos_times (rate : sqlnum) (pallets : Z) : result Z :=
  match int_of_sqlnum rate with
  | Raise e => Raise e
  | Ok r => Ok (r * pallets)
  end.

(** [get_bultos]; the [except] clause turns any exception into [0]. *)
Definition get_bultos (db : database) (codigo_prod pallets : Z) : Z :=
  let body :=
    match rate_of bultos_x_pallet (execute_query db (dados_produtos db) codigo_prod) with
    | Some rate => bultos_times rate pallets
    | None =>
        match rate_of env_bultos_x_pallet (execute_query db (maestro_envases db) codigo_prod) with
        | Some rate => bultos_times rate pallets
        | None => Ok 0
        end
    end in
  match body with
  | Ok b => b
  | Raise _ => 0
  end.

(** [get_sku_per_truck_count] *)
Definition get_sku_per_truck_count
    (shipment_id : pyval) (all_shipments : list (gmap string pyval)) : Z :=
  let count :=
    Z.of_nat (length (filter
      (fun s => py_eqb (default VNone (s !! "Cód. Envío")) shipment_id = true)
      all_shipments)) in
  if 0 <? count then count else 1.

End DatabaseManager.

(* ===================================================================== *)
(** ** ShipmentXMLGenerator: state *)
(* ===================================================================== *)

(** One row of the output sheet, by its twenty headers. *)
Record xml_record := {
  Type_ : pyval;
  Shipment_Number : pyval;
  Shipment_Desription : pyval;
  Commodity : pyval;
  Priority : pyval;
  OriginLocation : pyval;
  DestinationLocation : pyval;
  PickupFrom : pyval;
  PickupTo : pyval;
  DeliveryFrom : pyval;
  DeliveryTo : pyval;
  Carrier : pyval;
  Service : pyval;
  ReferenceNumberType : pyval;
  ReferenceNumber : pyval;
  Quantity : pyval;
  Weight : pyval;
  Hectolitros : pyval;
  Bultos : pyval;
  Pallets : pyval
}.

(** [self.validation_stats] *)
Record stats := {
  total_records : Z;
  header_records : Z;
  detail_records : Z;
  priority_conversions : gmap string Z;
  reference_numbers_generated : list string;
  database_queries : Z;
  errors : list string
}.

(** The generator object together with the world it talks to: the
    database behind [self.db], and the wall clock, given as the sequence
    of the readings [datetime.now()] returns, with the number of readings
    taken so far. *)
Record generator := {
  db : database;
  clock : nat -> DateTime.datetime;
  clock_reads : nat;
  shipment_data : list xml_record;
  validation_stats : stats
}.

Definition initial_stats : stats :=
  {| total_records := 0; header_records := 0; detail_records := 0;
     priority_conversions := ∅; reference_numbers_generated := [];
     database_queries := 0; errors := [] |}.

(** The object [__init__] builds, over a given store and clock. *)
Definition new_generator (d : database) (c : nat -> DateTime.datetime) : generator :=
  {| db := d; clock := c; clock_reads := 0;
     shipment_data := []; validation_stats := initial_stats |}.

Definition set_db (d : database) (g : generator) : generator :=
  {| db := d; clock := clock g; clock_reads := clock_reads g;
     shipment_data := shipment_data g; validation_stats := validation_stats g |}.

Definition set_clock_reads (n : nat) (g : generator) : generator :=
  {| db := db g; clock := clock g; clock_reads := n;
     shipment_data := shipment_data g; validation_stats := validation_stats g |}.

Definition set_shipment_data (l : list xml_record) (g : generator) : generator :=
  {| db := db g; clock := clock g; clock_reads := clock_reads g;
     shipment_data := l; validation_stats := validation_stats g |}.

Definition set_stats (s : stats) (g : generator) : generator :=
  {| db := db g; clock := clock g; clock_reads := clock_reads g;
     shipment_data := shipment_data g; validation_stats := s |}.

(** Computations of the methods: they read and update the generator and
    either return or raise; what was written before a raise stays
    written. *)
Definition M (A : Type) : Type := generator -> result A * generator.

Definition ret {A} (a : A) : M A := fun g => (Ok a, g).

Definition raise {A} (e : exn) : M A := fun g => (Raise e, g).

Definition bind {A B} (m : M A) (k : A -> M B) : M B :=
  fun g =>
    match m g with
    | (Ok a, g') => k a g'
    | (Raise e, g') => (Raise e, g')
    end.

(** [try: m  except Exception as e: handler(e)] *)
Definition try_except {A} (m : M A) (handler : exn -> M A) : M A :=
  fun g =>
    match m g with
    | (Ok a, g') => (Ok a, g')
    | (Raise e, g') => handler e g'
    end.

Definition lift {A} (r : result A) : M A := fun g => (r, g).

Definition modify_stats (f : stats -> stats) : M unit :=
  fun g => (Ok tt, set_stats (f (validation_stats g)) g).

Declare Scope gen_scope.
Delimit Scope gen_scope with gen.
Notation "x <- m ;; k" := (bind m (fun x => k))
  (at level 100, m at next level, right associativity) : gen_scope.
Notation "m ;;; k" := (bind m (fun _ => k))
  (at level 100, right associativity) : gen_scope.

(** [datetime.now()] *)
Definition datetime_now : M DateTime.datetime :=
  fun g => (Ok (clock g (clock_reads g)), set_clock_reads (S (clock_reads g)) g).

(** Updates of the counters. *)
Definition incr_database_queries (s : stats) : stats :=
  {| total_records := total_records s; header_records := header_records s;
     detail_records := detail_records s;
     priority_conversions := priority_conversions s;
     reference_numbers_generated := reference_numbers_generated s;
     database_queries := database_queries s + 1; errors := errors s |}.

Definition incr_header_records (s : stats) : stats :=
  {| total_records := total_records s; header_records := header_records s + 1;
     detail_records := detail_records s;
     priority_conversions := priority_conversions s;
     reference_numbers_generated := reference_numbers_generated s;
     database_queries := database_queries s; errors := errors s |}.

Definition incr_detail_records (s : stats) : stats :=
  {| total_records := total_records s; header_records := header_records s;
     detail_records := detail_records s + 1;
     priority_conversions := priority_conversions s;
     reference_numbers_generated := reference_numbers_generated s;
     database_queries := database_queries s; errors := errors s |}.

Definition add_total_records (n : Z) (s : stats) : stats :=
  {| total_records := total_records s + n; header_records := header_records s;
     detail_records := detail_records s;
     priority_conversions := priority_conversions s;
     reference_numbers_generated := reference_numbers_generated s;
     database_queries := database_queries s; errors := errors s |}.

Definition append_reference_number (r : string) (s : stats) : stats :=
  {| total_records := total_records s; header_records := header_records s;
     detail_records := detail_records s;
     priority_conversions := priority_conversions s;
     reference_numbers_generated := reference_numbers_generated s ++ [r];
     database_queries := database_queries s; errors := errors s |}.

(** [if key not in d: d[key] = 0] then [d[key] += 1] *)
Definition count_priority (key : string) (s : stats) : stats :=
  {| total_records := total_records s; header_records := header_records s;
     detail_records := detail_records s;
     priority_conversions :=
       <[ key := default 0 (priority_conversions s !! key) + 1 ]>
         (priority_conversions s);
     reference_numbers_generated := reference_numbers_generated s;
     database_queries := database_queries s; errors := errors s |}.

Definition append_error (msg : string) (s : stats) : stats :=
  {| total_records := total_records s; header_records := header_records s;
     detail_records := detail_records s;
     priority_conversions := priority_conversions s;
     reference_numbers_generated := reference_numbers_generated s;
     database_queries := database_queries s; errors := errors s ++ [msg] |}.

(* ===================================================================== *)
(** ** ShipmentXMLGenerator: conversions and identifiers *)
(* ===================================================================== *)

Definition COUNTRY_CHAR : string := "BO".
Definition PALLET_PRODUCT_CODE : Z := 1100.
Definition PALLET_QUANTITY : Z := 24.
Definition WEIGHT_PER_UNIT : Z := 45.

(** A manifest row: pandas' [Series], or the dict [to_dict] makes of it. *)
Abbreviation manifest_row := (gmap string pyval).

(** The manifest as loaded: its column names, and its rows with their
    index labels. *)
Record dataframe := {
  columns : list string;
  rows : list (Z * manifest_row)
}.

(** A cell of a numeric column: a float, or an integer that fits the
    64-bit integer column type. *)
Definition numeric_cell (v : pyval) : bool :=
  match v with
  | VInt z => (- 2 ^ 63 <=? z) && (z <? 2 ^ 63)
  | VFloat _ => true
  | _ => false
  end.

Definition float_cell (v : pyval) : bool :=
  match v with VFloat _ => true | _ => false end.

(** The conversion of a numeric cell to the 64-bit float type. *)
Definition astype_float64 (v : pyval) : pyval :=
  match v with
  | VInt z => VFloat (PyFloat.of_Z z)
  | _ => v
  end.

(** A frame whose rows come out of [iterrows] as float rows: every cell
    is numeric and some cell is a float, so that the common type of the
    columns is the 64-bit float. *)
Definition float64_frame (df : dataframe) : bool :=
  forallb (fun ir => forallb (fun kv => numeric_cell kv.2) (map_to_list ir.2)) (rows df)
  && existsb (fun ir => existsb (fun kv => float_cell kv.2) (map_to_list ir.2)) (rows df).

(** [df.iterrows()]: the index labels with the rows as [Series].  A
    [Series] has one type for all its cells: when the columns are all
    numeric and not all integer, the integers of the row come out as
    floats; with a column of another kind the cells come out as they
    are. *)
Definition iterrows (df : dataframe) : list (Z * manifest_row) :=
  if float64_frame df
  then map (fun ir => (ir.1, astype_float64 <$> ir.2)) (rows df)
  else rows df.

(** [df.to_dict('records')]: one dict per row, each cell as its column
    holds it. *)
Definition to_dict_records (df : dataframe) : list manifest_row :=
  map snd (rows df).

(** [row[key]] *)
Definition getitem (r : manifest_row) (key : string) : result pyval :=
  match r !! key with
  | Some v => Ok v
  | None => Raise (Exn KeyError ("'" +:+ key +:+ "'"))
  end.

(** [except (ValueError, TypeError): return default] *)
Definition except_value_type {A} (default : A) (r : result A) : result A :=
  match r with
  | Raise (Exn ValueError _) | Raise (Exn TypeError _) => Ok default
  | _ => r
  end.

(** [a + b] on the values that reach [process_weight]. *)
Definition py_add (a b : pyval) : result pyval :=
  match a, b with
  | VInt x, VInt y => Ok (VInt (x + y))
  | VFloat x, VFloat y => Ok (VFloat (PyFloat.add x y))
  | VFloat x, VInt y =>
      match PyFloat.of_int y with
      | Ok f => Ok (VFloat (PyFloat.add x f))
      | Raise e => Raise e
      end
  | VInt x, VFloat y =>
      match PyFloat.of_int x with
      | Ok f => Ok (VFloat (PyFloat.add f y))
      | Raise e => Raise e
      end
  | VStr x, VStr y => Ok (VStr (x +:+ y))
  | _, _ => Raise (Exn TypeError "unsupported operand type(s) for +")
  end.

(** [list.sort()] on strings, by insertion. *)
Fixpoint insert_sorted (s : string) (l : list string) : list string :=
  match l with
  | [] => [s]
  | x :: l' => if String.leb s x then s :: l else x :: insert_sorted s l'
  end.

Definition sort_strings (l : list string) : list string :=
  fold_left (fun acc s => insert_sorted s acc) l [].

(** [l.index(s)] *)
Fixpoint list_index (s : string) (l : list string) : option Z :=
  match l with
  | [] => None
  | x :: l' =>
      if String.eqb x s then Some 0
      else option_map Z.succ (list_index s l')
  end.

(** The four window limits [calculate_dates] returns. *)
Record dates := {
  pickup_from : string;
  pickup_to : string;
  delivery_from : string;
  delivery_to : string
}.

(** [calculate_dates] on a timestamp. *)
Definition calculate_dates (base_date : DateTime.datetime) : dates :=
  {| pickup_from := DateTime.strftime_minute base_date;
     pickup_to := DateTime.strftime_minute (DateTime.add base_date 20 0);
     delivery_from := DateTime.strftime_minute (DateTime.add base_date 0 1);
     delivery_to := DateTime.strftime_minute (DateTime.add base_date 25 0) |}.

(** [process_weight]; the bare [except] returns
    [base_weight if base_weight else 0]. *)
Definition process_weight (base_weight : pyval) (quantity : Z) : pyval :=
  match py_add base_weight (VInt (quantity * WEIGHT_PER_UNIT)) with
  | Ok total_weight => total_weight
  | Raise _ => if truthy base_weight then base_weight else VInt 0
  end.

Section Conversions.

Context `{PyText}.

(** [safe_numeric_conversion] *)
Definition safe_numeric_conversion (value default : pyval) : result pyval :=
  if pd_isna value || py_eqb value (VStr "") then Ok default
  else
    except_value_type default
      match value with
      | VInt z =>
          match PyFloat.of_int z with
          | Ok f => Ok (VFloat f)
          | Raise e => Raise e
          end
      | VFloat f => Ok (VFloat f)
      | _ =>
          let value_str := str_strip (py_str value) in
          if String.eqb value_str "" then Ok default
          else
            match float_of_str value_str with
            | Some f => Ok (VFloat f)
            | None =>
                Raise (Exn ValueError "could not convert string to float")
            end
      end.

(** [safe_int_conversion] *)
Definition safe_int_conversion (value : pyval) (default : Z) : result Z :=
  if pd_isna value || py_eqb value (VStr "") then Ok default
  else
    except_value_type default
      match value with
      | VInt z => Ok z
      | VFloat f => PyFloat.to_int f
      | _ =>
          let value_str := str_strip (py_str value) in
          if String.eqb value_str "" then Ok default
          else
            match float_of_str value_str with
            | Some f => PyFloat.to_int f
            | None =>
                Raise (Exn ValueError "could not convert string to float")
            end
      end.

(** The loop of [generate_unique_route_correlative] that collects the
    distinct routes of the trip. *)
Fixpoint collect_routes (viaje_number : Z) (all_shipments : list manifest_row)
    (viaje_routes : list string) : result (list string) :=
  match all_shipments with
  | [] => Ok viaje_routes
  | shipment :: rest =>
      match safe_int_conversion (default VNone (shipment !! "# Viaje")) 0 with
      | Raise e => Raise e
      | Ok ship_viaje =>
      match safe_int_conversion (default VNone (shipment !! "Cód. Origen")) 0 with
      | Raise e => Raise e
      | Ok ship_origen =>
      match safe_int_conversion (default VNone (shipment !! "Cód. Destino")) 0 with
      | Raise e => Raise e
      | Ok ship_destino =>
          let route_key := str_of_int ship_origen +:+ "-" +:+ str_of_int ship_destino in
          collect_routes viaje_number rest
            (if (ship_viaje =? viaje_number)
                && negb (existsb (String.eqb route_key) viaje_routes)
             then viaje_routes ++ [route_key]
             else viaje_routes)
      end end end
  end.

(** [generate_unique_route_correlative] *)
Definition generate_unique_route_correlative
    (viaje_number origen destino : Z) (all_shipments : list manifest_row) : result Z :=
  match collect_routes viaje_number all_shipments [] with
  | Raise e => Raise e
  | Ok viaje_routes =>
      let sorted := sort_strings viaje_routes in
      let current_route := str_of_int origen +:+ "-" +:+ str_of_int destino in
      let route_index :=
        match list_index current_route sorted with
        | Some i => i + 1
        | None => 1
        end in
      Ok (viaje_number * 100 + route_index)
  end.

(** The string hashed by [generate_shipment_number]. *)
Definition unique_string (row_data : manifest_row) (index : Z) : string :=
  py_str (default (VStr "") (row_data !! "Cód. Envío")) +:+ "-"
  +:+ py_str (default (VStr "") (row_data !! "Cód. Prod")) +:+ "-"
  +:+ py_str (default (VStr "") (row_data !! "Cód. Origen")) +:+ "-"
  +:+ py_str (default (VStr "") (row_data !! "Cód. Destino")) +:+ "-"
  +:+ str_of_int index.

(** [generate_shipment_number] *)
Definition generate_shipment_number (row_data : manifest_row) (index : Z) : string :=
  let hash_short :=
    default 0 (Md5.int_of_hex
      (substring 0 8 (Md5.hexdigest (unique_string row_data index)))) in
  let final_number := 2226500000 + hash_short mod 999999 in
  COUNTRY_CHAR +:+ str_of_int final_number.

End Conversions.

(* ===================================================================== *)
(** ** ShipmentXMLGenerator: [process_record] and [process_all_data] *)
(* ===================================================================== *)

Section Pipeline.

Context `{PyText}.

Local Open Scope gen_scope.

(** [self.db.get_next_reference_number()] seen from the generator: the
    clock is read only by the fallback. *)
Definition db_get_next_reference_number : M string :=
  fun g =>
    let '(reference, d) :=
      DatabaseManager.get_next_reference_number (clock g (clock_reads g)) (db g) in
    (Ok reference,
     set_db d (if online (db g) then g else set_clock_reads (S (clock_reads g)) g)).

(** A query method of [self.db] followed by
    [self.validation_stats['database_queries'] += 1]. *)
Definition db_query {A} (q : database -> A) : M A :=
  fun g => (Ok (q (db g)), set_stats (incr_database_queries (validation_stats g)) g).

(** The [try] body of [process_record]. *)
Definition process_record_body (row : manifest_row) (index ship_num : Z)
    (all_shipments : list manifest_row) : M (list xml_record) :=
  viaje_number <- lift (safe_int_conversion (default VNone (row !! "# Viaje")) (index + 1)) ;;
  cod_prod <- lift (getitem row "Cód. Prod") ;;
  code_prod <- lift (safe_int_conversion cod_prod 0) ;;
  pallets <- lift (getitem row "Pallets") ;;
  quantity <- lift (safe_int_conversion pallets 1) ;;
  let base_date := default VNone (row !! "Fecha") in
  peso <- lift (getitem row "Peso Total Carga") ;;
  base_weight <- lift (safe_numeric_conversion peso (VInt 0)) ;;
  cod_origen <- lift (getitem row "Cód. Origen") ;;
  origen <- lift (safe_int_conversion cod_origen 1) ;;
  cod_destino <- lift (getitem row "Cód. Destino") ;;
  destino <- lift (safe_int_conversion cod_destino 1) ;;
  operador <- lift (getitem row "Operador Logístico") ;;
  let carrier := if negb (pd_isna operador) then py_str operador else "" in
  let shipment_id := default (VStr "") (row !! "Cód. Envío") in
  (* consultas a base de datos *)
  sku_name <- db_query (fun d => DatabaseManager.get_sku_name d code_prod) ;;
  priority_numeric <- db_query (fun d => DatabaseManager.get_priority d origen destino) ;;
  commodity <- db_query (fun d => DatabaseManager.get_commodity d code_prod) ;;
  hectolitros <- db_query (fun d => DatabaseManager.get_hectolitros d code_prod quantity) ;;
  bultos <- db_query (fun d => DatabaseManager.get_bultos d code_prod quantity) ;;
  let sku_per_truck := DatabaseManager.get_sku_per_truck_count shipment_id all_shipments in
  sales_order_reference <- db_get_next_reference_number ;;
  modify_stats (append_reference_number sales_order_reference) ;;;
  modify_stats (count_priority (py_str priority_numeric)) ;;;
  (* ajustar cantidad si es pallet *)
  let quantity := if code_prod =? PALLET_PRODUCT_CODE then PALLET_QUANTITY else quantity in
  unique_route_id <- lift (generate_unique_route_correlative viaje_number origen destino all_shipments) ;;
  let row_dict := row in
  let shipment_number := generate_shipment_number row_dict index in
  now <- datetime_now ;;
  let dates := calculate_dates now in
  let total_weight := process_weight base_weight quantity in
  let lane := "BO_" +:+ str_of_int origen +:+ "-BO_" +:+ str_of_int destino in
  let pallet_ret := default (VStr "") (row !! "Pallet_Retornable") in
  let pallet_ret := if pd_isna pallet_ret then VStr "" else pallet_ret in
  let header_record :=
    {| Type_ := VStr "H";
       Shipment_Number := VStr shipment_number;
       Shipment_Desription := sku_name;
       Commodity := commodity;
       Priority := priority_numeric;
       OriginLocation := VStr (COUNTRY_CHAR +:+ "_" +:+ str_of_int origen);
       DestinationLocation := VStr (COUNTRY_CHAR +:+ "_" +:+ str_of_int destino);
       PickupFrom := VStr (pickup_from dates);
       PickupTo := VStr (pickup_to dates);
       DeliveryFrom := VStr (delivery_from dates);
       DeliveryTo := VStr (delivery_to dates);
       Carrier := VStr "";
       Service := VStr "";
       ReferenceNumberType := VStr "SALES_ORDER";
       ReferenceNumber := VStr sales_order_reference;
       Quantity := VStr "";
       Weight := VStr "";
       Hectolitros := VStr "";
       Bultos := VStr "";
       Pallets := VStr "" |} in
  let records := [header_record] in
  modify_stats incr_header_records ;;;
  let detail1_record :=
    {| Type_ := VStr "D";
       Shipment_Number := VStr "";
       Shipment_Desription := VStr "";
       Commodity := VStr "";
       Priority := VStr "";
       OriginLocation := VStr "";
       DestinationLocation := VStr "";
       PickupFrom := VStr "";
       PickupTo := VStr "";
       DeliveryFrom := VStr "";
       DeliveryTo := VStr "";
       Carrier := VStr "";
       Service := VStr "";
       ReferenceNumberType := VStr "CODE_PROD";
       ReferenceNumber := VInt code_prod;
       Quantity := VStr "";
       Weight := VStr "";
       Hectolitros := VStr "";
       Bultos := VStr "";
       Pallets := VStr "" |} in
  let records := (records ++ [detail1_record]) in
  modify_stats incr_detail_records ;;;
  let detail2_record :=
    {| Type_ := VStr "D";
       Shipment_Number := VStr "";
       Shipment_Desription := VStr "";
       Commodity := VStr "";
       Priority := VStr "";
       OriginLocation := VStr "";
       DestinationLocation := VStr "";
       PickupFrom := VStr "";
       PickupTo := VStr "";
       DeliveryFrom := VStr "";
       DeliveryTo := VStr "";
       Carrier := VStr "";
       Service := VStr "";
       ReferenceNumberType := VStr "PALLET_RET";
       ReferenceNumber :=
         if negb (py_eqb pallet_ret (VStr "")) then VStr (py_str pallet_ret)
         else VStr "";
       Quantity := VStr "";
       Weight := VStr "";
       Hectolitros := VStr "";
       Bultos := VStr "";
       Pallets := VStr "" |} in
  let records := (records ++ [detail2_record]) in
  modify_stats incr_detail_records ;;;
  let detail3_record :=
    {| Type_ := VStr "D";
       Shipment_Number := VStr "";
       Shipment_Desription := VStr "";
       Commodity := VStr "";
       Priority := VStr "";
       OriginLocation := VStr "";
       DestinationLocation := VStr "";
       PickupFrom := VStr "";
       PickupTo := VStr "";
       DeliveryFrom := VStr "";
       DeliveryTo := VStr "";
       Carrier := VStr "";
       Service := VStr "";
       ReferenceNumberType := VStr "";
       ReferenceNumber := VStr "";
       Quantity := VInt quantity;
       Weight := total_weight;
       Hectolitros := VFloat hectolitros;
       Bultos := VInt bultos;
       Pallets := VStr "" |} in
  let records := (records ++ [detail3_record]) in
  modify_stats incr_detail_records ;;;
  modify_stats (add_total_records (Z.of_nat (length records))) ;;;
  ret records.

(** The entry [process_record] leaves in the error list. *)
Definition error_entry (index : Z) (e : exn) : string :=
  "Error registro " +:+ str_of_int index +:+ ": " +:+ exn_str e.

(** [process_record]: the handler records the error and raises again. *)
Definition process_record (row : manifest_row) (index ship_num : Z)
    (all_shipments : list manifest_row) : M (list xml_record) :=
  try_except (process_record_body row index ship_num all_shipments)
    (fun e => modify_stats (append_error (error_entry index e)) ;;; raise e).

(** [validate_uniqueness_before_processing]: [df['Cód. Envío']] raises
    when the column is missing, which the handler turns into [False]. *)
Definition validate_uniqueness_before_processing (df : dataframe) : bool :=
  bool_decide ("Cód. Envío" ∈ columns df).

(** [datetime.now().timestamp()], with the reading taken as UTC: the
    whole seconds since the epoch plus [microsecond / 1e6], in floats. *)
Definition timestamp (now : DateTime.datetime) : spec_float :=
  let days := DateTime.days_from_civil (DateTime.year now) (DateTime.month now) (DateTime.day now) in
  let seconds :=
    ((days * 24 + DateTime.hour now) * 60 + DateTime.minute now) * 60
    + DateTime.second now in
  PyFloat.add (PyFloat.of_Z seconds)
    (PyFloat.div (PyFloat.of_Z (DateTime.microsecond now)) (PyFloat.of_Z 1000000)).

(** [math.floor(datetime.now().timestamp() / 86400 * 110000)], the
    division and the product in floats. *)
Definition base_ship_num (now : DateTime.datetime) : Z :=
  let now_value := PyFloat.div (timestamp now) (PyFloat.of_Z 86400) in
  PyFloat.floor (PyFloat.mul now_value (PyFloat.of_Z 110000)).

(** The [for index, row in df.iterrows()] loop: a row that raises is
    logged and skipped. *)
Fixpoint process_rows (rs : list (Z * manifest_row)) (ship_num : Z)
    (all_shipments : list manifest_row) : M unit :=
  match rs with
  | [] => ret tt
  | (index, row) :: rest =>
      try_except
        (records <- process_record row index ship_num all_shipments ;;
         fun g => (Ok tt, set_shipment_data (shipment_data g ++ records) g))
        (fun _ => ret tt) ;;;
      process_rows rest ship_num all_shipments
  end.

(** [process_all_data] *)
Definition process_all_data (df : dataframe) : M unit :=
  if negb (validate_uniqueness_before_processing df)
  then raise (Exn ValueError "Falló validación de unicidad")
  else
    now <- datetime_now ;;
    let ship_num := base_ship_num now in
    let all_shipments := to_dict_records df in
    process_rows (iterrows df) ship_num all_shipments.

End Pipeline.

(* ===================================================================== *)
(** ** Plate roster: [generate_validated_plates_excel] *)
(* ===================================================================== *)

(** One entry of a plate list: the dict with keys Origen, Placa,
    Reusable. *)
Record plate := {
  Origen : string;
  Placa : string;
  Reusable : Z
}.

(** Order of [sort_values(['Origen', 'Placa'])]. *)
Definition plate_leb (a b : plate) : bool :=
  match String.compare (Origen a) (Origen b) with
  | Lt => true
  | Gt => false
  | Eq => String.leb (Placa a) (Placa b)
  end.

Fixpoint insert_plate (p : plate) (l : list plate) : list plate :=
  match l with
  | [] => [p]
  | x :: l' => if plate_leb p x then p :: l else x :: insert_plate p l'
  end.

(** A stable sort by (Origen, Placa). *)
Definition sort_plates (l : list plate) : list plate :=
  foldr insert_plate [] l.

Section Plates.

Context `{PyText}.

(** [f"{placa_info['Placa'].upper()}_{str(placa_info['Origen']).strip()}"] *)
Definition clave_unica (placa_info : plate) : string :=
  str_upper (Placa placa_info) +:+ "_" +:+ str_strip (Origen placa_info).

(** The normalisation loop over the external entries. *)
Definition normalize_externa (placa_info : plate) : plate :=
  {| Origen := str_strip (Origen placa_info);
     Placa := str_upper (Placa placa_info);
     Reusable := Reusable placa_info |}.

(** The deduplication loop: [placas_vistas] is the set of keys seen,
    [placas_unicas] the entries kept so far. *)
Fixpoint deduplicate (todas_las_placas : list plate)
    (placas_vistas : gset string) (placas_unicas : list plate) : list plate :=
  match todas_las_placas with
  | [] => placas_unicas
  | placa_info :: rest =>
      let clave := clave_unica placa_info in
      if decide (clave ∈ placas_vistas)
      then deduplicate rest placas_vistas placas_unicas
      else deduplicate rest ({[clave]} ∪ placas_vistas)
                       (placas_unicas ++ [placa_info])
  end.

(** Steps 3 to 6 of [generate_validated_plates_excel]: the external
    entries are normalised, the two lists concatenated A-then-B,
    deduplicated, and the result sorted. *)
Definition merge_plates (placas_bd placas_externas : list plate) : list plate :=
  let placas_externas := map normalize_externa placas_externas in
  let todas_las_placas := placas_bd ++ placas_externas in
  let placas_unicas := deduplicate todas_las_placas ∅ [] in
  match placas_unicas with
  | [] => []
  | _ => sort_plates placas_unicas
  end.

(** ["needle" in haystack] *)
Definition str_contains (needle haystack : string) : bool :=
  match String.index 0 needle haystack with
  | Some _ => true
  | None => false
  end.

(** The column search: the last column whose name contains the text. *)
Definition find_column (needle : string) (cols : list string) : option string :=
  last (filter (fun col => str_contains needle col = true) cols).

(** Step 1: the plates of the manifest whose driver group is
    "Transportadoras"; [drivers] maps a plate to its [grupo] column. *)
Definition placas_from_manifest (drivers : gmap string (option string))
    (col_codplanta col_placa : string) (rs : list (Z * manifest_row)) : list plate :=
  omap (fun ir =>
    let r := snd ir in
    let codplanta := default (VFloat S754_nan) (r !! col_codplanta) in
    let placa := default (VFloat S754_nan) (r !! col_placa) in
    if pd_isna placa || String.eqb (str_strip (py_str placa)) "" then None
    else
      match drivers !! py_str placa with
      | Some (Some "Transportadoras") =>
          Some {| Origen := str_strip (py_str codplanta);
                  Placa := str_upper (str_strip (py_str placa));
                  Reusable := 0 |}
      | _ => None
      end) rs.

(** [generate_validated_plates_excel], from the manifest sheet read as
    text, the drivers table and the entries
    [get_disponibilidad_camiones] returned, to the roster written to
    the workbook; [None] when a needed column is missing. *)
Definition generate_validated_plates_excel (df_input : dataframe)
    (drivers : gmap string (option string))
    (placas_externas : list plate) : option (list plate) :=
  match find_column "Cod Planta" (columns df_input),
        find_column "Placa" (columns df_input) with
  | Some col_codplanta, Some col_placa =>
      let placas_bd :=
        placas_from_manifest drivers col_codplanta col_placa (rows df_input) in
      Some (merge_plates placas_bd placas_externas)
  | _, _ => None
  end.

End Plates.

(* ===================================================================== *)
(** ** A text runtime for examples *)
(* ===================================================================== *)

(** The four text routines on plain input: ASCII whitespace and letters,
    unsigned decimal integers, and floats that are whole numbers below
    [10^16].  On such input they agree with the Python runtime; the
    examples below stay inside it. *)
Module AsciiText.

Definition is_digit (c : ascii) : bool :=
  let n := N_of_ascii c in ((48 <=? n) && (n <=? 57))%N.

Definition is_space (c : ascii) : bool :=
  let n := N_of_ascii c in
  (((9 <=? n) && (n <=? 13)) || ((28 <=? n) && (n <=? 32)))%N.

(** [int(s)] on a string of ASCII digits. *)
Fixpoint int_of_digits_from (acc : Z) (s : string) : option Z :=
  match s with
  | EmptyString => Some acc
  | String c s' =>
      if is_digit c
      then int_of_digits_from (10 * acc + (Md5.byte_of_ascii c - 48)) s'
      else None
  end.

Definition int_of_digits (s : string) : option Z :=
  match s with
  | EmptyString => None
  | _ => int_of_digits_from 0 s
  end.

Fixpoint lstrip (s : string) : string :=
  match s with
  | String c s' => if is_space c then lstrip s' else s
  | EmptyString => EmptyString
  end.

Definition rev_string (s : string) : string :=
  string_of_list_ascii (rev (list_ascii_of_string s)).

Definition strip (s : string) : string :=
  rev_string (lstrip (rev_string (lstrip s))).

Definition upper_char (c : ascii) : ascii :=
  let n := N_of_ascii c in
  if ((97 <=? n) && (n <=? 122))%N then ascii_of_N (n - 32) else c.

Fixpoint upper (s : string) : string :=
  match s with
  | String c s' => String (upper_char c) (upper s')
  | EmptyString => EmptyString
  end.

Definition parse_float (s : string) : option spec_float :=
  match int_of_digits s with
  | Some z => Some (binary_normalize PyFloat.prec PyFloat.emax z 0 false)
  | None => None
  end.

Definition repr (f : spec_float) : string :=
  match f with
  | S754_nan => "nan"
  | S754_infinity s => if s then "-inf" else "inf"
  | S754_zero s => if s then "-0.0" else "0.0"
  | S754_finite _ _ _ =>
      match PyFloat.to_int f with
      | Ok z => str_of_int z +:+ ".0"
      | Raise _ => ""
      end
  end.

Definition runtime : PyText :=
  {| str_strip := strip; str_upper := upper;
     float_of_str := parse_float; float_repr := repr |}.

End AsciiText.

(* ===================================================================== *)
(** ** Path and character tables for examples *)
(* ===================================================================== *)

(** [os.path.basename] of [posixpath]: what follows the last [/]. *)
Module PosixPath.

Fixpoint basename_from (acc : string) (s : string) : string :=
  match s with
  | EmptyString => acc
  | String c s' =>
      if Ascii.eqb c "/" then basename_from "" s'
      else basename_from (acc +:+ String c "") s'
  end.

Definition basename (path : string) : string := basename_from "" path.

Definition os_path : OsPath := {| os_path_basename := basename |}.

End PosixPath.

(** The whitespace and decimal-digit tables of Unicode 14.0, the database
    of CPython 3.11.  The decimal digits come in runs of ten, listed by
    the code point of their zero. *)
Module UnicodeData.

Definition spaces : list Z :=
  [0x9; 0xA; 0xB; 0xC; 0xD; 0x1C; 0x1D; 0x1E; 0x1F; 0x20; 0x85; 0xA0;
   0x1680; 0x2000; 0x2001; 0x2002; 0x2003; 0x2004; 0x2005; 0x2006;
   0x2007; 0x2008; 0x2009; 0x200A; 0x2028; 0x2029; 0x202F; 0x205F;
   0x3000].

Definition digit_zeros : list Z :=
  [0x30; 0x660; 0x6F0; 0x7C0; 0x966; 0x9E6; 0xA66; 0xAE6; 0xB66; 0xBE6;
   0xC66; 0xCE6; 0xD66; 0xDE6; 0xE50; 0xED0; 0xF20; 0x1040; 0x1090;
   0x17E0; 0x1810; 0x1946; 0x19D0; 0x1A80; 0x1A90; 0x1B50; 0x1BB0;
   0x1C40; 0x1C50; 0xA620; 0xA8D0; 0xA900; 0xA9D0; 0xA9F0; 0xAA50;
   0xABF0; 0xFF10; 0x104A0; 0x10D30; 0x11066; 0x110F0; 0x11136;
   0x111D0; 0x112F0; 0x11450; 0x114D0; 0x11650; 0x116C0; 0x11730;
   0x118E0; 0x11950; 0x11C50; 0x11D50; 0x11DA0; 0x16A60; 0x16AC0;
   0x16B50; 0x1D7CE; 0x1D7D8; 0x1D7E2; 0x1D7EC; 0x1D7F6; 0x1E140;
   0x1E2F0; 0x1E950; 0x1FBF0].

Definition whitespace (c : Z) : bool := existsb (Z.eqb c) spaces.

Definition decimal (c : Z) : option Z :=
  match List.find (fun z => (z <=? c) && (c <? z + 10)) digit_zeros with
  | Some z => Some (c - z)
  | None => None
  end.

Definition tables : Unicode :=
  {| is_whitespace := whitespace; decimal_value := decimal |}.

End UnicodeData.

(* ===================================================================== *)
(** ** Further functions: [_escape_xml] and [load_data] *)
(* ===================================================================== *)

(** [s.replace(c, rep)] for a one-character [c]. *)
Fixpoint replace_char (c : ascii) (rep : string) (s : string) : string :=
  match s with
  | EmptyString => EmptyString
  | String x s' =>
      if Ascii.eqb x c then rep +:+ replace_char c rep s'
      else String x (replace_char c rep s')
  end.

(** [_escape_xml] *)
Definition _escape_xml (text : string) : string :=
  if String.eqb text "" then ""
  else
    let text := replace_char "&" "&amp;" text in
    let text := replace_char "<" "&lt;" text in
    let text := replace_char ">" "&gt;" text in
    let text := replace_char "034" "&quot;" text in
    let text := replace_char "'" "&apos;" text in
    text.

(** A cell of a loaded sheet; a cell the row does not hold reads as NaN. *)
Definition cell (r : manifest_row) (col : string) : pyval :=
  default (VFloat S754_nan) (r !! col).

(** [load_data] on the sheet as read: the rows without a shipment code are
    dropped, and with [use_planta_as_origen] the origin column is
    overwritten by the plant column when the sheet has one.  A sheet
    without the shipment-code column makes [dropna] raise, which the
    handler logs and raises again. *)
Definition load_data (use_planta_as_origen : bool) (df : dataframe) : result dataframe :=
  if negb (bool_decide ("Cód. Envío" ∈ columns df))
  then Raise (Exn KeyError "['Cód. Envío']")
  else
    let kept :=
      filter (fun ir => pd_isna (cell ir.2 "Cód. Envío") = false) (rows df) in
    let kept :=
      filter (fun ir => py_eqb (cell ir.2 "Cód. Envío") (VStr "") = false) kept in
    if use_planta_as_origen && bool_decide ("Cod Planta" ∈ columns df)
    then
      Ok {| columns :=
              if bool_decide ("Cód. Origen" ∈ columns df) then columns df
              else columns df ++ ["Cód. Origen"];
            rows :=
              map (fun ir => (ir.1, <[ "Cód. Origen" := cell ir.2 "Cod Planta" ]> ir.2))
                  kept |}
    else Ok {| columns := columns df; rows := kept |}.

(* ===================================================================== *)
(** ** The availability workbook: [get_disponibilidad_camiones] *)
(* ===================================================================== *)

Section Disponibilidad.

Context `{PyText}.

(** [str.lower], the fifth text routine, used by the availability sheets
    only. *)
Variable str_lower : string -> string.

(** [s in ['nan', 'none', '']] *)
Definition is_placeholder (s : string) : bool :=
  String.eqb s "nan" || String.eqb s "none" || String.eqb s "".

(** The row test and the entry of [procesar_pestana_disponibilidad]. *)
Definition entry_of_row (r : manifest_row) : option plate :=
  let placa := str_strip (py_str (cell r "Placa")) in
  let origen := str_strip (py_str (cell r "Dep Planta/CD")) in
  if negb (String.eqb placa "") && negb (String.eqb origen "")
     && negb (is_placeholder (str_lower placa))
     && negb (is_placeholder (str_lower origen))
  then Some {| Origen := origen; Placa := placa; Reusable := 0 |}
  else None.

(** [procesar_pestana_disponibilidad] on one sheet of the workbook, read
    as text; [None] is a sheet that could not be read, which the handler
    turns into no entry. *)
Definition procesar_pestana_disponibilidad (sheet : option dataframe) : list plate :=
  match sheet with
  | None => []
  | Some df =>
      if negb (bool_decide ("Placa" ∈ columns df)) then []
      else if negb (bool_decide ("Dep Planta/CD" ∈ columns df)) then []
      else
        let df_valido :=
          filter (fun ir => pd_isna (cell ir.2 "Placa") = false
                            /\ pd_isna (cell ir.2 "Dep Planta/CD") = false)
                 (rows df) in
        omap (fun ir => entry_of_row ir.2) df_valido
  end.

(** [f"{placa_info['Placa'].upper()}_{placa_info['Origen']}"] *)
Definition clave (placa_info : plate) : string :=
  str_upper (Placa placa_info) +:+ "_" +:+ Origen placa_info.

(** The deduplication loop of [get_disponibilidad_camiones]. *)
Fixpoint deduplicate_disponibilidad (placas_todas : list plate)
    (placas_vistas : gset string) (placas_unicas : list plate) : list plate :=
  match placas_todas with
  | [] => placas_unicas
  | placa_info :: rest =>
      if decide (clave placa_info ∈ placas_vistas)
      then deduplicate_disponibilidad rest placas_vistas placas_unicas
      else deduplicate_disponibilidad rest ({[clave placa_info]} ∪ placas_vistas)
             (placas_unicas ++ [placa_info])
  end.

(** [get_disponibilidad_camiones], from the workbook found for the day
    ([None]: no such file) to the entries it returns. *)
Definition get_disponibilidad_camiones
    (workbook : option (gmap string dataframe)) : list plate :=
  match workbook with
  | None => []
  | Some sheets =>
      let placas_todas :=
        concat (map (fun pestana => procesar_pestana_disponibilidad (sheets !! pestana))
                  ["Reporte Tra."; "Reporte Espe."; "Reporte Espe. (tarde)"]) in
      deduplicate_disponibilidad placas_todas ∅ []
  end.

End Disponibilidad.

(* ===================================================================== *)
(** ** Notions used in the statements *)
(* ===================================================================== *)

(** Number of records of a sheet with a given [Type]. *)
Fixpoint count_type (t : string) (l : list xml_record) : Z :=
  match l with
  | [] => 0
  | r :: l' => (if py_eqb (Type_ r) (VStr t) then 1 else 0) + count_type t l'
  end.

(** What a step leaves untouched while it only resolves data: the
    accumulated records, the record counters and the error list. *)
Definition same_output (g g' : generator) : Prop :=
  shipment_data g' = shipment_data g
  /\ header_records (validation_stats g') = header_records (validation_stats g)
  /\ detail_records (validation_stats g') = detail_records (validation_stats g)
  /\ total_records (validation_stats g') = total_records (validation_stats g)
  /\ errors (validation_stats g') = errors (validation_stats g).

(** The 1:3 proportion, on the counters and on the accumulated records,
    and the agreement of the two. *)
Definition proportion (g : generator) : Prop :=
  detail_records (validation_stats g) = 3 * header_records (validation_stats g)
  /\ count_type "D" (shipment_data g) = 3 * count_type "H" (shipment_data g)
  /\ header_records (validation_stats g) = count_type "H" (shipment_data g)
  /\ detail_records (validation_stats g) = count_type "D" (shipment_data g).





(** Successive calls of the sequence allocator, one per clock reading. *)
Fixpoint allocations (nows : list DateTime.datetime) (d : database) : list string * database :=
  match nows with
  | [] => ([], d)
  | now :: rest =>
      let '(reference, d') := DatabaseManager.get_next_reference_number now d in
      let '(references, d'') := allocations rest d' in
      (reference :: references, d'')
  end.

(** The two keys of a pair of locations in [maestro_dtto]. *)
Definition ruta (origen destino : Z) : string :=
  "BO_" +:+ str_of_int origen +:+ "-BO_" +:+ str_of_int destino.

(** The first of the three patterns that matches a file name. *)
Definition first_match `{Unicode} (file_name : string) : option Regex.captures :=
  match Regex.search pattern_sd file_name with
  | Some m => Some m
  | None =>
      match Regex.search pattern_cb file_name with
      | Some m => Some m
      | None => Regex.search pattern_generic file_name
      end
  end.

(** What the captures of a match of a pattern look like: one entry per
    group of the pattern, in order, each a run of characters of the
    group's class whose length is within the group's bounds. *)
Fixpoint captures_fit `{Unicode} (r : list Regex.item) (caps : Regex.captures) : Prop :=
  match r with
  | [] => caps = []
  | it :: r' =>
      match Regex.it_group it with
      | Some g =>
          exists s caps',
            caps = (g, s) :: caps'
            /\ (Regex.it_min it <= length s)%nat
            /\ (forall hi, Regex.it_max it = Some hi -> (length s <= hi)%nat)
            /\ Forall (fun c => Regex.cls_matches (Regex.it_cls it) c = true) s
            /\ captures_fit r' caps'
      | None => captures_fit r' caps
      end
  end.

(** A captured group padded to two characters: the text is exactly two
    code points long, each a decimal digit of the character table or the
    padding zero. *)
Definition two_digits `{Unicode} (s : list Z) : Prop :=
  length s = 2%nat
  /\ Forall (fun c => c = 48 \/ is_decimal c = true) s.

(** The range check on a padded (day, month) pair. *)
Definition valid_day_month `{Unicode} (dm : list Z * list Z) : bool :=
  match int_of_text (fst dm), int_of_text (snd dm) with
  | Some day_int, Some month_int =>
      (1 <=? day_int) && (day_int <=? 31) && (1 <=? month_int) && (month_int <=? 12)
  | _, _ => false
  end.

(** The (month, day) pair of strings that a padded (day, month) gives. *)
Definition month_day (dm : list Z * list Z) : string * string :=
  (Utf8.encode (snd dm), Utf8.encode (fst dm)).

(** The extraction as the specification words it: the patterns in order,
    a match out of range is rejected and the next pattern is tried, and
    the current date is the last resort. *)
Definition date_by_specification `{OsPath} `{Unicode}
    (now : DateTime.datetime) (file_path : string) : string * string :=
  let file_name := os_path_basename file_path in
  let candidates :=
    omap (fun p => Regex.search p file_name) [pattern_sd; pattern_cb; pattern_generic] in
  match List.find valid_day_month (map day_month candidates) with
  | Some dm => month_day dm
  | None => (DateTime.strftime_m now, DateTime.strftime_d now)
  end.

(** The per-pallet rate a table supplies for a product code: the column of
    the row with that code, when the row exists and the value is neither
    NULL nor zero. *)
Definition supplied_rate {R} (col : R -> option sqlnum)
    (table : gmap Z R) (code : Z) : option sqlnum :=
  match table !! code with
  | Some r =>
      match col r with
      | Some rate => if truthy (pyval_of_sqlnum rate) then Some rate else None
      | None => None
      end
  | None => None
  end.

(** Bultos as the specification words it: the rate times the pallet
    count, truncated to an integer. *)
Definition bultos_by_specification (rate : sqlnum) (pallets : Z) : result Z :=
  match float_of_sqlnum rate, PyFloat.of_int pallets with
  | Ok r, Ok p => PyFloat.to_int (PyFloat.mul r p)
  | Raise e, _ | _, Raise e => Raise e
  end.

(** A shipment of the list that is on trip [v], from [o] to [d], as the
    loop of [generate_unique_route_correlative] reads it. *)
Definition on_trip `{PyText} (v o d : Z) (all_shipments : list manifest_row) : Prop :=
  exists shipment, shipment ∈ all_shipments
    /\ safe_int_conversion (default VNone (shipment !! "# Viaje")) 0 = Ok v
    /\ safe_int_conversion (default VNone (shipment !! "Cód. Origen")) 0 = Ok o
    /\ safe_int_conversion (default VNone (shipment !! "Cód. Destino")) 0 = Ok d.

(** [f"{origen}-{destino}"] *)
Definition route_key (origen destino : Z) : string :=
  str_of_int origen +:+ "-" +:+ str_of_int destino.

(** The entity of one character, or the character itself. *)
Definition escape_char (x : ascii) : string :=
  if Ascii.eqb x "&" then "&amp;"
  else if Ascii.eqb x "<" then "&lt;"
  else if Ascii.eqb x ">" then "&gt;"
  else if Ascii.eqb x "034" then "&quot;"
  else if Ascii.eqb x "'" then "&apos;"
  else String x "".

Fixpoint escape_each (s : string) : string :=
  match s with
  | EmptyString => EmptyString
  | String x s' => escape_char x +:+ escape_each s'
  end.

(** The characters of a string. *)
Fixpoint occurs (c : ascii) (s : string) : bool :=
  match s with
  | EmptyString => false
  | String x s' => Ascii.eqb x c || occurs c s'
  end.

(** The ReferenceNumber fields of the "H" records of a sheet, in order. *)
Fixpoint header_references (l : list xml_record) : list pyval :=
  match l with
  | [] => []
  | r :: l' =>
      if py_eqb (Type_ r) (VStr "H") then ReferenceNumber r :: header_references l'
      else header_references l'
  end.

(** The books of a run: the record counter counts the sheet, four records
    a header; five queries were made for each reference number issued;
    and no header was written without a reference number. *)
Definition accounts (g : generator) : Prop :=
  total_records (validation_stats g) = Z.of_nat (length (shipment_data g))
  /\ total_records (validation_stats g) = 4 * header_records (validation_stats g)
  /\ database_queries (validation_stats g)
     = 5 * Z.of_nat (length (reference_numbers_generated (validation_stats g)))
  /\ header_records (validation_stats g)
     <= Z.of_nat (length (reference_numbers_generated (validation_stats g))).

(** The reference numbers of a run that started on an empty counter
    table: the seed and its successors, the store holding the last one,
    and the headers of the sheet carrying some of them, in order. *)
Definition numbered (g : generator) : Prop :=
  let refs := reference_numbers_generated (validation_stats g) in
  online (db g) = true
  /\ refs = map (fun k => str_of_int (11111 + Z.of_nat k)) (seq 0 (length refs))
  /\ match refs with
     | [] => shipment_sequence (db g) = []
     | _ => last (shipment_sequence (db g))
            = Some (Some (11110 + Z.of_nat (length refs)))
     end
  /\ header_references (shipment_data g) `sublist_of` map VStr refs.

(** An entry that passed the row test. *)
Definition well_formed_entry (str_lower : string -> string) (p : plate) : Prop :=
  Placa p <> "" /\ Origen p <> ""
  /\ is_placeholder (str_lower (Placa p)) = false
  /\ is_placeholder (str_lower (Origen p)) = false
  /\ Reusable p = 0.

(* ===================================================================== *)
(** ** Example data *)
(* ===================================================================== *)

Module Examples.

Definition a_clock (n : nat) : DateTime.datetime :=
  {| DateTime.year := 2025; DateTime.month := 6; DateTime.day := 1;
     DateTime.hour := 8; DateTime.minute := 30 + Z.of_nat n;
     DateTime.second := 0; DateTime.microsecond := 0 |}.

Definition another_clock (n : nat) : DateTime.datetime :=
  {| DateTime.year := 2026; DateTime.month := 11; DateTime.day := 4;
     DateTime.hour := 23; DateTime.minute := 59;
     DateTime.second := 7; DateTime.microsecond := 1234 |}.

(** 0.1234 and 2.5 as doubles. *)
Definition f_0_1234 : spec_float := PyFloat.of_ratio false 1234 10000.
Definition f_2_5 : spec_float := PyFloat.of_ratio false 5 2.

Definition a_db : database :=
  {| online := true;
     dados_produtos :=
       {[ 1100 := {| nombre := Some "PALLET"; codigo_commodity := None;
                     hl_por_pallet := Some (SqlReal f_0_1234);
                     bultos_x_pallet := Some (SqlInt 10) |};
          7 := {| nombre := Some "CAJA"; codigo_commodity := Some "BO_CJ";
                  hl_por_pallet := None;
                  bultos_x_pallet := Some (SqlReal f_2_5) |} ]};
     maestro_envases :=
       {[ 7 := {| descripcion := Some "ENVASE"; hl_x_pallet := Some (SqlInt 2);
                  env_bultos_x_pallet := Some (SqlInt 4) |} ]};
     maestro_dtto := {[ "BO_10-BO_20" := VInt 3 ]};
     shipment_sequence := [] |}.

Definition empty_db : database :=
  {| online := true; dados_produtos := ∅; maestro_envases := ∅;
     maestro_dtto := ∅; shipment_sequence := [] |}.

(** A pallet row stating 3 pallets. *)
Definition pallet_row : manifest_row :=
  list_to_map
    [("Cód. Envío", VStr "ENV-001"); ("Cód. Prod", VInt 1100);
     ("Pallets", VInt 3); ("Peso Total Carga", VInt 500);
     ("Cód. Origen", VInt 20); ("Cód. Destino", VInt 10);
     ("Operador Logístico", VStr "ACME"); ("# Viaje", VInt 3)].







(** The pallet row with a pallet count read as a float, and a sheet of
    three such rows, the count of the second being infinite. *)
Definition counted_row (pallets : spec_float) : manifest_row :=
  <[ "Pallets" := VFloat pallets ]> pallet_row.

Definition a_sheet : dataframe :=
  {| columns := ["Cód. Envío"; "Cód. Prod"; "Pallets"; "Peso Total Carga";
                 "Cód. Origen"; "Cód. Destino"; "Operador Logístico"; "# Viaje"];
     rows := [(0, counted_row (PyFloat.of_Z 3));
              (1, counted_row (S754_infinity false));
              (2, counted_row (PyFloat.of_Z 8))] |}.

Definition plate_a : plate := {| Origen := "10"; Placa := "ABC123"; Reusable := 0 |}.
Definition plate_b : plate := {| Origen := " 10 "; Placa := "abc123"; Reusable := 0 |}.
Definition plate_c : plate := {| Origen := "05"; Placa := "zz9"; Reusable := 0 |}.

(** A second row of trip 3, to another destination. *)
Definition second_route_row : manifest_row :=
  <[ "Cód. Destino" := VInt 11 ]> pallet_row.


(** A manifest sheet read as text, with its plant and plate columns. *)
Definition plates_sheet : list (Z * manifest_row) :=
  [(0, list_to_map [("Cod Planta", VStr "10"); ("Placa", VStr "abc123")]);
   (1, list_to_map [("Cod Planta", VStr "10"); ("Placa", VStr "xyz999")])].

Definition a_drivers : gmap string (option string) :=
  {[ "abc123" := Some "Transportadoras"; "xyz999" := Some "Propios" ]}.

End Examples.

(* ===================================================================== *)
(** ** Properties of the pipeline *)
(* ===================================================================== *)

Lemma length_iterrows df : length (iterrows df) = length (rows df).
Proof.
  unfold iterrows. destruct (float64_frame df); [apply length_map | reflexivity].
Qed.

Lemma iterrows_labels df : map fst (iterrows df) = map fst (rows df).
Proof.
  unfold iterrows. destruct (float64_frame df); [|reflexivity].
  rewrite <- list_fmap_compose. reflexivity.
Qed.

Lemma count_type_app t l l' :
  count_type t (l ++ l') = count_type t l + count_type t l'.
Proof.
  induction l as [|r l IH]; simpl; [reflexivity|]. rewrite IH. lia.
Qed.

Lemma getitem_ok (r : manifest_row) key v :
  getitem r key = Ok v -> r !! key = Some v.
Proof.
  unfold getitem. destruct (r !! key); intros E; inversion E; reflexivity.
Qed.

Lemma Ok_inj {A} (a b : A) : Ok a = Ok b -> a = b.
Proof. intros E. injection E. auto. Qed.

Lemma same_output_refl g : same_output g g.
Proof. unfold same_output; tauto. Qed.

Ltac split_results :=
  repeat match goal with
  | |- context [match ?r with Ok _ => _ | Raise _ => _ end] =>
      let E := fresh "E" in destruct r eqn:E
  end.

Ltac run_body :=
  unfold process_record_body, bind, lift, db_query, modify_stats,
    db_get_next_reference_number, datetime_now, ret;
  split_results;
  try match goal with
  | |- context [DatabaseManager.get_next_reference_number ?n ?d] =>
      let Eref := fresh "Eref" in
      destruct (DatabaseManager.get_next_reference_number n d) eqn:Eref
  end;
  let Heq := fresh "Heq" in
  let Hres := fresh "Hres" in
  let Hst := fresh "Hst" in
  intros Heq; apply pair_equal_spec in Heq; destruct Heq as [Hres Hst];
  try discriminate Hres; try apply Ok_inj in Hres; subst.

Section PipelineProperties.

Context `{PyText}.

(** A row whose body raises has written neither records nor counters. *)
Lemma process_record_body_raise row index ship_num all g e g' :
  process_record_body row index ship_num all g = (Raise e, g') ->
  same_output g g'.
Proof.
  run_body; unfold same_output; cbn; try tauto.
  all: destruct (online _); cbn; tauto.
Qed.

(** What a row whose body returns has computed and written. *)
Lemma process_record_body_ok row index ship_num all g recs g' :
  process_record_body row index ship_num all g = (Ok recs, g') ->
  exists cod_prod code_prod pallets quantity peso base_weight,
    row !! "Cód. Prod" = Some cod_prod
    /\ safe_int_conversion cod_prod 0 = Ok code_prod
    /\ row !! "Pallets" = Some pallets
    /\ safe_int_conversion pallets 1 = Ok quantity
    /\ row !! "Peso Total Carga" = Some peso
    /\ safe_numeric_conversion peso (VInt 0) = Ok base_weight
    /\ exists h d1 d2 d3,
      recs = [h; d1; d2; d3]
      /\ Type_ h = VStr "H" /\ Type_ d1 = VStr "D"
      /\ Type_ d2 = VStr "D" /\ Type_ d3 = VStr "D"
      /\ Shipment_Number h = VStr (generate_shipment_number row index)
      /\ Quantity d3 =
           VInt (if code_prod =? PALLET_PRODUCT_CODE then PALLET_QUANTITY else quantity)
      /\ Weight d3 =
           process_weight base_weight
             (if code_prod =? PALLET_PRODUCT_CODE then PALLET_QUANTITY else quantity)
      /\ Hectolitros d3 =
           VFloat (DatabaseManager.get_hectolitros (db g) code_prod quantity)
      /\ Bultos d3 = VInt (DatabaseManager.get_bultos (db g) code_prod quantity)
      /\ shipment_data g' = shipment_data g
      /\ header_records (validation_stats g') = header_records (validation_stats g) + 1
      /\ detail_records (validation_stats g') = detail_records (validation_stats g) + 3
      /\ total_records (validation_stats g') = total_records (validation_stats g) + 4
      /\ errors (validation_stats g') = errors (validation_stats g).
Proof.
  run_body.
  repeat match goal with E : getitem _ _ = Ok _ |- _ => apply getitem_ok in E end.
  do 6 eexists. repeat (split; [eassumption|]).
  do 4 eexists. split; [reflexivity|].
  cbn -[DatabaseManager.get_hectolitros DatabaseManager.get_bultos
        generate_shipment_number calculate_dates process_weight Z.add].
  repeat split; try reflexivity.
  all: destruct (online _); cbn; try reflexivity; lia.
Qed.

Lemma process_record_ok row index ship_num all g recs g' :
  process_record row index ship_num all g = (Ok recs, g') ->
  process_record_body row index ship_num all g = (Ok recs, g').
Proof.
  unfold process_record, try_except.
  destruct (process_record_body row index ship_num all g) as [[recs0|e0] g0];
    [tauto|].
  unfold bind, modify_stats, raise. intros E; inversion E.
Qed.

(** The handler of [process_record] adds the entry and nothing else. *)
Lemma process_record_raise row index ship_num all g e g' :
  process_record row index ship_num all g = (Raise e, g') ->
  shipment_data g' = shipment_data g
  /\ header_records (validation_stats g') = header_records (validation_stats g)
  /\ detail_records (validation_stats g') = detail_records (validation_stats g)
  /\ errors (validation_stats g') = errors (validation_stats g) ++ [error_entry index e].
Proof.
  unfold process_record, try_except.
  destruct (process_record_body row index ship_num all g) as [[recs0|e0] g0] eqn:Eb.
  - intros E; inversion E.
  - apply process_record_body_raise in Eb. destruct Eb as (Hs & Hh & Hd & _ & He).
    unfold bind, modify_stats, raise. intros E; inversion E; subst; cbn.
    rewrite Hs, Hh, Hd, He. tauto.
Qed.

(** One turn of the loop, by the outcome of the row. *)
Lemma process_rows_cons index row rest ship_num all g :
  process_rows ((index, row) :: rest) ship_num all g =
  match process_record row index ship_num all g with
  | (Ok records, g') =>
      process_rows rest ship_num all
        (set_shipment_data (shipment_data g' ++ records) g')
  | (Raise _, g') => process_rows rest ship_num all g'
  end.
Proof.
  cbn [process_rows]. unfold bind at 1, try_except, bind at 1, ret.
  destruct (process_record row index ship_num all g) as [[records|e] g'];
    reflexivity.
Qed.

Lemma process_rows_app pre post ship_num all g :
  process_rows (pre ++ post) ship_num all g =
  process_rows post ship_num all (snd (process_rows pre ship_num all g)).
Proof.
  revert g. induction pre as [|[index row] pre IH]; intros g; [reflexivity|].
  rewrite <- app_comm_cons, !process_rows_cons.
  destruct (process_record row index ship_num all g) as [[records|e] g'];
    apply IH.
Qed.

(** The loop never raises. *)
Lemma process_rows_returns rs ship_num all g :
  fst (process_rows rs ship_num all g) = Ok tt.
Proof.
  revert g. induction rs as [|[index row] rs IH]; intros g; [reflexivity|].
  rewrite process_rows_cons.
  destruct (process_record row index ship_num all g) as [[records|e] g'];
    apply IH.
Qed.

(** The loop keeps the proportion. *)
Lemma process_rows_proportion rs ship_num all g :
  proportion g -> proportion (snd (process_rows rs ship_num all g)).
Proof.
  revert g. induction rs as [|[index row] rs IH]; intros g Hg; [exact Hg|].
  rewrite process_rows_cons.
  destruct (process_record row index ship_num all g) as [[records|e] g'] eqn:Er;
    apply IH; unfold proportion in *; destruct Hg as (H1 & H2 & H3 & H4).
  - apply process_record_ok, process_record_body_ok in Er.
    destruct Er as (? & ? & ? & ? & ? & ? & _ & _ & _ & _ & _ & _ & Hr).
    destruct Hr as (h & d1 & d2 & d3 & -> & Th & T1 & T2 & T3 & _ & _ & _ & _ & _
                    & Hs & Hh & Hd & _ & _).
    cbn [shipment_data validation_stats set_shipment_data
         header_records detail_records].
    rewrite !count_type_app, Hs, Hh, Hd. cbn [count_type].
    rewrite Th, T1, T2, T3. cbn. lia.
  - apply process_record_raise in Er. destruct Er as (Hs & Hh & Hd & _).
    rewrite Hs, Hh, Hd. tauto.
Qed.

(** The loop only appends to the records and to the error list. *)
Lemma process_rows_grows rs ship_num all g :
  shipment_data g `prefix_of` shipment_data (snd (process_rows rs ship_num all g))
  /\ errors (validation_stats g)
       `prefix_of` errors (validation_stats (snd (process_rows rs ship_num all g))).
Proof.
  revert g. induction rs as [|[index row] rs IH]; intros g; [split; reflexivity|].
  rewrite process_rows_cons.
  destruct (process_record row index ship_num all g) as [[records|e] g'] eqn:Er.
  - apply process_record_ok, process_record_body_ok in Er.
    destruct Er as (? & ? & ? & ? & ? & ? & _ & _ & _ & _ & _ & _ & Hr).
    destruct Hr as (h & d1 & d2 & d3 & _ & _ & _ & _ & _ & _ & _ & _ & _ & _
                    & Hs & _ & _ & _ & He).
    destruct (IH (set_shipment_data (shipment_data g' ++ records) g')) as [I1 I2].
    cbn [shipment_data validation_stats set_shipment_data] in I1, I2.
    split; [|rewrite <- He; exact I2].
    etransitivity; [|exact I1]. rewrite Hs. apply prefix_app_r. reflexivity.
  - apply process_record_raise in Er. destruct Er as (Hs & _ & _ & He).
    destruct (IH g') as [I1 I2].
    split; [rewrite <- Hs; exact I1|].
    etransitivity; [|exact I2]. rewrite He. apply prefix_app_r. reflexivity.
Qed.

(** After its validation, [process_all_data] is one clock reading and
    the loop. *)
Lemma process_all_data_valid df g :
  validate_uniqueness_before_processing df = true ->
  process_all_data df g =
  process_rows (iterrows df) (base_ship_num (clock g (clock_reads g)))
    (to_dict_records df) (set_clock_reads (S (clock_reads g)) g).
Proof.
  intros Hv. unfold process_all_data. rewrite Hv. reflexivity.
Qed.

End PipelineProperties.

Section PipelineClaims.

Context `{PyText}.

(** C1. After [process_all_data] on any manifest, from a fresh
    generator, the detail counter is three times the header counter,
    the accumulated sheet holds three "D" records for each "H" record,
    and the counters agree with the sheet.  Row by row: a row that
    returns gives one "H" and three "D" records and moves the counters
    by one and three; a row that raises moves neither counter and
    leaves the sheet as it was. *)
Theorem detail_count_is_three_times_header_count
    (df : dataframe) (d : database) (c : nat -> DateTime.datetime) :
  let g := snd (process_all_data df (new_generator d c)) in
  (detail_records (validation_stats g) = 3 * header_records (validation_stats g)
   /\ count_type "D" (shipment_data g) = 3 * count_type "H" (shipment_data g)
   /\ header_records (validation_stats g) = count_type "H" (shipment_data g)
   /\ detail_records (validation_stats g) = count_type "D" (shipment_data g))
  /\ forall row index ship_num all g0,
      match process_record row index ship_num all g0 with
      | (Ok recs, g1) =>
          count_type "H" recs = 1 /\ count_type "D" recs = 3
          /\ length recs = 4%nat
          /\ header_records (validation_stats g1)
             = header_records (validation_stats g0) + 1
          /\ detail_records (validation_stats g1)
             = detail_records (validation_stats g0) + 3
      | (Raise _, g1) =>
          header_records (validation_stats g1) = header_records (validation_stats g0)
          /\ detail_records (validation_stats g1) = detail_records (validation_stats g0)
          /\ shipment_data g1 = shipment_data g0
      end.
Proof.
  intros g. split.
  - subst g. unfold process_all_data.
    destruct (negb (validate_uniqueness_before_processing df)).
    + cbn. lia.
    + unfold bind, datetime_now. apply process_rows_proportion.
      unfold proportion. cbn. lia.
  - intros row index ship_num all g0.
    destruct (process_record row index ship_num all g0) as [[recs|e] g1] eqn:Er.
    + apply process_record_ok, process_record_body_ok in Er.
      destruct Er as (? & ? & ? & ? & ? & ? & _ & _ & _ & _ & _ & _ & Hr).
      destruct Hr as (h & d1 & d2 & d3 & -> & Th & T1 & T2 & T3 & _ & _ & _ & _ & _
                      & _ & Hh & Hd & _ & _).
      cbn [count_type length]. rewrite Th, T1, T2, T3. cbn. auto.
    + apply process_record_raise in Er. tauto.
Qed.

(** C9. In a run of [process_all_data], let the [process_record] of a
    row that [iterrows] yields raise.  Then its handler appends the row's entry to the error list,
    the accumulated sheet is what it was before the row, the run goes
    on with the rows after it from that state, and the run returns
    rather than raising; at the end the entry is still in the error
    list and the sheet still starts with what was there before the
    row. *)
Theorem failed_row_is_skipped_and_run_continues
    (df : dataframe) (pre post : list (Z * manifest_row))
    (index : Z) (row : manifest_row) (g : generator) (e : exn) :
  iterrows df = pre ++ (index, row) :: post ->
  validate_uniqueness_before_processing df = true ->
  let ship_num := base_ship_num (clock g (clock_reads g)) in
  let all := to_dict_records df in
  let g1 := snd (process_rows pre ship_num all (set_clock_reads (S (clock_reads g)) g)) in
  let g2 := snd (process_record row index ship_num all g1) in
  let final := snd (process_all_data df g) in
  fst (process_record row index ship_num all g1) = Raise e ->
  errors (validation_stats g2) = errors (validation_stats g1) ++ [error_entry index e]
  /\ shipment_data g2 = shipment_data g1
  /\ process_all_data df g = process_rows post ship_num all g2
  /\ fst (process_all_data df g) = Ok tt
  /\ error_entry index e ∈ errors (validation_stats final)
  /\ shipment_data g1 `prefix_of` shipment_data final.
Proof.
  intros Hrows Hvalid ship_num all g1 g2 final Hraise.
  assert (Hrun : process_all_data df g = process_rows post ship_num all g2).
  { rewrite process_all_data_valid by exact Hvalid.
    fold ship_num all. rewrite Hrows at 1.
    rewrite process_rows_app. fold g1. rewrite process_rows_cons.
    subst g2. destruct (process_record row index ship_num all g1) as [[recs|e'] g'];
      [discriminate Hraise | reflexivity]. }
  assert (Hrec : process_record row index ship_num all g1 = (Raise e, g2)).
  { subst g2. destruct (process_record row index ship_num all g1) as [r g'].
    cbn in *. congruence. }
  apply process_record_raise in Hrec. destruct Hrec as (Hs & _ & _ & He).
  destruct (process_rows_grows post ship_num all g2) as [G1 G2].
  repeat split.
  - exact He.
  - exact Hs.
  - exact Hrun.
  - rewrite Hrun. apply process_rows_returns.
  - subst final. rewrite Hrun. eapply elem_of_prefix; [|exact G2].
    rewrite He. apply elem_of_app. right. apply list_elem_of_singleton.
    reflexivity.
  - subst final. rewrite Hrun. rewrite <- Hs. exact G1.
Qed.

(** C8. For a row whose product code is the pallet code 1100, when
    [process_record] returns, it returns a header and three details,
    and the Quantity of the third detail is 24, whatever the row's
    Pallets cell holds. *)
Theorem pallet_code_forces_quantity
    (row : manifest_row) (index ship_num : Z) (all : list manifest_row)
    (g : generator) (recs : list xml_record) (cod_prod : pyval) :
  row !! "Cód. Prod" = Some cod_prod ->
  safe_int_conversion cod_prod 0 = Ok PALLET_PRODUCT_CODE ->
  fst (process_record row index ship_num all g) = Ok recs ->
  exists h d1 d2 d3,
    recs = [h; d1; d2; d3]
    /\ Type_ d3 = VStr "D"
    /\ Quantity d3 = VInt PALLET_QUANTITY.
Proof.
  intros Hcell Hcode Hok.
  destruct (process_record row index ship_num all g) as [r g'] eqn:Er.
  cbn in Hok. subst r.
  apply process_record_ok, process_record_body_ok in Er.
  destruct Er as (cp & code & ? & ? & ? & ? & Hcp & Hcode' & _ & _ & _ & _ & Hr).
  destruct Hr as (h & d1 & d2 & d3 & -> & _ & _ & _ & T3 & _ & Hq & _).
  rewrite Hcell in Hcp. inversion Hcp; subst cp.
  rewrite Hcode in Hcode'. inversion Hcode'; subst code.
  exists h, d1, d2, d3. repeat split; [exact T3|]. rewrite Hq. reflexivity.
Qed.

(** C10. For a row whose product code is the pallet code 1100, when
    [process_record] returns, the third detail carries the Hectolitros
    and Bultos looked up with the pallet count stated in the row, while
    its Quantity is 24 and its Weight is [process_weight] of the base
    weight and 24, that is the base weight plus 24 * 45 whenever that
    sum is defined. *)
Theorem pallet_volume_uses_stated_count_weight_uses_override
    (row : manifest_row) (index ship_num : Z) (all : list manifest_row)
    (g : generator) (recs : list xml_record)
    (cod_prod pallets peso base_weight : pyval) (quantity : Z) :
  row !! "Cód. Prod" = Some cod_prod ->
  safe_int_conversion cod_prod 0 = Ok PALLET_PRODUCT_CODE ->
  row !! "Pallets" = Some pallets ->
  safe_int_conversion pallets 1 = Ok quantity ->
  row !! "Peso Total Carga" = Some peso ->
  safe_numeric_conversion peso (VInt 0) = Ok base_weight ->
  fst (process_record row index ship_num all g) = Ok recs ->
  exists h d1 d2 d3,
    recs = [h; d1; d2; d3]
    /\ Hectolitros d3
       = VFloat (DatabaseManager.get_hectolitros (db g) PALLET_PRODUCT_CODE quantity)
    /\ Bultos d3
       = VInt (DatabaseManager.get_bultos (db g) PALLET_PRODUCT_CODE quantity)
    /\ Quantity d3 = VInt PALLET_QUANTITY
    /\ Weight d3 = process_weight base_weight PALLET_QUANTITY
    /\ (forall w, py_add base_weight (VInt (PALLET_QUANTITY * WEIGHT_PER_UNIT)) = Ok w ->
        Weight d3 = w).
Proof.
  intros Hcell Hcode Hpal Hqty Hpeso Hbase Hok.
  destruct (process_record row index ship_num all g) as [r g'] eqn:Er.
  cbn in Hok. subst r.
  apply process_record_ok, process_record_body_ok in Er.
  destruct Er as (cp & code & pl & q & ps & bw & Hcp & Hcode' & Hpl & Hq' & Hps & Hbw & Hr).
  destruct Hr as (h & d1 & d2 & d3 & -> & _ & _ & _ & _ & _ & Hq & Hw & Hhl & Hb & _).
  rewrite Hcell in Hcp. inversion Hcp; subst cp.
  rewrite Hcode in Hcode'. inversion Hcode'; subst code.
  rewrite Hpal in Hpl. inversion Hpl; subst pl.
  rewrite Hqty in Hq'. inversion Hq'; subst q.
  rewrite Hpeso in Hps. inversion Hps; subst ps.
  rewrite Hbase in Hbw. inversion Hbw; subst bw.
  exists h, d1, d2, d3.
  change (PALLET_PRODUCT_CODE =? PALLET_PRODUCT_CODE) with true in Hq, Hw.
  repeat split; try assumption.
  intros w Hadd. rewrite Hw. unfold process_weight. rewrite Hadd. reflexivity.
Qed.


End PipelineClaims.

(* ===================================================================== *)
(** ** Properties of the database manager *)
(* ===================================================================== *)

Lemma last_insert_pred {A} (l : list A) (x : A) :
  l <> [] -> last (<[ pred (length l) := x ]> l) = Some x.
Proof.
  intros Hl. rewrite last_lookup, length_insert.
  apply list_lookup_insert_eq. destruct l; [congruence | simpl; lia].
Qed.

(** The allocator on a store whose newest counter row holds nothing
    usable: it seeds the counter. *)
Lemma next_reference_seeds now d :
  online d = true ->
  (last (shipment_sequence d) = None
   \/ last (shipment_sequence d) = Some None
   \/ last (shipment_sequence d) = Some (Some 0)) ->
  fst (DatabaseManager.get_next_reference_number now d) = "11111"
  /\ online (snd (DatabaseManager.get_next_reference_number now d)) = true
  /\ last (shipment_sequence (snd (DatabaseManager.get_next_reference_number now d)))
     = Some (Some 11111).
Proof.
  intros Hon Hlast. unfold DatabaseManager.get_next_reference_number.
  rewrite Hon.
  assert (Hseed : forall rows : list (option Z),
    last (<[ pred (length (rows ++ [Some 11111])) := Some 11111 ]> (rows ++ [Some 11111]))
    = Some (Some 11111)).
  { intros rows. apply last_insert_pred. destruct rows; discriminate. }
  destruct Hlast as [-> | [-> | ->]]; cbn [negb Z.eqb fst snd];
    cbn [set_shipment_sequence online shipment_sequence];
    (split; [reflexivity | split; [exact Hon | apply Hseed]]).
Qed.

(** The allocator on a store whose counter holds [v]: it moves to
    [v + 1]. *)
Lemma next_reference_increments now d v :
  online d = true ->
  last (shipment_sequence d) = Some (Some v) ->
  v <> 0 ->
  fst (DatabaseManager.get_next_reference_number now d) = str_of_int (v + 1)
  /\ online (snd (DatabaseManager.get_next_reference_number now d)) = true
  /\ last (shipment_sequence (snd (DatabaseManager.get_next_reference_number now d)))
     = Some (Some (v + 1)).
Proof.
  intros Hon Hlast Hv. unfold DatabaseManager.get_next_reference_number.
  rewrite Hon, Hlast.
  destruct (v =? 0) eqn:E; [apply Z.eqb_eq in E; contradiction|].
  cbn [negb fst snd set_shipment_sequence online shipment_sequence].
  split; [reflexivity | split; [exact Hon|]].
  apply last_insert_pred. intros Hnil. rewrite Hnil in Hlast. discriminate.
Qed.

Lemma allocations_cons now nows d :
  fst (allocations (now :: nows) d) =
  fst (DatabaseManager.get_next_reference_number now d)
  :: fst (allocations nows (snd (DatabaseManager.get_next_reference_number now d))).
Proof.
  cbn [allocations].
  destruct (DatabaseManager.get_next_reference_number now d) as [reference d'].
  cbn [fst snd].
  destruct (allocations nows d') as [references d'']. reflexivity.
Qed.

(** Calls that follow a stored value [v] return [v + 1], [v + 2], ... *)
Lemma allocations_from nows d v :
  online d = true ->
  last (shipment_sequence d) = Some (Some v) ->
  0 < v ->
  fst (allocations nows d)
  = map (fun k => str_of_int (v + 1 + Z.of_nat k)) (seq 0 (length nows)).
Proof.
  revert d v. induction nows as [|now nows IH]; intros d v Hon Hlast Hv;
    [reflexivity|].
  rewrite allocations_cons.
  destruct (next_reference_increments now d v Hon Hlast ltac:(lia)) as (Hr & Hon' & Hlast').
  rewrite Hr. cbn [length seq map]. rewrite Z.add_0_r. f_equal.
  rewrite (IH _ (v + 1) Hon' Hlast' ltac:(lia)).
  rewrite <- seq_shift, map_map. apply map_ext. intros k. f_equal. lia.
Qed.

(** C3. On a reachable store whose counter table is empty, the first
    call inserts the seed and returns "11111", three calls in a row
    return "11111", "11112", "11113", any number of calls returns the
    seed and its successors in order, and a call on a store whose counter
    holds a non-zero [v] returns [v + 1] and stores it. *)
Theorem sequence_allocator_counts_from_seed
    (d : database) (now1 now2 now3 : DateTime.datetime)
    (nows : list DateTime.datetime) :
  online d = true ->
  shipment_sequence d = [] ->
  fst (allocations [now1; now2; now3] d) = ["11111"; "11112"; "11113"]
  /\ fst (DatabaseManager.get_next_reference_number now1 d) = "11111"
  /\ shipment_sequence (snd (DatabaseManager.get_next_reference_number now1 d))
     = [Some 11111]
  /\ fst (allocations nows d)
     = map (fun k => str_of_int (11111 + Z.of_nat k)) (seq 0 (length nows))
  /\ forall d' now v,
      online d' = true ->
      last (shipment_sequence d') = Some (Some v) ->
      v <> 0 ->
      fst (DatabaseManager.get_next_reference_number now d') = str_of_int (v + 1)
      /\ last (shipment_sequence (snd (DatabaseManager.get_next_reference_number now d')))
         = Some (Some (v + 1)).
Proof.
  intros Hon Hempty.
  assert (Hall : forall l, fst (allocations l d)
            = map (fun k => str_of_int (11111 + Z.of_nat k)) (seq 0 (length l))).
  { intros [|now l]; [reflexivity|].
    rewrite allocations_cons.
    destruct (next_reference_seeds now d Hon) as (Hr & Hon' & Hlast').
    { left. rewrite Hempty. reflexivity. }
    rewrite Hr, (allocations_from l _ 11111 Hon' Hlast' ltac:(lia)).
    cbn [length seq map]. f_equal.
    rewrite <- seq_shift, map_map. apply map_ext. intros k. f_equal. lia. }
  split; [exact (Hall [now1; now2; now3])|].
  split; [apply next_reference_seeds; [exact Hon | left; rewrite Hempty; reflexivity]|].
  split.
  { unfold DatabaseManager.get_next_reference_number. rewrite Hon, Hempty. reflexivity. }
  split; [exact (Hall nows)|].
  intros d' now v Hon' Hlast Hv.
  destruct (next_reference_increments now d' v Hon' Hlast Hv) as (Hr & _ & Hl).
  split; assumption.
Qed.

(** C4. With a reachable store: when exactly one of the keys of the pair
    (A, B) and (B, A) is in [maestro_dtto], resolving (A, B) and resolving
    (B, A) both return the value stored under that key; when neither is,
    both return 1. *)
Theorem priority_is_symmetric (d : database) (a b : Z) :
  online d = true ->
  (forall v, maestro_dtto d !! ruta a b = Some v ->
             maestro_dtto d !! ruta b a = None ->
             DatabaseManager.get_priority d a b = v
             /\ DatabaseManager.get_priority d b a = v)
  /\ (forall v, maestro_dtto d !! ruta a b = None ->
                maestro_dtto d !! ruta b a = Some v ->
                DatabaseManager.get_priority d a b = v
                /\ DatabaseManager.get_priority d b a = v)
  /\ (maestro_dtto d !! ruta a b = None ->
      maestro_dtto d !! ruta b a = None ->
      DatabaseManager.get_priority d a b = VInt 1
      /\ DatabaseManager.get_priority d b a = VInt 1).
Proof.
  intros Hon.
  unfold DatabaseManager.get_priority, DatabaseManager.execute_query.
  rewrite Hon. fold (ruta a b) (ruta b a).
  repeat split; intros; repeat match goal with Hx : _ !! _ = _ |- _ => rewrite Hx end;
    reflexivity.
Qed.

Lemma rate_of_lookup {R} (col : R -> option sqlnum) (d : database)
    (table : gmap Z R) (code : Z) :
  online d = true ->
  DatabaseManager.rate_of col (DatabaseManager.execute_query d table code)
  = supplied_rate col table code.
Proof.
  intros Hon. unfold DatabaseManager.execute_query, DatabaseManager.rate_of,
    supplied_rate, sqlnum_truthy.
  rewrite Hon. destruct (table !! code) as [r|]; [|reflexivity].
  destruct (col r) as [rate|]; reflexivity.
Qed.

(** C7, as the code has it.  With a reachable store: when the primary
    table supplies a rate (the row exists and the value is neither NULL
    nor zero), hectolitros is [float(rate) * float(pallets)] rounded to 4
    decimals and bultos is [int(rate) * pallets], the rate being truncated
    before the product; when it does not and the secondary table does, the
    same holds with the secondary rate; when neither does, hectolitros is
    0.0 and bultos is 0. *)
Theorem volume_and_packages_by_table_precedence
    (d : database) (code pallets : Z) :
  online d = true ->
  let hl1 := supplied_rate hl_por_pallet (dados_produtos d) code in
  let hl2 := supplied_rate hl_x_pallet (maestro_envases d) code in
  let b1 := supplied_rate bultos_x_pallet (dados_produtos d) code in
  let b2 := supplied_rate env_bultos_x_pallet (maestro_envases d) code in
  (forall rate r p,
      hl1 = Some rate \/ (hl1 = None /\ hl2 = Some rate) ->
      float_of_sqlnum rate = Ok r -> PyFloat.of_int pallets = Ok p ->
      DatabaseManager.get_hectolitros d code pallets
      = PyFloat.round_ndigits (PyFloat.mul r p) 4)
  /\ (hl1 = None -> hl2 = None ->
      DatabaseManager.get_hectolitros d code pallets = S754_zero false)
  /\ (forall rate r,
      b1 = Some rate \/ (b1 = None /\ b2 = Some rate) ->
      int_of_sqlnum rate = Ok r ->
      DatabaseManager.get_bultos d code pallets = r * pallets)
  /\ (b1 = None -> b2 = None ->
      DatabaseManager.get_bultos d code pallets = 0).
Proof.
  intros Hon hl1 hl2 b1 b2.
  unfold DatabaseManager.get_hectolitros, DatabaseManager.get_bultos.
  rewrite !rate_of_lookup by exact Hon. fold hl1 hl2 b1 b2.
  repeat split.
  - intros rate r p [-> | [-> ->]] Hr Hp;
      unfold DatabaseManager.hl_times; rewrite Hr, Hp; reflexivity.
  - intros -> ->. reflexivity.
  - intros rate r [-> | [-> ->]] Hr;
      unfold DatabaseManager.bultos_times; rewrite Hr; reflexivity.
  - intros -> ->. reflexivity.
Qed.

(** C7, as the specification has it, fails: with a primary rate of 2.5
    packages per pallet and 3 pallets, the code returns
    [int(2.5) * 3 = 6], whereas the product truncated is
    [int(7.5) = 7]. *)
Lemma bultos_truncates_rate_before_product :
  supplied_rate bultos_x_pallet (dados_produtos Examples.a_db) 7
    = Some (SqlReal Examples.f_2_5)
  /\ DatabaseManager.get_bultos Examples.a_db 7 3 = 6
  /\ bultos_by_specification (SqlReal Examples.f_2_5) 3 = Ok 7
  /\ Ok (DatabaseManager.get_bultos Examples.a_db 7 3)
     <> bultos_by_specification (SqlReal Examples.f_2_5) 3.
Proof.
  repeat split; try (vm_compute; reflexivity).
  vm_compute. intros E. inversion E.
Qed.

(* ===================================================================== *)
(** ** Properties of the plate roster *)
(* ===================================================================== *)

Lemma insert_plate_perm p l : insert_plate p l ≡ₚ p :: l.
Proof.
  induction l as [|x l IH]; simpl; [reflexivity|].
  destruct (plate_leb p x); [reflexivity|].
  rewrite IH. apply Permutation_swap.
Qed.

Lemma sort_plates_perm l : sort_plates l ≡ₚ l.
Proof.
  induction l as [|x l IH]; simpl; [reflexivity|].
  rewrite insert_plate_perm, IH. reflexivity.
Qed.

(** A list with at most one element is fixed by permutations. *)
Lemma perm_option_list {A} (l : list A) (o : option A) :
  l ≡ₚ option_list o -> l = option_list o.
Proof.
  destruct o as [x|]; simpl; intros Hp.
  - apply Permutation_singleton_r. exact Hp.
  - apply Permutation_nil_r. exact Hp.
Qed.

Section PlateProperties.

Context `{PyText}.

(** The entries of a key after the loop: those already kept, and, if
    the key has not been seen, its first occurrence in the input. *)
Lemma deduplicate_by_key k todas vistas unicas :
  filter (fun p => clave_unica p = k) (deduplicate todas vistas unicas)
  = filter (fun p => clave_unica p = k) unicas
    ++ (if decide (k ∈ vistas) then []
        else option_list
               (List.find (fun p => bool_decide (clave_unica p = k)) todas)).
Proof.
  revert vistas unicas.
  induction todas as [|p rest IH]; intros vistas unicas; cbn [deduplicate List.find].
  - destruct (decide (k ∈ vistas)); cbn; rewrite app_nil_r; reflexivity.
  - destruct (decide (clave_unica p ∈ vistas)) as [Hseen | Hnew]; rewrite IH.
    + f_equal. destruct (decide (k ∈ vistas)) as [_ | Hk]; [reflexivity|].
      rewrite bool_decide_eq_false_2; [reflexivity|].
      intros <-. contradiction.
    + rewrite filter_app, <- app_assoc. f_equal.
      destruct (decide (clave_unica p = k)) as [Heq | Hne].
      * rewrite filter_cons_True by exact Heq. rewrite filter_nil.
        rewrite bool_decide_eq_true_2 by exact Heq.
        rewrite decide_True by (apply elem_of_union_l, elem_of_singleton; auto).
        rewrite decide_False by (rewrite <- Heq; exact Hnew).
        reflexivity.
      * rewrite filter_cons_False by exact Hne. rewrite filter_nil.
        rewrite bool_decide_eq_false_2 by exact Hne.
        cbn [app].
        destruct (decide (k ∈ vistas)) as [Hk | Hk].
        -- rewrite decide_True by (apply elem_of_union_r; exact Hk). reflexivity.
        -- rewrite decide_False; [reflexivity|].
           intros [Hin | Hin]%elem_of_union; [|contradiction].
           apply elem_of_singleton in Hin. congruence.
Qed.

Lemma merge_plates_perm placas_bd placas_externas :
  merge_plates placas_bd placas_externas
  ≡ₚ deduplicate (placas_bd ++ map normalize_externa placas_externas) ∅ [].
Proof.
  unfold merge_plates.
  destruct (deduplicate _ ∅ []) as [|p l] eqn:E; [reflexivity|].
  apply sort_plates_perm.
Qed.

Lemma find_app_some {A} (f : A -> bool) (l l' : list A) :
  List.find f (l ++ l') =
  match List.find f l with
  | Some x => Some x
  | None => List.find f l'
  end.
Proof.
  induction l as [|x l IH]; simpl; [reflexivity|].
  destruct (f x); [reflexivity | exact IH].
Qed.

(** C5. In the roster [merge_plates] makes of a list A (database) and a
    list B (external), the entries with a given composite key are: the
    first entry with that key in A followed by the normalised B, and
    nothing else; so a key that occurs, however many times and in
    whichever list, has exactly one entry, a key that does not occur has
    none, and a key that occurs in A is represented by an entry of A. *)
Theorem merge_keeps_first_entry_of_each_key
    (placas_bd placas_externas : list plate) (k : string) :
  let todas := placas_bd ++ map normalize_externa placas_externas in
  let of_key := fun p => bool_decide (clave_unica p = k) in
  let roster := merge_plates placas_bd placas_externas in
  filter (fun p => clave_unica p = k) roster = option_list (List.find of_key todas)
  /\ (length (filter (fun p => clave_unica p = k) roster) <= 1)%nat
  /\ ((exists p, p ∈ todas /\ clave_unica p = k) ->
      length (filter (fun p => clave_unica p = k) roster) = 1%nat)
  /\ (forall a, a ∈ placas_bd -> clave_unica a = k ->
      exists a', a' ∈ placas_bd
        /\ List.find of_key placas_bd = Some a'
        /\ filter (fun p => clave_unica p = k) roster = [a']).
Proof.
  intros todas of_key roster.
  assert (Hmain : filter (fun p => clave_unica p = k) roster
                  = option_list (List.find of_key todas)).
  { apply perm_option_list. subst roster.
    rewrite merge_plates_perm. fold todas.
    rewrite deduplicate_by_key. cbn [filter app].
    rewrite decide_False by apply not_elem_of_empty. reflexivity. }
  split; [exact Hmain|]. rewrite Hmain.
  split; [destruct (List.find of_key todas); simpl; lia|].
  split.
  - intros (p & Hin & Hk).
    destruct (List.find of_key todas) as [x|] eqn:Ef; [reflexivity|].
    apply list_elem_of_In in Hin.
    pose proof (find_none _ _ Ef p Hin) as Hno.
    subst of_key. cbn in Hno. apply bool_decide_eq_false in Hno. contradiction.
  - intros a Ha Hk. subst todas. rewrite find_app_some.
    destruct (List.find of_key placas_bd) as [a'|] eqn:Ef.
    + exists a'. split; [|split; reflexivity].
      apply find_some in Ef. apply list_elem_of_In. tauto.
    + apply list_elem_of_In in Ha.
      pose proof (find_none _ _ Ef a Ha) as Hno.
      subst of_key. cbn in Hno. apply bool_decide_eq_false in Hno. contradiction.
Qed.

End PlateProperties.

(* ===================================================================== *)
(** ** Properties of the file-name dates *)
(* ===================================================================== *)

Lemma give_back_some rest it s n caps :
  Regex.give_back rest it s n = Some caps ->
  exists m caps',
    (Regex.it_min it <= m <= n)%nat
    /\ rest (drop m s) = Some caps'
    /\ caps = match Regex.it_group it with
              | Some g => (g, take m s) :: caps'
              | None => caps'
              end.
Proof.
  induction n as [|n IH]; cbn [Regex.give_back].
  - destruct (Regex.it_min it <=? 0)%nat eqn:Em.
    + destruct (rest (drop 0 s)) as [caps'|] eqn:Er; [|discriminate].
      intros E. injection E as <-. apply Nat.leb_le in Em.
      exists 0%nat, caps'. repeat split; auto.
    + discriminate.
  - destruct (Regex.it_min it <=? S n)%nat eqn:Em.
    + destruct (rest (drop (S n) s)) as [caps'|] eqn:Er.
      * intros E. injection E as <-. apply Nat.leb_le in Em.
        exists (S n), caps'. repeat split; auto.
      * intros E. destruct (IH E) as (m & caps' & Hm & Hr & Hc).
        exists m, caps'. repeat split; auto; lia.
    + intros E. destruct (IH E) as (m & caps' & Hm & Hr & Hc).
      exists m, caps'. repeat split; auto; lia.
Qed.

Section DateProperties.

Context `{OsPath} `{Unicode}.

Lemma run_take k s n :
  (n <= Regex.run k s)%nat ->
  length (take n s) = n
  /\ Forall (fun c => Regex.cls_matches k c = true) (take n s).
Proof.
  revert n. induction s as [|c s IH]; intros n Hn; simpl in Hn.
  - assert (n = 0%nat) as -> by lia. split; [reflexivity | constructor].
  - destruct n as [|n]; [split; [reflexivity | constructor]|].
    destruct (Regex.cls_matches k c) eqn:Ec; [|lia].
    destruct (IH n ltac:(lia)) as [Hl Hf]. simpl. split; [lia|].
    constructor; assumption.
Qed.

Lemma match_here_fits r s caps :
  Regex.match_here r s = Some caps -> captures_fit r caps.
Proof.
  revert s caps. induction r as [|it r IH]; intros s caps; cbn [Regex.match_here captures_fit].
  - intros E. injection E as <-. reflexivity.
  - intros E. apply give_back_some in E.
    destruct E as (m & caps' & Hm & Hr & ->).
    apply IH in Hr.
    destruct (Regex.it_group it) as [g|]; [|exact Hr].
    assert (Hrun : (m <= Regex.run (Regex.it_cls it) s)%nat).
    { destruct (Regex.it_max it); lia. }
    destruct (run_take _ _ _ Hrun) as [Hl Hf].
    exists (take m s), caps'. rewrite Hl. repeat split; auto; try lia.
    intros hi Hhi. rewrite Hhi in Hm. lia.
Qed.

Lemma search_from_some r s caps :
  Regex.search_from r s = Some caps -> exists s', Regex.match_here r s' = Some caps.
Proof.
  induction s as [|c s IH]; cbn [Regex.search_from].
  - destruct (Regex.match_here r []) eqn:E; [|discriminate].
    intros E'. injection E' as <-. eauto.
  - destruct (Regex.match_here r (c :: s)) eqn:E.
    + intros E'. injection E' as <-. eauto.
    + exact IH.
Qed.

Lemma zfill_digits s :
  (1 <= length s <= 2)%nat ->
  Forall (fun c => is_decimal c = true) s ->
  two_digits (zfill 2 s).
Proof.
  intros Hl Hd. destruct s as [|a [|b [|c s]]]; simpl in Hl; try lia.
  - inversion Hd; subst. unfold two_digits, zfill. cbn.
    destruct ((a =? 43) || (a =? 45)); cbn; split; auto.
  - inversion Hd as [|? ? Ha Hd']; subst. inversion Hd'; subst.
    unfold two_digits, zfill. cbn.
    destruct ((a =? 43) || (a =? 45)); cbn; split; auto.
Qed.

(** The three patterns capture a day and a month of one or two digits. *)
Lemma pattern_day_month p file_name c :
  p ∈ [pattern_sd; pattern_cb; pattern_generic] ->
  Regex.search p file_name = Some c ->
  two_digits (fst (day_month c)) /\ two_digits (snd (day_month c)).
Proof.
  intros Hp Hs. unfold Regex.search in Hs.
  apply search_from_some in Hs. destruct Hs as (s' & Hm).
  apply match_here_fits in Hm.
  assert (Hcaps : exists s1 s2, c = [(1%nat, s1); (2%nat, s2)]
            /\ (1 <= length s1 <= 2)%nat /\ Forall (fun c => is_decimal c = true) s1
            /\ (1 <= length s2 <= 2)%nat /\ Forall (fun c => is_decimal c = true) s2).
  { repeat (apply elem_of_cons in Hp; destruct Hp as [-> | Hp]);
      [| | |apply elem_of_nil in Hp; contradiction];
      cbn in Hm;
      destruct Hm as (s1 & caps1 & -> & Hl1 & Hh1 & Hf1 & s2 & caps2 & -> & Hl2 & Hh2 & Hf2 & ->);
      exists s1, s2;
      pose proof (Hh1 2%nat eq_refl); pose proof (Hh2 2%nat eq_refl);
      repeat split; auto. }
  destruct Hcaps as (s1 & s2 & -> & Hl1 & Hf1 & Hl2 & Hf2).
  unfold day_month. cbn [Regex.group Nat.eqb fst snd].
  split; apply zfill_digits; assumption.
Qed.

(** C6, as the code has it.  The file name, [os.path.basename] of the
    path, is searched as a sequence of code points, with [\s] and [\d]
    ranging over the whitespace and the decimal digits of the whole
    character table.  Both extractions look at the first of the three
    patterns, in order, that matches, and pad its day and month to two
    characters.  [extract_date_from_filename] returns that (month, day)
    when the day is within 1..31 and the month within 1..12, and
    otherwise, as when no pattern matches, the current month and day: no
    later pattern is tried after a match.  [extract_date_from_input_file]
    returns the (month, day) of that match unchecked, and (None, None)
    when no pattern matches. *)
Theorem date_extraction_takes_first_match
    (now : DateTime.datetime) (file_path : string) :
  let m := first_match (os_path_basename file_path) in
  let today := (DateTime.strftime_m now, DateTime.strftime_d now) in
  extract_date_from_filename now file_path
  = match m with
    | Some c =>
        if valid_day_month (day_month c)
        then month_day (day_month c)
        else today
    | None => today
    end
  /\ extract_date_from_input_file file_path
     = match m with
       | Some c =>
           (Some (fst (month_day (day_month c))),
            Some (snd (month_day (day_month c))))
       | None => (None, None)
       end
  /\ forall c, m = Some c ->
       two_digits (fst (day_month c)) /\ two_digits (snd (day_month c)).
Proof.
  intros m today. subst m today.
  unfold extract_date_from_filename, extract_date_try, extract_date_from_input_file,
    first_match, valid_day_month, month_day.
  split; [|split].
  - destruct (Regex.search pattern_sd (os_path_basename file_path)) as [c|];
      [|destruct (Regex.search pattern_cb (os_path_basename file_path)) as [c|];
        [|destruct (Regex.search pattern_generic (os_path_basename file_path)) as [c|]]];
      try reflexivity;
      destruct (day_month c) as [day month]; cbn [fst snd];
      destruct (int_of_text day), (int_of_text month); try reflexivity;
      match goal with |- context [if ?b then _ else _] => destruct b end; reflexivity.
  - destruct (Regex.search pattern_sd (os_path_basename file_path)) as [c|];
      [|destruct (Regex.search pattern_cb (os_path_basename file_path)) as [c|];
        [|destruct (Regex.search pattern_generic (os_path_basename file_path)) as [c|]]];
      try reflexivity; destruct (day_month c); reflexivity.
  - intros c.
    destruct (Regex.search pattern_sd (os_path_basename file_path)) as [c0|] eqn:E1;
      [|destruct (Regex.search pattern_cb (os_path_basename file_path)) as [c0|] eqn:E2;
        [|destruct (Regex.search pattern_generic (os_path_basename file_path)) as [c0|] eqn:E3]];
      intros E; inversion E; subst;
      (eapply (pattern_day_month _ (os_path_basename file_path)); [|eassumption]; set_solver).
Qed.

End DateProperties.

(* ===================================================================== *)
(** ** More on the route correlative *)
(* ===================================================================== *)

Lemma insert_sorted_perm s l : insert_sorted s l ≡ₚ s :: l.
Proof.
  induction l as [|x l IH]; simpl; [reflexivity|].
  destruct (String.leb s x); [reflexivity|].
  rewrite IH. apply Permutation_swap.
Qed.

Lemma sort_strings_perm l : sort_strings l ≡ₚ l.
Proof.
  unfold sort_strings.
  assert (G : forall acc, fold_left (fun acc s => insert_sorted s acc) l acc ≡ₚ l ++ acc).
  { induction l as [|x l IH]; intros acc; simpl; [reflexivity|].
    rewrite IH, insert_sorted_perm. symmetry. apply Permutation_middle. }
  rewrite G, app_nil_r. reflexivity.
Qed.

Lemma existsb_eqb_elem (s : string) (l : list string) :
  existsb (String.eqb s) l = true <-> s ∈ l.
Proof.
  rewrite existsb_exists. split.
  - intros (x & Hin & Heq). apply String.eqb_eq in Heq. subst.
    apply list_elem_of_In. exact Hin.
  - intros Hin. exists s. split; [apply list_elem_of_In; exact Hin | apply String.eqb_refl].
Qed.

Lemma list_index_elem s l :
  s ∈ l -> exists i, list_index s l = Some i /\ 0 <= i < Z.of_nat (length l).
Proof.
  induction l as [|x l IH]; intros Hin; [inversion Hin|].
  cbn [list_index length]. destruct (String.eqb x s) eqn:E.
  - exists 0. split; [reflexivity | lia].
  - apply elem_of_cons in Hin. destruct Hin as [-> | Hin].
    + rewrite String.eqb_refl in E. discriminate.
    + destruct (IH Hin) as (i & Hi & Hb). exists (Z.succ i).
      rewrite Hi. split; [reflexivity | lia].
Qed.

Lemma list_index_absent s l : s ∉ l -> list_index s l = None.
Proof.
  induction l as [|x l IH]; intros Hn; [reflexivity|].
  cbn [list_index]. destruct (String.eqb_spec x s) as [->|Hne].
  - exfalso. apply Hn, list_elem_of_here.
  - rewrite IH; [reflexivity|]. intros Hin. apply Hn, list_elem_of_further, Hin.
Qed.

Lemma list_index_inj a b l i :
  list_index a l = Some i -> list_index b l = Some i -> a = b.
Proof.
  revert i. induction l as [|x l IH]; intros i; cbn [list_index]; [discriminate|].
  assert (Hpos : forall s j, list_index s l = Some j -> 0 <= j).
  { clear. induction l as [|y l IH]; intros s j; cbn [list_index]; [discriminate|].
    destruct (String.eqb y s); [intros E; injection E as <-; lia|].
    destruct (list_index s l) as [k|] eqn:Ek; [|discriminate].
    intros E; injection E as <-. specialize (IH s k Ek). lia. }
  destruct (String.eqb x a) eqn:Ea, (String.eqb x b) eqn:Eb.
  - apply String.eqb_eq in Ea, Eb. congruence.
  - intros E; injection E as <-.
    destruct (list_index b l) as [k|] eqn:Ek; [|discriminate].
    intros E; injection E as E. specialize (Hpos b k Ek). lia.
  - destruct (list_index a l) as [k|] eqn:Ek; [|discriminate].
    intros E; injection E as <-. intros E; injection E as E.
    specialize (Hpos a k Ek). lia.
  - destruct (list_index a l) as [k|] eqn:Ek; [|discriminate].
    destruct (list_index b l) as [k'|] eqn:Ek'; [|discriminate].
    intros E; injection E as <-. intros E; injection E as E.
    apply (IH k); [reflexivity | f_equal; lia].
Qed.

Section RouteProperties.

Context `{PyText}.

(** The loop keeps what it has collected, adds the route of every
    shipment of the trip, and never lists a route twice. *)
Lemma collect_routes_spec v all acc routes :
  collect_routes v all acc = Ok routes ->
  (forall k, k ∈ acc -> k ∈ routes)
  /\ (forall o d, on_trip v o d all -> route_key o d ∈ routes)
  /\ (NoDup acc -> NoDup routes)
  /\ (forall k, k ∈ routes ->
        k ∈ acc \/ exists o d, on_trip v o d all /\ k = route_key o d).
Proof.
  revert acc. induction all as [|s all IH]; intros acc; cbn [collect_routes].
  - intros E; injection E as <-. repeat split; auto.
    intros o d (x & Hin & _). inversion Hin.
  - destruct (safe_int_conversion (default VNone (s !! "# Viaje")) 0) as [sv|] eqn:Ev;
      [|discriminate].
    destruct (safe_int_conversion (default VNone (s !! "Cód. Origen")) 0) as [so|] eqn:Eo;
      [|discriminate].
    destruct (safe_int_conversion (default VNone (s !! "Cód. Destino")) 0) as [sd|] eqn:Ed;
      [|discriminate].
    fold (route_key so sd).
    intros E. apply IH in E. destruct E as (I1 & I2 & I3 & I4).
    assert (Hlift : forall o d, on_trip v o d all -> on_trip v o d (s :: all)).
    { intros o d (x & Hin & Hx). exists x. split; [apply elem_of_cons; auto | exact Hx]. }
    destruct ((sv =? v) && negb (existsb (String.eqb (route_key so sd)) acc)) eqn:Hc.
    + apply andb_true_iff in Hc. destruct Hc as [Hv Hnew].
      apply Z.eqb_eq in Hv. subst sv.
      apply negb_true_iff in Hnew.
      assert (Hnotin : route_key so sd ∉ acc).
      { intros Hin. apply existsb_eqb_elem in Hin. congruence. }
      repeat split.
      * intros k Hk. apply I1, elem_of_app. auto.
      * intros o d (x & Hin & Hx1 & Hx2 & Hx3).
        apply elem_of_cons in Hin. destruct Hin as [-> | Hin].
        -- rewrite Ev in Hx1. rewrite Eo in Hx2. rewrite Ed in Hx3.
           injection Hx2 as <-. injection Hx3 as <-.
           apply I1, elem_of_app. right. apply list_elem_of_singleton. reflexivity.
        -- apply I2. exists x. auto.
      * intros Hnd. apply I3. apply NoDup_app. repeat split; auto.
        -- intros x Hx Hx'. apply list_elem_of_singleton in Hx'. subst. contradiction.
        -- apply NoDup_singleton.
      * intros k Hk. destruct (I4 k Hk) as [Hin | (o & d & Ht & ->)].
        -- apply elem_of_app in Hin. destruct Hin as [Hin | Hin]; [auto|].
           apply list_elem_of_singleton in Hin. subst k. right.
           exists so, sd. split; [|reflexivity].
           exists s. split; [apply list_elem_of_here | auto].
        -- right. exists o, d. auto.
    + repeat split; auto.
      * intros o d (x & Hin & Hx1 & Hx2 & Hx3).
        apply elem_of_cons in Hin. destruct Hin as [-> | Hin].
        -- rewrite Ev in Hx1. rewrite Eo in Hx2. rewrite Ed in Hx3.
           injection Hx1 as <-. injection Hx2 as <-. injection Hx3 as <-.
           rewrite Z.eqb_refl in Hc. cbn in Hc. apply negb_false_iff in Hc.
           apply I1. apply existsb_eqb_elem. exact Hc.
        -- apply I2. exists x. auto.
      * intros k Hk. destruct (I4 k Hk) as [Hin | (o & d & Ht & ->)]; [auto|].
        right. exists o, d. auto.
Qed.

(** X1. When the loop of [generate_unique_route_correlative] returns
    the routes of a trip, two shipments of the trip with different routes
    get different correlatives, each the trip number times 100 plus a rank
    between 1 and the number of routes; a route that is not among them
    falls back to rank 1. *)
Theorem routes_of_a_trip_get_distinct_correlatives
    (v o1 d1 o2 d2 : Z) (all : list manifest_row) (routes : list string) :
  collect_routes v all [] = Ok routes ->
  on_trip v o1 d1 all ->
  on_trip v o2 d2 all ->
  route_key o1 d1 <> route_key o2 d2 ->
  exists i1 i2,
    generate_unique_route_correlative v o1 d1 all = Ok (v * 100 + i1)
    /\ generate_unique_route_correlative v o2 d2 all = Ok (v * 100 + i2)
    /\ 1 <= i1 <= Z.of_nat (length routes)
    /\ 1 <= i2 <= Z.of_nat (length routes)
    /\ i1 <> i2
    /\ forall o d, route_key o d ∉ routes ->
         generate_unique_route_correlative v o d all = Ok (v * 100 + 1).
Proof.
  intros Hc H1 H2 Hne.
  destruct (collect_routes_spec v all [] routes Hc) as (_ & Hon & _ & _).
  assert (Hlen : length (sort_strings routes) = length routes)
    by (apply Permutation_length, sort_strings_perm).
  assert (Hs1 : route_key o1 d1 ∈ sort_strings routes)
    by (rewrite sort_strings_perm; apply Hon; exact H1).
  assert (Hs2 : route_key o2 d2 ∈ sort_strings routes)
    by (rewrite sort_strings_perm; apply Hon; exact H2).
  destruct (list_index_elem _ _ Hs1) as (i1 & Hi1 & Hb1).
  destruct (list_index_elem _ _ Hs2) as (i2 & Hi2 & Hb2).
  exists (i1 + 1), (i2 + 1).
  unfold generate_unique_route_correlative. rewrite Hc.
  fold (route_key o1 d1) (route_key o2 d2). rewrite Hi1, Hi2.
  split; [reflexivity|]. split; [reflexivity|].
  split; [lia|]. split; [lia|]. split.
  - intros E. assert (i1 = i2) by lia. subst i2.
    apply Hne. eapply list_index_inj; eassumption.
  - intros o d Hno. fold (route_key o d). rewrite list_index_absent; [reflexivity|].
    rewrite sort_strings_perm. exact Hno.
Qed.

End RouteProperties.

(* ===================================================================== *)
(** ** More on the conversions *)
(* ===================================================================== *)

Section ConversionProperties.

Context `{PyText}.

Lemma except_value_type_class {A} (default : A) (r : result A) e :
  except_value_type default r = Raise e ->
  r = Raise e /\ exn_class e <> ValueError /\ exn_class e <> TypeError.
Proof.
  unfold except_value_type. destruct r as [a|[[] msg]]; intros E; inversion E; subst;
    repeat split; discriminate.
Qed.

Lemma to_int_raise f e :
  PyFloat.to_int f = Raise e ->
  (exists s, f = S754_infinity s /\ exn_class e = OverflowError)
  \/ (f = S754_nan /\ exn_class e = ValueError).
Proof.
  destruct f; cbn; intros E; inversion E; subst; eauto.
Qed.

(** The text branch of [safe_int_conversion]. *)
Lemma text_to_int_raise (s : string) (default : Z) e :
  except_value_type default
    (if String.eqb (str_strip s) "" then Ok default
     else match float_of_str (str_strip s) with
          | Some f => PyFloat.to_int f
          | None => Raise (Exn ValueError "could not convert string to float")
          end) = Raise e ->
  exn_class e = OverflowError
  /\ exists sg, float_of_str (str_strip s) = Some (S754_infinity sg).
Proof.
  intros Hr. apply except_value_type_class in Hr. destruct Hr as (Hr & Hv & Ht).
  destruct (String.eqb (str_strip s) ""); [discriminate|].
  destruct (float_of_str (str_strip s)) as [f|];
    [|injection Hr as <-; cbn in Hv; congruence].
  apply to_int_raise in Hr.
  destruct Hr as [(sg & -> & Hc) | (_ & Hc)]; [eauto | congruence].
Qed.

(** X2. [safe_int_conversion] returns the default for a missing or empty
    cell and an int cell as it is; the only exception it lets through is
    OverflowError, raised for an infinite float cell or a text that reads
    as an infinite float. *)
Theorem safe_int_conversion_lets_only_overflow_escape (value : pyval) (default : Z) :
  (pd_isna value = true \/ value = VStr "" ->
   safe_int_conversion value default = Ok default)
  /\ (forall z, value = VInt z -> safe_int_conversion value default = Ok z)
  /\ (forall s, value = VFloat (S754_infinity s) ->
      exists e, safe_int_conversion value default = Raise e
                /\ exn_class e = OverflowError)
  /\ (forall e, safe_int_conversion value default = Raise e ->
      exn_class e = OverflowError
      /\ ((exists s, value = VFloat (S754_infinity s))
          \/ exists s, float_of_str (str_strip (py_str value)) = Some (S754_infinity s))).
Proof.
  split; [|split; [|split]].
  - intros [Hna | ->]; unfold safe_int_conversion; [rewrite Hna|]; reflexivity.
  - intros z ->. reflexivity.
  - intros s ->. eexists. split; reflexivity.
  - intros e Hr. unfold safe_int_conversion in Hr.
    destruct value as [|z|f|s|s]; cbn [pd_isna py_eqb orb py_str] in Hr.
    + discriminate.
    + discriminate.
    + destruct (PyFloat.is_nan f); [discriminate|].
      apply except_value_type_class in Hr. destruct Hr as (Hr & Hv & Ht).
      apply to_int_raise in Hr.
      destruct Hr as [(sg & -> & Hc) | (_ & Hc)]; [eauto | congruence].
    + destruct (String.eqb s ""); [discriminate|].
      apply text_to_int_raise in Hr. destruct Hr as [Hc Hs]. auto.
    + apply text_to_int_raise in Hr. destruct Hr as [Hc Hs]. auto.
Qed.

(** X3. [safe_numeric_conversion] returns the default for a missing or
    empty cell, and otherwise the default or a float; the only exception
    it lets through is the OverflowError of an int too large for a
    float. *)
Theorem safe_numeric_conversion_gives_float_or_default (value default : pyval) :
  (pd_isna value = true \/ value = VStr "" ->
   safe_numeric_conversion value default = Ok default)
  /\ (forall v, safe_numeric_conversion value default = Ok v ->
      v = default \/ exists f, v = VFloat f)
  /\ (forall e, safe_numeric_conversion value default = Raise e ->
      exn_class e = OverflowError
      /\ exists z, value = VInt z /\ PyFloat.of_int z = Raise e).
Proof.
  split; [|split].
  - intros [Hna | ->]; unfold safe_numeric_conversion; [rewrite Hna|]; reflexivity.
  - intros v. unfold safe_numeric_conversion.
    destruct (pd_isna value || py_eqb value (VStr "")); [intros E; injection E; auto|].
    unfold except_value_type.
    destruct value as [|z|f|s|s]; cbn [py_str].
    + destruct (String.eqb (str_strip "None") "");
        [intros E; injection E; auto|].
      destruct (float_of_str (str_strip "None")); intros E; injection E as <-; eauto.
    + destruct (PyFloat.of_int z) as [f|[[] msg]]; intros E; inversion E; eauto.
    + intros E; injection E as <-; eauto.
    + destruct (String.eqb (str_strip s) ""); [intros E; injection E; auto|].
      destruct (float_of_str (str_strip s)); intros E; injection E as <-; eauto.
    + destruct (String.eqb (str_strip s) ""); [intros E; injection E; auto|].
      destruct (float_of_str (str_strip s)); intros E; injection E as <-; eauto.
  - intros e. unfold safe_numeric_conversion.
    destruct (pd_isna value || py_eqb value (VStr "")); [discriminate|].
    intros Hr. apply except_value_type_class in Hr. destruct Hr as (Hr & Hv & Ht).
    destruct value as [|z|f|s|s]; cbn [py_str] in Hr.
    + destruct (String.eqb (str_strip "None") ""); [discriminate|].
      destruct (float_of_str (str_strip "None")); [discriminate|].
      injection Hr as <-. cbn in Hv. congruence.
    + destruct (PyFloat.of_int z) as [f|e'] eqn:Ez; [discriminate|].
      injection Hr as ->. split; [|eauto].
      unfold PyFloat.of_int in Ez.
      destruct (binary_normalize PyFloat.prec PyFloat.emax z 0 false);
        inversion Ez; reflexivity.
    + discriminate.
    + destruct (String.eqb (str_strip s) ""); [discriminate|].
      destruct (float_of_str (str_strip s)); [discriminate|].
      injection Hr as <-. cbn in Hv. congruence.
    + destruct (String.eqb (str_strip s) ""); [discriminate|].
      destruct (float_of_str (str_strip s)); [discriminate|].
      injection Hr as <-. cbn in Hv. congruence.
Qed.

End ConversionProperties.

(* ===================================================================== *)
(** ** More on the identifiers and the resolvers *)
(* ===================================================================== *)

Lemma hex_value_digit x : 0 <= x < 16 -> Md5.hex_value (Md5.hex_digit x) = Some x.
Proof.
  intros Hx.
  assert (Hc : x = 0 \/ x = 1 \/ x = 2 \/ x = 3 \/ x = 4 \/ x = 5 \/ x = 6 \/ x = 7
               \/ x = 8 \/ x = 9 \/ x = 10 \/ x = 11 \/ x = 12 \/ x = 13 \/ x = 14
               \/ x = 15) by lia.
  repeat (destruct Hc as [-> | Hc]; [reflexivity|]). subst. reflexivity.
Qed.

Lemma land_255_bounds w : 0 <= Z.land w 0xFF < 256.
Proof.
  change 0xFF with (Z.ones 8). rewrite Z.land_ones by lia.
  apply Z.mod_pos_bound. lia.
Qed.

(** The first eight characters of a digest read as a 32-bit number. *)
Lemma hash_short_defined (s : string) :
  exists h, Md5.int_of_hex (substring 0 8 (Md5.hexdigest s)) = Some h
            /\ 0 <= h < 2 ^ 32.
Proof.
  unfold Md5.hexdigest, Md5.digest.
  destruct (fold_left Md5.process_block _ Md5.init) as [[[a b] c] d].
  cbn [Md5.le_bytes app Md5.hex_of_bytes substring].
  pose proof (land_255_bounds a) as B0.
  pose proof (land_255_bounds (Z.shiftr a 8)) as B1.
  pose proof (land_255_bounds (Z.shiftr (Z.shiftr a 8) 8)) as B2.
  pose proof (land_255_bounds (Z.shiftr (Z.shiftr (Z.shiftr a 8) 8) 8)) as B3.
  set (b0 := Z.land a 0xFF) in *.
  set (b1 := Z.land (Z.shiftr a 8) 0xFF) in *.
  set (b2 := Z.land (Z.shiftr (Z.shiftr a 8) 8) 0xFF) in *.
  set (b3 := Z.land (Z.shiftr (Z.shiftr (Z.shiftr a 8) 8) 8) 0xFF) in *.
  assert (Hq : forall x, 0 <= x < 256 -> 0 <= x / 16 < 16 /\ 0 <= x mod 16 < 16).
  { intros x Hx. split; [split; [apply Z.div_pos; lia | apply Z.div_lt_upper_bound; lia]
                        | apply Z.mod_pos_bound; lia]. }
  destruct (Hq b0 B0) as [Q0 R0]. destruct (Hq b1 B1) as [Q1 R1].
  destruct (Hq b2 B2) as [Q2 R2]. destruct (Hq b3 B3) as [Q3 R3].
  unfold Md5.int_of_hex. cbn [Md5.int_of_hex_from].
  rewrite !hex_value_digit by assumption.
  eexists. split; [reflexivity|]. lia.
Qed.

Section ShipmentNumberProperties.

Context `{PyText}.

(** X7. The first eight characters of the digest always read as a number
    below 2^32, and [generate_shipment_number] returns "BO" followed by a
    number between 2226500000 and 2227499998. *)
Theorem shipment_number_is_country_code_and_number_in_range
    (row_data : manifest_row) (index : Z) :
  exists h n,
    Md5.int_of_hex (substring 0 8 (Md5.hexdigest (unique_string row_data index))) = Some h
    /\ 0 <= h < 2 ^ 32
    /\ n = 2226500000 + h mod 999999
    /\ 2226500000 <= n <= 2227499998
    /\ generate_shipment_number row_data index = "BO" +:+ str_of_int n.
Proof.
  destruct (hash_short_defined (unique_string row_data index)) as (h & Hh & Hb).
  exists h, (2226500000 + h mod 999999).
  split; [exact Hh|]. split; [exact Hb|]. split; [reflexivity|].
  pose proof (Z.mod_pos_bound h 999999 ltac:(lia)).
  split; [lia|].
  unfold generate_shipment_number. rewrite Hh. reflexivity.
Qed.

End ShipmentNumberProperties.

(** X8. [get_commodity] returns the commodity stored for the product
    whenever the store is reachable and holds a non-empty one, and
    "BO_BR" in every other case: an unreachable store, a product the
    table lacks, a NULL or empty commodity.  So it never returns an
    empty string. *)
Theorem commodity_is_stored_value_or_default (d : database) (codigo_prod : Z) :
  (forall p c,
     online d = true ->
     dados_produtos d !! codigo_prod = Some p ->
     codigo_commodity p = Some c ->
     c <> "" ->
     DatabaseManager.get_commodity d codigo_prod = VStr c)
  /\ (online d = false \/ dados_produtos d !! codigo_prod = None
      \/ (exists p, dados_produtos d !! codigo_prod = Some p
                    /\ (codigo_commodity p = None \/ codigo_commodity p = Some "")) ->
      DatabaseManager.get_commodity d codigo_prod = VStr "BO_BR")
  /\ exists c, DatabaseManager.get_commodity d codigo_prod = VStr c /\ c <> "".
Proof.
  unfold DatabaseManager.get_commodity, DatabaseManager.execute_query.
  split; [|split].
  - intros p c -> -> -> Hne.
    destruct (String.eqb_spec c "") as [->|_]; [contradiction | reflexivity].
  - intros [-> | [Hnone | (p & Hp & [Hc | Hc])]]; [reflexivity | | |].
    + rewrite Hnone. destruct (online d); reflexivity.
    + rewrite Hp. destruct (online d); [rewrite Hc|]; reflexivity.
    + rewrite Hp. destruct (online d); [rewrite Hc|]; reflexivity.
  - destruct (online d); [|exists "BO_BR"; split; [reflexivity | discriminate]].
    destruct (dados_produtos d !! codigo_prod) as [p|];
      [|exists "BO_BR"; split; [reflexivity | discriminate]].
    destruct (codigo_commodity p) as [c|];
      [|exists "BO_BR"; split; [reflexivity | discriminate]].
    destruct (String.eqb_spec c "") as [->|Hne]; cbn [negb].
    + exists "BO_BR"; split; [reflexivity | discriminate].
    + exists c. split; [reflexivity | exact Hne].
Qed.





(* ===================================================================== *)
(** ** More on the plate roster *)
(* ===================================================================== *)

Lemma plate_leb_total a b : plate_leb a b = true \/ plate_leb b a = true.
Proof.
  unfold plate_leb. rewrite (String.compare_antisym (Origen b) (Origen a)).
  destruct (String.compare (Origen a) (Origen b)); cbn; auto.
  apply String.leb_total.
Qed.

Lemma insert_plate_sorted p l :
  Sorted (fun a b => plate_leb a b = true) l ->
  Sorted (fun a b => plate_leb a b = true) (insert_plate p l).
Proof.
  induction l as [|x l IH]; intros Hs; cbn [insert_plate].
  - repeat constructor.
  - destruct (plate_leb p x) eqn:E.
    + constructor; [exact Hs | constructor; exact E].
    + apply Sorted_inv in Hs. destruct Hs as [Hs Hhd].
      constructor; [apply IH; exact Hs|].
      destruct l as [|y l]; cbn [insert_plate].
      * constructor. destruct (plate_leb_total p x); congruence.
      * destruct (plate_leb p y); constructor.
        -- destruct (plate_leb_total p x); congruence.
        -- inversion Hhd; assumption.
Qed.

Lemma sort_plates_sorted l : Sorted (fun a b => plate_leb a b = true) (sort_plates l).
Proof.
  induction l as [|x l IH]; cbn; [constructor | apply insert_plate_sorted, IH].
Qed.

Section RosterProperties.

Context `{PyText}.

(** The loop keeps its entries, takes new ones from the input only, and
    keeps the keys of the kept entries apart when they start apart and
    are all in the set of seen keys. *)
Lemma deduplicate_invariant todas vistas unicas :
  (forall p, p ∈ unicas -> clave_unica p ∈ vistas) ->
  NoDup (map clave_unica unicas) ->
  NoDup (map clave_unica (deduplicate todas vistas unicas))
  /\ (forall p, p ∈ deduplicate todas vistas unicas -> p ∈ unicas \/ p ∈ todas).
Proof.
  revert vistas unicas. induction todas as [|q rest IH]; intros vistas unicas Hseen Hnd;
    cbn [deduplicate].
  - split; [exact Hnd | auto].
  - destruct (decide (clave_unica q ∈ vistas)) as [Hin | Hnew].
    + destruct (IH vistas unicas Hseen Hnd) as [I1 I2]. split; [exact I1|].
      intros p Hp. destruct (I2 p Hp); [auto | right; apply elem_of_cons; auto].
    + destruct (IH ({[clave_unica q]} ∪ vistas) (unicas ++ [q])) as [I1 I2].
      * intros p Hp. apply elem_of_app in Hp. destruct Hp as [Hp | Hp].
        -- apply elem_of_union_r, Hseen, Hp.
        -- apply list_elem_of_singleton in Hp. subst.
           apply elem_of_union_l, elem_of_singleton. reflexivity.
      * rewrite map_app. apply NoDup_app. repeat split; [exact Hnd | | apply NoDup_singleton].
        intros k Hk Hk'. cbn in Hk'. apply list_elem_of_singleton in Hk'. subst k.
        apply list_elem_of_fmap in Hk. destruct Hk as (p & Hkp & Hp).
        apply Hnew. rewrite Hkp. apply Hseen, Hp.
      * split; [exact I1|]. intros p Hp. destruct (I2 p Hp) as [Hq | Hq].
        -- apply elem_of_app in Hq. destruct Hq as [Hq | Hq]; [auto|].
           apply list_elem_of_singleton in Hq. subst. right. apply list_elem_of_here.
        -- right. apply elem_of_cons. auto.
Qed.

(** X5. The roster of [merge_plates] is sorted by (Origen, Placa), no
    two of its entries have the same composite key, each entry comes from
    list A or is a normalised entry of list B, and it is no longer than
    the two lists together. *)
Theorem roster_is_sorted_without_repeated_key
    (placas_bd placas_externas : list plate) :
  let roster := merge_plates placas_bd placas_externas in
  Sorted (fun a b => plate_leb a b = true) roster
  /\ NoDup (map clave_unica roster)
  /\ (forall p, p ∈ roster ->
        p ∈ placas_bd \/ exists b, b ∈ placas_externas /\ p = normalize_externa b)
  /\ (length roster <= length placas_bd + length placas_externas)%nat.
Proof.
  intros roster.
  destruct (deduplicate_invariant
              (placas_bd ++ map normalize_externa placas_externas) ∅ [])
    as [Hnd Hfrom]; [intros p Hp; inversion Hp | constructor |].
  assert (Hperm : roster ≡ₚ deduplicate (placas_bd ++ map normalize_externa placas_externas) ∅ [])
    by apply merge_plates_perm.
  split; [|split; [|split]].
  - subst roster. unfold merge_plates.
    destruct (deduplicate _ ∅ []); [constructor | apply sort_plates_sorted].
  - rewrite Hperm. exact Hnd.
  - intros p Hp. rewrite Hperm in Hp. destruct (Hfrom p Hp) as [Hx | Hx]; [inversion Hx|].
    apply elem_of_app in Hx. destruct Hx as [Hx | Hx]; [auto|].
    apply list_elem_of_fmap in Hx. destruct Hx as (b & -> & Hb). eauto.
  - rewrite Hperm.
    assert (Hlen : forall todas vistas unicas,
      (length (deduplicate todas vistas unicas) <= length unicas + length todas)%nat).
    { clear. induction todas as [|q rest IH]; intros vistas unicas; cbn [deduplicate length].
      - lia.
      - destruct (decide (clave_unica q ∈ vistas)).
        + specialize (IH vistas unicas). lia.
        + specialize (IH ({[clave_unica q]} ∪ vistas) (unicas ++ [q])).
          rewrite length_app in IH. cbn in IH. lia. }
    specialize (Hlen (placas_bd ++ map normalize_externa placas_externas) ∅ []).
    rewrite length_app, length_map in Hlen. cbn in Hlen. lia.
Qed.

(** X6. Every entry [placas_from_manifest] makes comes from a row of the
    sheet whose plate cell is present and not blank and whose plate, as
    written in the cell, is in the drivers table with group
    "Transportadoras"; its Placa is the cell stripped and upper-cased, its
    Origen the stripped plant cell, and its Reusable 0. *)
Theorem manifest_plates_are_qualified_and_normalised
    (drivers : gmap string (option string)) (col_codplanta col_placa : string)
    (rs : list (Z * manifest_row)) (p : plate) :
  p ∈ placas_from_manifest drivers col_codplanta col_placa rs ->
  exists index r placa,
    (index, r) ∈ rs
    /\ placa = default (VFloat S754_nan) (r !! col_placa)
    /\ pd_isna placa = false
    /\ str_strip (py_str placa) <> ""
    /\ drivers !! py_str placa = Some (Some "Transportadoras")
    /\ Placa p = str_upper (str_strip (py_str placa))
    /\ Origen p = str_strip (py_str (default (VFloat S754_nan) (r !! col_codplanta)))
    /\ Reusable p = 0.
Proof.
  unfold placas_from_manifest. intros Hp.
  apply list_elem_of_omap in Hp. destruct Hp as ([index r] & Hin & Hsome).
  cbn [snd] in Hsome.
  destruct (pd_isna (default (VFloat S754_nan) (r !! col_placa))) eqn:Ena;
    [discriminate|].
  destruct (String.eqb_spec
              (str_strip (py_str (default (VFloat S754_nan) (r !! col_placa)))) "")
    as [|Hne]; [discriminate|].
  cbn [orb] in Hsome.
  destruct (drivers !! py_str (default (VFloat S754_nan) (r !! col_placa)))
    as [[g|]|] eqn:Ed; try discriminate.
  destruct (String.eqb_spec g "Transportadoras") as [->|Hg].
  - injection Hsome as <-. exists index, r, (default (VFloat S754_nan) (r !! col_placa)).
    repeat split; auto.
  - exfalso. revert Hsome. clear -Hg.
    repeat (destruct g as [|[[] [] [] [] [] [] [] []] g]; try discriminate).
    congruence.
Qed.

End RosterProperties.

(* ===================================================================== *)
(** ** More on the pipeline *)
(* ===================================================================== *)

Lemma header_references_app l l' :
  header_references (l ++ l') = header_references l ++ header_references l'.
Proof.
  induction l as [|r l IH]; cbn [app header_references]; [reflexivity|].
  destruct (py_eqb (Type_ r) (VStr "H")); rewrite IH; reflexivity.
Qed.

Section AccountingProperties.

Context `{PyText}.

(** A row either stops before the allocator is called, having queried
    nothing that counts, or makes its five queries and takes the next
    reference number; when it returns, that number is in its header. *)
Lemma process_record_body_allocation row index ship_num all g :
  let out := process_record_body row index ship_num all g in
  let a := DatabaseManager.get_next_reference_number (clock g (clock_reads g)) (db g) in
  (is_ok (fst out) = false
   /\ db (snd out) = db g
   /\ reference_numbers_generated (validation_stats (snd out))
      = reference_numbers_generated (validation_stats g)
   /\ database_queries (validation_stats (snd out)) = database_queries (validation_stats g))
  \/ (db (snd out) = snd a
      /\ reference_numbers_generated (validation_stats (snd out))
         = reference_numbers_generated (validation_stats g) ++ [fst a]
      /\ database_queries (validation_stats (snd out))
         = database_queries (validation_stats g) + 5
      /\ forall recs, fst out = Ok recs ->
           header_references recs = [VStr (fst a)]).
Proof.
  intros out a. subst out a.
  unfold process_record_body, bind, lift, db_query, modify_stats,
    db_get_next_reference_number, datetime_now, ret.
  split_results;
    try match goal with
    | |- context [DatabaseManager.get_next_reference_number ?n ?d] =>
        let Eref := fresh "Eref" in
        destruct (DatabaseManager.get_next_reference_number n d) eqn:Eref
    end;
    cbn [fst snd is_ok];
    try (left; cbn; repeat split; reflexivity).
  all: right.
  all: cbn -[DatabaseManager.get_hectolitros DatabaseManager.get_bultos
          generate_shipment_number calculate_dates process_weight Z.add
          DatabaseManager.get_next_reference_number] in *.
  all: rewrite Eref.
  all: cbn [fst snd].
  all: repeat split; try (destruct (online _); cbn; try reflexivity; lia).
  all: try discriminate.
  all: intros recs Hrecs; apply Ok_inj in Hrecs; subst recs; reflexivity.
Qed.


Lemma process_record_allocation row index ship_num all g :
  let out := process_record row index ship_num all g in
  let a := DatabaseManager.get_next_reference_number (clock g (clock_reads g)) (db g) in
  (is_ok (fst out) = false
   /\ db (snd out) = db g
   /\ reference_numbers_generated (validation_stats (snd out))
      = reference_numbers_generated (validation_stats g)
   /\ database_queries (validation_stats (snd out)) = database_queries (validation_stats g))
  \/ (db (snd out) = snd a
      /\ reference_numbers_generated (validation_stats (snd out))
         = reference_numbers_generated (validation_stats g) ++ [fst a]
      /\ database_queries (validation_stats (snd out))
         = database_queries (validation_stats g) + 5
      /\ forall recs, fst out = Ok recs ->
           header_references recs = [VStr (fst a)]).
Proof.
  intros out a. subst out.
  pose proof (process_record_body_allocation row index ship_num all g) as Hb.
  cbn zeta in Hb. fold a in Hb.
  unfold process_record, try_except.
  destruct (process_record_body row index ship_num all g) as [[recs|e] g0];
    cbn [fst snd] in *; [exact Hb|].
  unfold bind, modify_stats, raise. cbn.
  destruct Hb as [(_ & Hd & Hr & Hq) | (Hd & Hr & Hq & _)].
  - left. auto.
  - right. repeat split; auto. discriminate.
Qed.

Lemma process_record_raise_total row index ship_num all g e g' :
  process_record row index ship_num all g = (Raise e, g') ->
  total_records (validation_stats g') = total_records (validation_stats g).
Proof.
  unfold process_record, try_except.
  destruct (process_record_body row index ship_num all g) as [[recs0|e0] g0] eqn:Eb.
  - intros E; inversion E.
  - apply process_record_body_raise in Eb. destruct Eb as (_ & _ & _ & Ht & _).
    unfold bind, modify_stats, raise. intros E; inversion E; subst; cbn. exact Ht.
Qed.

Lemma process_rows_accounts rs ship_num all g :
  accounts g -> accounts (snd (process_rows rs ship_num all g)).
Proof.
  revert g. induction rs as [|[index row] rs IH]; intros g Hg; [exact Hg|].
  rewrite process_rows_cons.
  pose proof (process_record_allocation row index ship_num all g) as Ha.
  cbn zeta in Ha.
  destruct (process_record row index ship_num all g) as [[records|e] g'] eqn:Er;
    cbn [fst snd is_ok] in Ha; apply IH; unfold accounts in *;
    destruct Hg as (A1 & A2 & A3 & A4).
  - destruct Ha as [(Hno & _) | (_ & Hr & Hq & _)]; [discriminate|].
    apply process_record_ok, process_record_body_ok in Er.
    destruct Er as (? & ? & ? & ? & ? & ? & _ & _ & _ & _ & _ & _ & Hb).
    destruct Hb as (h & d1 & d2 & d3 & -> & _ & _ & _ & _ & _ & _ & _ & _ & _
                    & Hs & Hh & _ & Ht & _).
    cbn [shipment_data validation_stats set_shipment_data].
    rewrite Hs, Hh, Ht, Hq, Hr, !length_app. cbn [length]. lia.
  - pose proof (process_record_raise_total _ _ _ _ _ _ _ Er) as Ht.
    apply process_record_raise in Er. destruct Er as (Hs & Hh & _ & _).
    rewrite Hs, Hh, Ht.
    destruct Ha as [(_ & _ & Hr & Hq) | (_ & Hr & Hq & _)]; rewrite Hr, Hq;
      rewrite ?length_app; cbn [length]; lia.
Qed.

Lemma numbered_step g now :
  let a := DatabaseManager.get_next_reference_number now (db g) in
  let refs := reference_numbers_generated (validation_stats g) in
  online (db g) = true ->
  refs = map (fun k => str_of_int (11111 + Z.of_nat k)) (seq 0 (length refs)) ->
  match refs with
  | [] => shipment_sequence (db g) = []
  | _ => last (shipment_sequence (db g)) = Some (Some (11110 + Z.of_nat (length refs)))
  end ->
  online (snd a) = true
  /\ refs ++ [fst a]
     = map (fun k => str_of_int (11111 + Z.of_nat k)) (seq 0 (length (refs ++ [fst a])))
  /\ last (shipment_sequence (snd a))
     = Some (Some (11110 + Z.of_nat (length (refs ++ [fst a])))).
Proof.
  intros a refs Hon Hrefs Hseq. subst a.
  assert (Hnext : fst (DatabaseManager.get_next_reference_number now (db g))
                  = str_of_int (11111 + Z.of_nat (length refs))
                  /\ online (snd (DatabaseManager.get_next_reference_number now (db g))) = true
                  /\ last (shipment_sequence (snd (DatabaseManager.get_next_reference_number now (db g))))
                     = Some (Some (11111 + Z.of_nat (length refs)))).
  { destruct refs as [|r refs'] eqn:Erefs.
    - apply next_reference_seeds; [exact Hon | left; rewrite Hseq; reflexivity].
    - destruct (next_reference_increments now (db g) _ Hon Hseq ltac:(lia)) as (F & O & L).
      replace (11111 + Z.of_nat (length (r :: refs')))
        with (11110 + Z.of_nat (length (r :: refs')) + 1) by lia.
      auto. }
  destruct Hnext as (F & O & L).
  split; [exact O|]. rewrite length_app. cbn [length].
  split.
  - rewrite Nat.add_1_r, seq_S, map_app. cbn [map Nat.add].
    rewrite <- Hrefs, F. reflexivity.
  - rewrite L. do 2 f_equal. lia.
Qed.

Lemma process_rows_numbered rs ship_num all g :
  numbered g -> numbered (snd (process_rows rs ship_num all g)).
Proof.
  revert g. induction rs as [|[index row] rs IH]; intros g Hg; [exact Hg|].
  rewrite process_rows_cons.
  pose proof (process_record_allocation row index ship_num all g) as Ha.
  cbn zeta in Ha.
  destruct Hg as (Hon & Hrefs & Hseq & Hsub).
  pose proof (numbered_step g (clock g (clock_reads g)) Hon Hrefs Hseq) as (O & R & L).
  destruct (process_record row index ship_num all g) as [[records|e] g'] eqn:Er;
    cbn [fst snd is_ok] in Ha; apply IH; unfold numbered.
  - destruct Ha as [(Hno & _) | (Hd & Hr & _ & Hh)]; [discriminate|].
    specialize (Hh records eq_refl).
    apply process_record_ok, process_record_body_ok in Er.
    destruct Er as (? & ? & ? & ? & ? & ? & _ & _ & _ & _ & _ & _ & Hb).
    destruct Hb as (h & d1 & d2 & d3 & _ & _ & _ & _ & _ & _ & _ & _ & _ & _
                    & Hs & _).
    cbn [shipment_data validation_stats set_shipment_data db].
    rewrite Hd, Hr, Hs. split; [exact O|]. split; [exact R|].
    split.
    + destruct (reference_numbers_generated (validation_stats g)); exact L.
    + rewrite header_references_app, Hh, map_app. cbn [map].
      apply sublist_app; [exact Hsub | reflexivity].
  - apply process_record_raise in Er. destruct Er as (Hs & _).
    destruct Ha as [(_ & Hd & Hr & _) | (Hd & Hr & _ & _)]; rewrite Hd, Hr, Hs.
    + repeat split; assumption.
    + split; [exact O|]. split; [exact R|]. split.
      * destruct (reference_numbers_generated (validation_stats g)); exact L.
      * rewrite map_app. apply sublist_inserts_r. exact Hsub.
Qed.

(** X10. After [process_all_data] from a fresh generator, the record
    counter is the length of the accumulated sheet and four times the
    header counter, the query counter is five times the number of
    reference numbers issued, and there are at least as many reference
    numbers as headers. *)
Theorem counters_account_for_the_run
    (df : dataframe) (d : database) (c : nat -> DateTime.datetime) :
  let g := snd (process_all_data df (new_generator d c)) in
  total_records (validation_stats g) = Z.of_nat (length (shipment_data g))
  /\ total_records (validation_stats g) = 4 * header_records (validation_stats g)
  /\ database_queries (validation_stats g)
     = 5 * Z.of_nat (length (reference_numbers_generated (validation_stats g)))
  /\ header_records (validation_stats g)
     <= Z.of_nat (length (reference_numbers_generated (validation_stats g))).
Proof.
  intros g. subst g. unfold process_all_data.
  destruct (negb (validate_uniqueness_before_processing df)).
  - cbn. lia.
  - unfold bind, datetime_now. apply process_rows_accounts.
    unfold accounts. cbn. lia.
Qed.

(** X11. A run on a reachable store with an empty counter table issues
    the reference numbers 11111, 11112, ... without gap or repetition, the
    headers of the sheet carry some of them in that order, and the store
    ends on the last one issued. *)
Theorem run_issues_consecutive_reference_numbers
    (df : dataframe) (d : database) (c : nat -> DateTime.datetime) :
  online d = true ->
  shipment_sequence d = [] ->
  let g := snd (process_all_data df (new_generator d c)) in
  let refs := reference_numbers_generated (validation_stats g) in
  refs = map (fun k => str_of_int (11111 + Z.of_nat k)) (seq 0 (length refs))
  /\ header_references (shipment_data g) `sublist_of` map VStr refs
  /\ (refs <> [] ->
      last (shipment_sequence (db g)) = Some (Some (11110 + Z.of_nat (length refs)))).
Proof.
  intros Hon Hempty g refs.
  assert (Hn : numbered g).
  { subst g. unfold process_all_data.
    destruct (negb (validate_uniqueness_before_processing df)).
    - cbn. unfold numbered. cbn. repeat split; auto.
    - unfold bind, datetime_now. apply process_rows_numbered.
      unfold numbered. cbn. repeat split; auto. }
  destruct Hn as (_ & Hr & Hs & Hsub). fold refs in Hr, Hs, Hsub.
  split; [exact Hr|]. split; [exact Hsub|].
  intros Hne. destruct refs; [congruence | exact Hs].
Qed.

End AccountingProperties.

Section LoadProperties.

Context `{PyText}.

Lemma process_rows_accounted rs ship_num all g :
  let g' := snd (process_rows rs ship_num all g) in
  header_records (validation_stats g') + Z.of_nat (length (errors (validation_stats g')))
  = header_records (validation_stats g) + Z.of_nat (length (errors (validation_stats g)))
    + Z.of_nat (length rs).
Proof.
  revert g. induction rs as [|[index row] rs IH]; intros g; cbn zeta.
  - cbn. lia.
  - rewrite process_rows_cons.
    destruct (process_record row index ship_num all g) as [[records|e] g'] eqn:Er.
    + specialize (IH (set_shipment_data (shipment_data g' ++ records) g')).
      cbn zeta in IH. rewrite IH.
      apply process_record_ok, process_record_body_ok in Er.
      destruct Er as (? & ? & ? & ? & ? & ? & _ & _ & _ & _ & _ & _ & Hb).
      destruct Hb as (h & d1 & d2 & d3 & _ & _ & _ & _ & _ & _ & _ & _ & _ & _
                      & _ & Hh & _ & _ & He).
      cbn [validation_stats set_shipment_data length]. rewrite Hh, He. lia.
    + specialize (IH g'). cbn zeta in IH. rewrite IH.
      apply process_record_raise in Er. destruct Er as (_ & Hh & _ & He).
      rewrite Hh, He, length_app. cbn [length]. lia.
Qed.

(** X12. When the validation passes, [process_all_data] returns and
    every row has given either a header or an entry of the error list;
    when it fails, the call raises and the generator is untouched. *)
Theorem every_row_gives_a_header_or_an_error
    (df : dataframe) (d : database) (c : nat -> DateTime.datetime) :
  let out := process_all_data df (new_generator d c) in
  let g := snd out in
  (validate_uniqueness_before_processing df = true ->
   fst out = Ok tt
   /\ header_records (validation_stats g) + Z.of_nat (length (errors (validation_stats g)))
      = Z.of_nat (length (rows df)))
  /\ (validate_uniqueness_before_processing df = false ->
      is_ok (fst out) = false /\ g = new_generator d c).
Proof.
  intros out g. subst g out. split; intros Hv.
  - rewrite process_all_data_valid by exact Hv. split; [apply process_rows_returns|].
    rewrite process_rows_accounted, length_iterrows. cbn. lia.
  - unfold process_all_data. rewrite Hv. cbn. auto.
Qed.

(** X13. When [load_data] returns, every row it kept has a shipment
    code that is neither missing nor empty, the rows are rows of the sheet
    in their order and with their index labels, with the plant option on a
    sheet that has the column each row's origin cell is its plant cell,
    and [process_all_data] on the result returns instead of raising. *)
Theorem loaded_manifest_has_shipment_codes_and_runs_to_completion
    (use_planta_as_origen : bool) (df df' : dataframe) (g : generator) :
  load_data use_planta_as_origen df = Ok df' ->
  Forall (fun ir => pd_isna (cell ir.2 "Cód. Envío") = false
                    /\ py_eqb (cell ir.2 "Cód. Envío") (VStr "") = false) (rows df')
  /\ map fst (rows df') `sublist_of` map fst (rows df)
  /\ (use_planta_as_origen = true -> "Cod Planta" ∈ columns df ->
      Forall (fun ir => cell ir.2 "Cód. Origen" = cell ir.2 "Cod Planta") (rows df'))
  /\ (use_planta_as_origen = false -> rows df' `sublist_of` rows df)
  /\ fst (process_all_data df' g) = Ok tt.
Proof.
  unfold load_data.
  destruct (bool_decide ("Cód. Envío" ∈ columns df)) eqn:Hcol; [|discriminate].
  cbn [negb]. apply bool_decide_eq_true in Hcol.
  set (kept := filter (fun ir => py_eqb (cell ir.2 "Cód. Envío") (VStr "") = false)
                 (filter (fun ir => pd_isna (cell ir.2 "Cód. Envío") = false) (rows df))).
  assert (Hkept : Forall (fun ir => pd_isna (cell ir.2 "Cód. Envío") = false
                    /\ py_eqb (cell ir.2 "Cód. Envío") (VStr "") = false) kept).
  { apply Forall_forall. intros ir Hin. subst kept.
    apply list_elem_of_filter in Hin. destruct Hin as [H2 Hin].
    apply list_elem_of_filter in Hin. destruct Hin as [H1 _]. auto. }
  assert (Hsub : kept `sublist_of` rows df).
  { subst kept. etransitivity; apply sublist_filter. }
  destruct (use_planta_as_origen && bool_decide ("Cod Planta" ∈ columns df)) eqn:Hmode;
    intros E; injection E as <-; cbn [rows columns].
  - apply andb_true_iff in Hmode. destruct Hmode as [-> Hplanta].
    split; [|split; [|split; [|split]]].
    + apply Forall_fmap. eapply Forall_impl; [exact Hkept|].
      intros [i r] [H1 H2]. unfold compose. cbn [fst snd] in *. unfold cell in *.
      rewrite lookup_insert_ne by discriminate. auto.
    + rewrite <- list_fmap_compose. cbn.
      change (map (fun x : Z * manifest_row => x.1) kept) with (map fst kept).
      apply (fmap_sublist fst). exact Hsub.
    + intros _ _. apply Forall_fmap, Forall_forall. intros [i r] _.
      unfold compose. cbn [fst snd].
      unfold cell. rewrite lookup_insert_eq, lookup_insert_ne by discriminate.
      reflexivity.
    + discriminate.
    + rewrite process_all_data_valid; [apply process_rows_returns|].
      unfold validate_uniqueness_before_processing. cbn [columns].
      apply bool_decide_eq_true.
      destruct (bool_decide ("Cód. Origen" ∈ columns df)); [exact Hcol|].
      apply elem_of_app. auto.
  - split; [exact Hkept|]. split; [apply (fmap_sublist fst); exact Hsub|].
    split; [|split; [intros _; exact Hsub|]].
    + intros -> Hin. rewrite (bool_decide_eq_true_2 _ Hin) in Hmode. discriminate.
    + rewrite process_all_data_valid; [apply process_rows_returns|].
      unfold validate_uniqueness_before_processing. cbn [columns].
      apply bool_decide_eq_true. exact Hcol.
Qed.

End LoadProperties.

(* ===================================================================== *)
(** ** XML escaping *)
(* ===================================================================== *)

Lemma append_assoc (s t u : string) : (s +:+ t) +:+ u = s +:+ (t +:+ u).
Proof.
  induction s as [|x s IH]; [reflexivity|].
  change (String x ((s +:+ t) +:+ u) = String x (s +:+ (t +:+ u))).
  f_equal. exact IH.
Qed.

Lemma replace_char_app c rep s t :
  replace_char c rep (s +:+ t) = replace_char c rep s +:+ replace_char c rep t.
Proof.
  induction s as [|x s IH]; [reflexivity|].
  change (replace_char c rep (String x (s +:+ t))
          = replace_char c rep (String x s) +:+ replace_char c rep t).
  cbn [replace_char]. rewrite IH. destruct (Ascii.eqb x c); [|reflexivity].
  symmetry. apply append_assoc.
Qed.

Lemma occurs_app c s t : occurs c (s +:+ t) = occurs c s || occurs c t.
Proof.
  induction s as [|x s IH]; [reflexivity|].
  change (occurs c (String x (s +:+ t)) = occurs c (String x s) || occurs c t).
  cbn [occurs]. rewrite IH. apply orb_assoc.
Qed.

Lemma replace_char_absent c rep s :
  occurs c s = false -> replace_char c rep s = s.
Proof.
  induction s as [|x s IH]; cbn [occurs replace_char]; [reflexivity|].
  intros E. apply orb_false_iff in E. destruct E as [E1 E2].
  rewrite E1, (IH E2). reflexivity.
Qed.

Lemma escape_passes_on_char x :
  replace_char "'" "&apos;"
    (replace_char "034" "&quot;"
      (replace_char ">" "&gt;"
        (replace_char "<" "&lt;"
          (replace_char "&" "&amp;" (String x "")))))
  = escape_char x.
Proof.
  unfold escape_char. cbn [replace_char].
  destruct (Ascii.eqb_spec x "&") as [->|H1]; [reflexivity|].
  cbn [replace_char].
  destruct (Ascii.eqb_spec x "<") as [->|H2]; [reflexivity|].
  cbn [replace_char].
  destruct (Ascii.eqb_spec x ">") as [->|H3]; [reflexivity|].
  cbn [replace_char].
  destruct (Ascii.eqb_spec x "034") as [->|H4]; [reflexivity|].
  cbn [replace_char].
  destruct (Ascii.eqb_spec x "'") as [->|H5]; reflexivity.
Qed.

Lemma escape_passes s :
  replace_char "'" "&apos;"
    (replace_char "034" "&quot;"
      (replace_char ">" "&gt;"
        (replace_char "<" "&lt;"
          (replace_char "&" "&amp;" s))))
  = escape_each s.
Proof.
  induction s as [|x s IH]; [reflexivity|].
  change (String x s) with (String x "" +:+ s).
  rewrite !replace_char_app, IH, escape_passes_on_char. reflexivity.
Qed.

Lemma escape_char_clean x c :
  c = "<"%char \/ c = ">"%char \/ c = "034"%char \/ c = "'"%char ->
  occurs c (escape_char x) = false.
Proof.
  intros Hc. unfold escape_char.
  destruct (Ascii.eqb_spec x "&") as [->|H1];
    [destruct Hc as [-> | [-> | [-> | ->]]]; reflexivity|].
  destruct (Ascii.eqb_spec x "<") as [->|H2];
    [destruct Hc as [-> | [-> | [-> | ->]]]; reflexivity|].
  destruct (Ascii.eqb_spec x ">") as [->|H3];
    [destruct Hc as [-> | [-> | [-> | ->]]]; reflexivity|].
  destruct (Ascii.eqb_spec x "034") as [->|H4];
    [destruct Hc as [-> | [-> | [-> | ->]]]; reflexivity|].
  destruct (Ascii.eqb_spec x "'") as [->|H5];
    [destruct Hc as [-> | [-> | [-> | ->]]]; reflexivity|].
  cbn [occurs]. rewrite orb_false_r.
  destruct Hc as [-> | [-> | [-> | ->]]]; apply Ascii.eqb_neq; assumption.
Qed.

(** X4. [_escape_xml] is the one-pass replacement of each of the five
    special characters by its entity: the five successive [replace] calls
    never escape an entity twice.  Its result holds none of the characters
    <, >, double quote and apostrophe, and a text without special
    characters is returned as it is. *)
Theorem escape_xml_is_one_pass_and_leaves_no_markup (text : string) :
  _escape_xml text = escape_each text
  /\ occurs "<" (_escape_xml text) = false
  /\ occurs ">" (_escape_xml text) = false
  /\ occurs "034" (_escape_xml text) = false
  /\ occurs "'" (_escape_xml text) = false
  /\ (occurs "&" text = false -> occurs "<" text = false -> occurs ">" text = false ->
      occurs "034" text = false -> occurs "'" text = false ->
      _escape_xml text = text).
Proof.
  assert (Heq : _escape_xml text = escape_each text).
  { unfold _escape_xml. destruct (String.eqb_spec text "") as [->|_]; [reflexivity|].
    apply escape_passes. }
  assert (Hclean : forall c,
    c = "<"%char \/ c = ">"%char \/ c = "034"%char \/ c = "'"%char ->
    occurs c (escape_each text) = false).
  { intros c Hc. induction text as [|x s IH]; [reflexivity|].
    cbn [escape_each]. rewrite occurs_app, escape_char_clean by exact Hc.
    apply IH. unfold _escape_xml.
    destruct (String.eqb_spec s "") as [->|_]; [reflexivity | apply escape_passes]. }
  split; [exact Heq|]. rewrite Heq.
  repeat split; try (apply Hclean; tauto).
  intros H1 H2 H3 H4 H5. rewrite <- Heq. unfold _escape_xml.
  destruct (String.eqb_spec text "") as [->|_]; [reflexivity|].
  cbn zeta. rewrite (replace_char_absent "&") by exact H1.
  rewrite (replace_char_absent "<") by exact H2.
  rewrite (replace_char_absent ">") by exact H3.
  rewrite (replace_char_absent "034") by exact H4.
  apply replace_char_absent. exact H5.
Qed.

(* ===================================================================== *)
(** ** More on the availability workbook and the allocator *)
(* ===================================================================== *)

Section DisponibilidadProperties.

Context `{PyText}.

Variable str_lower : string -> string.

Lemma entry_of_row_well_formed r p :
  entry_of_row str_lower r = Some p -> well_formed_entry str_lower p.
Proof.
  unfold entry_of_row, well_formed_entry.
  destruct (String.eqb_spec (str_strip (py_str (cell r "Placa"))) "") as [|H1];
    [discriminate|].
  destruct (String.eqb_spec (str_strip (py_str (cell r "Dep Planta/CD"))) "") as [|H2];
    [discriminate|].
  cbn [negb andb].
  destruct (is_placeholder (str_lower (str_strip (py_str (cell r "Placa"))))) eqn:E1;
    [discriminate|].
  destruct (is_placeholder (str_lower (str_strip (py_str (cell r "Dep Planta/CD"))))) eqn:E2;
    [discriminate|].
  cbn [negb]. intros E; injection E as <-. cbn. auto.
Qed.

Lemma procesar_pestana_well_formed sheet :
  Forall (well_formed_entry str_lower) (procesar_pestana_disponibilidad str_lower sheet).
Proof.
  unfold procesar_pestana_disponibilidad. destruct sheet as [df|]; [|constructor].
  destruct (negb (bool_decide ("Placa" ∈ columns df))); [constructor|].
  destruct (negb (bool_decide ("Dep Planta/CD" ∈ columns df))); [constructor|].
  apply Forall_forall. intros p Hp. apply list_elem_of_omap in Hp.
  destruct Hp as (ir & _ & Hp). eapply entry_of_row_well_formed, Hp.
Qed.

Lemma deduplicate_disponibilidad_invariant todas vistas unicas :
  (forall p, p ∈ unicas -> clave p ∈ vistas) ->
  NoDup (map clave unicas) ->
  NoDup (map clave (deduplicate_disponibilidad todas vistas unicas))
  /\ (forall p, p ∈ deduplicate_disponibilidad todas vistas unicas ->
                p ∈ unicas \/ p ∈ todas)
  /\ (forall p, p ∈ todas ->
        clave p ∈ vistas
        \/ clave p ∈ map clave (deduplicate_disponibilidad todas vistas unicas)).
Proof.
  revert vistas unicas. induction todas as [|q rest IH]; intros vistas unicas Hseen Hnd;
    cbn [deduplicate_disponibilidad].
  - split; [exact Hnd|]. split; [auto|]. intros p Hp. inversion Hp.
  - destruct (decide (clave q ∈ vistas)) as [Hin | Hnew].
    + destruct (IH vistas unicas Hseen Hnd) as (I1 & I2 & I3). split; [exact I1|]. split.
      * intros p Hp. destruct (I2 p Hp); [auto | right; apply elem_of_cons; auto].
      * intros p Hp. apply elem_of_cons in Hp. destruct Hp as [-> | Hp]; [auto|].
        apply I3, Hp.
    + destruct (IH ({[clave q]} ∪ vistas) (unicas ++ [q])) as (I1 & I2 & I3).
      * intros p Hp. apply elem_of_app in Hp. destruct Hp as [Hp | Hp].
        -- apply elem_of_union_r, Hseen, Hp.
        -- apply list_elem_of_singleton in Hp. subst.
           apply elem_of_union_l, elem_of_singleton. reflexivity.
      * rewrite map_app. apply NoDup_app. repeat split; [exact Hnd | | apply NoDup_singleton].
        intros k Hk Hk'. cbn in Hk'. apply list_elem_of_singleton in Hk'. subst k.
        apply list_elem_of_fmap in Hk. destruct Hk as (p & Hkp & Hp).
        apply Hnew. rewrite Hkp. apply Hseen, Hp.
      * split; [exact I1|]. split.
        -- intros p Hp. destruct (I2 p Hp) as [Hq | Hq].
           ++ apply elem_of_app in Hq. destruct Hq as [Hq | Hq]; [auto|].
              apply list_elem_of_singleton in Hq. subst. right. apply list_elem_of_here.
           ++ right. apply elem_of_cons. auto.
        -- assert (Hkeep : forall l v u x, x ∈ u ->
                     x ∈ deduplicate_disponibilidad l v u).
           { clear. induction l as [|y l IHl]; intros v u x Hx; cbn; [exact Hx|].
             destruct (decide (clave y ∈ v)); apply IHl; [exact Hx|].
             apply elem_of_app. auto. }
           intros p Hp. apply elem_of_cons in Hp. destruct Hp as [-> | Hp].
           ++ right. apply list_elem_of_fmap. exists q. split; [reflexivity|].
              apply Hkeep, elem_of_app. right. apply list_elem_of_here.
           ++ destruct (I3 p Hp) as [Hv | Hv]; [|auto].
              apply elem_of_union in Hv. destruct Hv as [Hv | Hv]; [|auto].
              apply elem_of_singleton in Hv. right. rewrite Hv.
              apply list_elem_of_fmap. exists q. split; [reflexivity|].
              apply Hkeep, elem_of_app. right. apply list_elem_of_here.
Qed.

(** X14. Every entry [get_disponibilidad_camiones] returns has a plate
    and an origin that are not empty and do not read, in lower case, as
    "nan" or "none", and has Reusable 0; no two entries have the same key
    (plate upper-cased, origin); a missing workbook gives no entry; and
    every entry read from one of the three sheets has its key in the
    result. *)
Theorem availability_entries_are_well_formed_and_distinct
    (workbook : option (gmap string dataframe)) :
  let placas := get_disponibilidad_camiones str_lower workbook in
  Forall (well_formed_entry str_lower) placas
  /\ NoDup (map clave placas)
  /\ (workbook = None -> placas = [])
  /\ (forall sheets pestana p,
        workbook = Some sheets ->
        pestana ∈ ["Reporte Tra."; "Reporte Espe."; "Reporte Espe. (tarde)"] ->
        p ∈ procesar_pestana_disponibilidad str_lower (sheets !! pestana) ->
        clave p ∈ map clave placas).
Proof.
  intros placas. subst placas. destruct workbook as [sheets|].
  - cbn [get_disponibilidad_camiones].
    set (todas := concat _).
    destruct (deduplicate_disponibilidad_invariant todas ∅ [])
      as (Hnd & Hfrom & Hall); [intros p Hp; inversion Hp | constructor |].
    assert (Hwf : Forall (well_formed_entry str_lower) todas).
    { subst todas. apply Forall_concat, Forall_fmap, Forall_forall.
      intros pestana _. apply procesar_pestana_well_formed. }
    split; [|split; [exact Hnd|split; [discriminate|]]].
    + apply Forall_forall. intros p Hp. destruct (Hfrom p Hp) as [Hx | Hx]; [inversion Hx|].
      rewrite Forall_forall in Hwf. apply Hwf, Hx.
    + intros sheets' pestana p E Hpest Hp. injection E as <-.
      destruct (Hall p) as [Hv | Hv]; [|inversion Hv|exact Hv].
      subst todas. apply list_elem_of_In, in_concat.
      exists (procesar_pestana_disponibilidad str_lower (sheets !! pestana)).
      split; [|apply list_elem_of_In; exact Hp].
      apply (in_map (fun pestana => procesar_pestana_disponibilidad str_lower (sheets !! pestana))).
      apply list_elem_of_In. exact Hpest.
  - cbn. repeat split; try constructor. discriminate.
Qed.

End DisponibilidadProperties.

(** X15. On a reachable store the allocator leaves the master tables
    and every counter row but the newest as they are: it either rewrites
    the newest row or appends one row after the old ones; the number it
    returns is the number the newest row then holds. *)
Theorem allocator_touches_only_the_newest_counter_row
    (d : database) (now : DateTime.datetime) :
  online d = true ->
  let d' := snd (DatabaseManager.get_next_reference_number now d) in
  let n := length (shipment_sequence d) in
  (forall i, (S i < n)%nat -> shipment_sequence d' !! i = shipment_sequence d !! i)
  /\ ((length (shipment_sequence d') = n /\ n <> 0%nat)
      \/ (length (shipment_sequence d') = S n
          /\ take n (shipment_sequence d') = shipment_sequence d))
  /\ (exists v, last (shipment_sequence d') = Some (Some v)
                /\ fst (DatabaseManager.get_next_reference_number now d) = str_of_int v)
  /\ dados_produtos d' = dados_produtos d
  /\ maestro_envases d' = maestro_envases d
  /\ maestro_dtto d' = maestro_dtto d
  /\ online d' = true.
Proof.
  intros Hon d' n. subst d' n.
  unfold DatabaseManager.get_next_reference_number. rewrite Hon.
  assert (Hseed :
    let rows := shipment_sequence d ++ [Some 11111] in
    let rows' := <[ pred (length rows) := Some 11111 ]> rows in
    rows' = rows).
  { cbn zeta. rewrite length_app. cbn [length].
    replace (pred (length (shipment_sequence d) + 1)) with
      (length (shipment_sequence d) + 0)%nat by lia.
    rewrite insert_app_r. reflexivity. }
  cbn zeta in Hseed.
  assert (Hgrow :
    forall rest : list (option Z),
    rest = shipment_sequence d ++ [Some 11111] ->
    (forall i, (S i < length (shipment_sequence d))%nat ->
       rest !! i = shipment_sequence d !! i)
    /\ ((length rest = length (shipment_sequence d) /\ length (shipment_sequence d) <> 0%nat)
        \/ (length rest = S (length (shipment_sequence d))
            /\ take (length (shipment_sequence d)) rest = shipment_sequence d))
    /\ (exists v, last rest = Some (Some v) /\ str_of_int 11111 = str_of_int v)).
  { intros rest ->. split; [|split].
    - intros i Hi. apply lookup_app_l. lia.
    - right. rewrite length_app. cbn [length]. split; [lia|].
      rewrite take_app_length. reflexivity.
    - exists 11111. rewrite last_snoc. auto. }
  destruct (last (shipment_sequence d)) as [[v|]|] eqn:Hlast.
  - destruct (v =? 0) eqn:Hv; cbn [negb fst snd].
    + cbn [set_shipment_sequence shipment_sequence dados_produtos maestro_envases
           maestro_dtto online].
      rewrite Hseed. destruct (Hgrow _ eq_refl) as (G1 & G2 & G3).
      repeat split; auto.
    + cbn [set_shipment_sequence shipment_sequence dados_produtos maestro_envases
           maestro_dtto online].
      assert (Hne : shipment_sequence d <> []).
      { intros E. rewrite E in Hlast. discriminate. }
      repeat split; auto.
      * intros i Hi. apply list_lookup_insert_ne. lia.
      * left. rewrite length_insert. split; [reflexivity|].
        destruct (shipment_sequence d); [congruence | discriminate].
      * exists (v + 1). split; [apply last_insert_pred; exact Hne | reflexivity].
  - cbn [fst snd set_shipment_sequence shipment_sequence dados_produtos maestro_envases
         maestro_dtto online].
    rewrite Hseed. destruct (Hgrow _ eq_refl) as (G1 & G2 & G3). repeat split; auto.
  - cbn [fst snd set_shipment_sequence shipment_sequence dados_produtos maestro_envases
         maestro_dtto online].
    rewrite Hseed. destruct (Hgrow _ eq_refl) as (G1 & G2 & G3). repeat split; auto.
Qed.

(* ===================================================================== *)
(** ** Runs on the example data *)
(* ===================================================================== *)

#[local] Existing Instance AsciiText.runtime.
#[local] Existing Instance PosixPath.os_path.
#[local] Existing Instance UnicodeData.tables.

(** C6, as the specification has it, fails.  In
    "10_05_Programa_SD_45_04_2025_.xlsx" the first pattern matches with
    day 45; trying the next patterns would find "10_05", but the code
    returns the current date (here 04 November).  The availability
    extraction returns day "45" unchecked, and (None, None) rather than
    the current date for a name without a date. *)
Lemma invalid_match_falls_back_without_trying_next_pattern :
  extract_date_from_filename (Examples.another_clock 0)
    "10_05_Programa_SD_45_04_2025_.xlsx" = ("11", "04")
  /\ date_by_specification (Examples.another_clock 0)
       "10_05_Programa_SD_45_04_2025_.xlsx" = ("05", "10")
  /\ extract_date_from_filename (Examples.another_clock 0)
       "10_05_Programa_SD_45_04_2025_.xlsx"
     <> date_by_specification (Examples.another_clock 0)
          "10_05_Programa_SD_45_04_2025_.xlsx"
  /\ extract_date_from_input_file "10_05_Programa_SD_45_04_2025_.xlsx"
     = (Some "04", Some "45")
  /\ extract_date_from_input_file "sin_fecha.xlsx" = (None, None).
Proof.
  repeat split; try (vm_compute; reflexivity).
  vm_compute. intros E. inversion E.
Qed.

(** The patterns on names outside ASCII: a no-break space between the
    words, Arabic-Indic digits for the day and the month, and a
    directory in front of the name. *)
Lemma file_name_dates_beyond_ascii :
  extract_date_from_filename (Examples.another_clock 0)
    "entrada/Envíos CBs 19-06.xlsx" = ("06", "19")
  /\ extract_date_from_input_file "Envíos CBs 19-06.xlsx"
     = (Some "06", Some "19")
  /\ extract_date_from_filename (Examples.another_clock 0)
       "Programa Beer_٣_٠٤.xlsm" = ("٠٤", "0٣").
Proof.
  repeat split; vm_compute; reflexivity.
Qed.



(** C3 on the empty store. *)
Lemma sequence_allocator_witness :
  online Examples.empty_db = true
  /\ shipment_sequence Examples.empty_db = []
  /\ fst (allocations [Examples.a_clock 0; Examples.a_clock 1; Examples.a_clock 2]
            Examples.empty_db)
     = ["11111"; "11112"; "11113"].
Proof.
  split; [reflexivity|]. split; [reflexivity|].
  exact (proj1 (sequence_allocator_counts_from_seed Examples.empty_db
                  (Examples.a_clock 0) (Examples.a_clock 1) (Examples.a_clock 2) []
                  eq_refl eq_refl)).
Defined.

(** C4 on a table that holds the key of (10, 20) only. *)
Lemma priority_witness :
  online Examples.a_db = true
  /\ DatabaseManager.get_priority Examples.a_db 10 20 = VInt 3
  /\ DatabaseManager.get_priority Examples.a_db 20 10 = VInt 3.
Proof.
  split; [reflexivity|].
  apply (proj1 (priority_is_symmetric Examples.a_db 10 20 eq_refl) (VInt 3));
    vm_compute; reflexivity.
Defined.

(** C7 on product 7 (a primary rate of 2.5 packages) and on product 1100
    (a primary rate of 0.1234 hectoliters). *)
Lemma volume_and_packages_witness :
  online Examples.a_db = true
  /\ DatabaseManager.get_bultos Examples.a_db 7 3 = 2 * 3
  /\ DatabaseManager.get_hectolitros Examples.a_db 1100 3
     = PyFloat.round_ndigits
         (PyFloat.mul Examples.f_0_1234 (binary_normalize 53 1024 3 0 false)) 4.
Proof.
  split; [reflexivity|].
  destruct (volume_and_packages_by_table_precedence Examples.a_db 7 3 eq_refl)
    as (_ & _ & Hb & _).
  destruct (volume_and_packages_by_table_precedence Examples.a_db 1100 3 eq_refl)
    as (Hh & _ & _ & _).
  split.
  - apply (Hb (SqlReal Examples.f_2_5)); [left|]; vm_compute; reflexivity.
  - apply (Hh (SqlReal Examples.f_0_1234)); [left| |]; vm_compute; reflexivity.
Defined.

(** C5 on a plate listed twice in A and once, in lower case, in B. *)
Lemma merge_witness :
  Examples.plate_a ∈ [Examples.plate_a; Examples.plate_a]
  /\ clave_unica Examples.plate_a = "ABC123_10"
  /\ clave_unica (normalize_externa Examples.plate_b) = "ABC123_10"
  /\ filter (fun p => clave_unica p = "ABC123_10")
       (merge_plates [Examples.plate_a; Examples.plate_a]
                     [Examples.plate_b; Examples.plate_c])
     = [Examples.plate_a].
Proof.
  split; [apply list_elem_of_here|]. split; [vm_compute; reflexivity|].
  split; [vm_compute; reflexivity|].
  destruct (merge_keeps_first_entry_of_each_key
              [Examples.plate_a; Examples.plate_a]
              [Examples.plate_b; Examples.plate_c] "ABC123_10") as (Hf & _).
  rewrite Hf. vm_compute. reflexivity.
Defined.

(** C8 on a pallet row stating 3 pallets. *)
Lemma pallet_quantity_witness :
  exists recs,
    Examples.pallet_row !! "Cód. Prod" = Some (VInt 1100)
    /\ safe_int_conversion (VInt 1100) 0 = Ok PALLET_PRODUCT_CODE
    /\ Examples.pallet_row !! "Pallets" = Some (VInt 3)
    /\ fst (process_record Examples.pallet_row 0 0 [Examples.pallet_row]
              (new_generator Examples.a_db Examples.a_clock)) = Ok recs
    /\ exists h d1 d2 d3,
        recs = [h; d1; d2; d3] /\ Type_ d3 = VStr "D"
        /\ Quantity d3 = VInt PALLET_QUANTITY.
Proof.
  eexists. split; [vm_compute; reflexivity|]. split; [reflexivity|].
  split; [vm_compute; reflexivity|].
  assert (Hrun : fst (process_record Examples.pallet_row 0 0 [Examples.pallet_row]
              (new_generator Examples.a_db Examples.a_clock)) = Ok _)
    by (vm_compute; reflexivity).
  split; [exact Hrun|].
  eapply (pallet_code_forces_quantity Examples.pallet_row 0 0 [Examples.pallet_row]
            (new_generator Examples.a_db Examples.a_clock) _ (VInt 1100));
    [vm_compute; reflexivity | reflexivity | exact Hrun].
Defined.

(** C10 on a pallet row stating 3 pallets and 500 of weight. *)
Lemma pallet_volume_witness :
  exists recs,
    Examples.pallet_row !! "Cód. Prod" = Some (VInt 1100)
    /\ Examples.pallet_row !! "Pallets" = Some (VInt 3)
    /\ Examples.pallet_row !! "Peso Total Carga" = Some (VInt 500)
    /\ fst (process_record Examples.pallet_row 0 0 [Examples.pallet_row]
              (new_generator Examples.a_db Examples.a_clock)) = Ok recs
    /\ exists h d1 d2 d3,
        recs = [h; d1; d2; d3]
        /\ Hectolitros d3
           = VFloat (DatabaseManager.get_hectolitros Examples.a_db PALLET_PRODUCT_CODE 3)
        /\ Bultos d3
           = VInt (DatabaseManager.get_bultos Examples.a_db PALLET_PRODUCT_CODE 3)
        /\ Quantity d3 = VInt PALLET_QUANTITY
        /\ Weight d3
           = process_weight (VFloat (binary_normalize 53 1024 500 0 false))
               PALLET_QUANTITY.
Proof.
  eexists. split; [vm_compute; reflexivity|]. split; [vm_compute; reflexivity|].
  split; [vm_compute; reflexivity|].
  assert (Hrun : fst (process_record Examples.pallet_row 0 0 [Examples.pallet_row]
              (new_generator Examples.a_db Examples.a_clock)) = Ok _)
    by (vm_compute; reflexivity).
  split; [exact Hrun|].
  assert (H1 : Examples.pallet_row !! "Cód. Prod" = Some (VInt 1100))
    by (vm_compute; reflexivity).
  assert (H2 : safe_int_conversion (VInt 1100) 0 = Ok PALLET_PRODUCT_CODE)
    by reflexivity.
  assert (H3 : Examples.pallet_row !! "Pallets" = Some (VInt 3))
    by (vm_compute; reflexivity).
  assert (H4 : safe_int_conversion (VInt 3) 1 = Ok 3) by reflexivity.
  assert (H5 : Examples.pallet_row !! "Peso Total Carga" = Some (VInt 500))
    by (vm_compute; reflexivity).
  assert (H6 : safe_numeric_conversion (VInt 500) (VInt 0)
               = Ok (VFloat (binary_normalize 53 1024 500 0 false)))
    by (vm_compute; reflexivity).
  destruct (pallet_volume_uses_stated_count_weight_uses_override
              Examples.pallet_row 0 0 [Examples.pallet_row]
              (new_generator Examples.a_db Examples.a_clock) _
              (VInt 1100) (VInt 3) (VInt 500)
              (VFloat (binary_normalize 53 1024 500 0 false)) 3
              H1 H2 H3 H4 H5 H6 Hrun)
    as (h & d1 & d2 & d3 & Hrecs & Hhl & Hb & Hq & Hw & _).
  exists h, d1, d2, d3. repeat split; assumption.
Defined.

(** C9 on a sheet whose second row states an infinite pallet count,
    which [int] refuses with an [OverflowError] that the conversion lets
    through. *)
Lemma failed_row_witness :
  iterrows Examples.a_sheet
  = [(0, Examples.counted_row (PyFloat.of_Z 3))]
    ++ (1, Examples.counted_row (S754_infinity false))
       :: [(2, Examples.counted_row (PyFloat.of_Z 8))]
  /\ fst (process_all_data Examples.a_sheet
            (new_generator Examples.a_db Examples.a_clock)) = Ok tt
  /\ error_entry 1 (Exn OverflowError "cannot convert float infinity to integer")
     ∈ errors (validation_stats
                 (snd (process_all_data Examples.a_sheet
                         (new_generator Examples.a_db Examples.a_clock)))).
Proof.
  split; [reflexivity|].
  destruct (failed_row_is_skipped_and_run_continues Examples.a_sheet
              [(0, Examples.counted_row (PyFloat.of_Z 3))]
              [(2, Examples.counted_row (PyFloat.of_Z 8))]
              1 (Examples.counted_row (S754_infinity false))
              (new_generator Examples.a_db Examples.a_clock)
              (Exn OverflowError "cannot convert float infinity to integer"))
    as (_ & _ & _ & Hok & Hin & _);
    [reflexivity | vm_compute; reflexivity | vm_compute; reflexivity |].
  split; [exact Hok | exact Hin].
Defined.

(** X1 on trip 3 with the routes 20-10 and 20-11. *)
Lemma routes_witness :
  collect_routes 3 [Examples.pallet_row; Examples.second_route_row] []
  = Ok ["20-10"; "20-11"]
  /\ exists i1 i2,
      generate_unique_route_correlative 3 20 10
        [Examples.pallet_row; Examples.second_route_row] = Ok (3 * 100 + i1)
      /\ generate_unique_route_correlative 3 20 11
           [Examples.pallet_row; Examples.second_route_row] = Ok (3 * 100 + i2)
      /\ i1 <> i2.
Proof.
  assert (Hc : collect_routes 3 [Examples.pallet_row; Examples.second_route_row] []
               = Ok ["20-10"; "20-11"]) by (vm_compute; reflexivity).
  split; [exact Hc|].
  destruct (routes_of_a_trip_get_distinct_correlatives 3 20 10 20 11
              [Examples.pallet_row; Examples.second_route_row] ["20-10"; "20-11"] Hc)
    as (i1 & i2 & H1 & H2 & _ & _ & Hne & _).
  - exists Examples.pallet_row. split; [apply list_elem_of_here|].
    vm_compute. repeat split; reflexivity.
  - exists Examples.second_route_row.
    split; [apply list_elem_of_further, list_elem_of_here|].
    vm_compute. repeat split; reflexivity.
  - vm_compute. discriminate.
  - exists i1, i2. auto.
Defined.

(** X6 on a sheet with a qualified and an unqualified plate. *)
Lemma manifest_plates_witness :
  Examples.plate_a
    ∈ placas_from_manifest Examples.a_drivers "Cod Planta" "Placa" Examples.plates_sheet
  /\ exists index r placa,
      (index, r) ∈ Examples.plates_sheet
      /\ placa = default (VFloat S754_nan) (r !! "Placa")
      /\ pd_isna placa = false
      /\ str_strip (py_str placa) <> ""
      /\ Examples.a_drivers !! py_str placa = Some (Some "Transportadoras")
      /\ Placa Examples.plate_a = str_upper (str_strip (py_str placa))
      /\ Origen Examples.plate_a
         = str_strip (py_str (default (VFloat S754_nan) (r !! "Cod Planta")))
      /\ Reusable Examples.plate_a = 0.
Proof.
  assert (Hin : Examples.plate_a
    ∈ placas_from_manifest Examples.a_drivers "Cod Planta" "Placa" Examples.plates_sheet).
  { vm_compute. apply list_elem_of_here. }
  split; [exact Hin|].
  exact (manifest_plates_are_qualified_and_normalised Examples.a_drivers
           "Cod Planta" "Placa" Examples.plates_sheet Examples.plate_a Hin).
Defined.


(** X11 on the example manifest and the empty store. *)
Lemma consecutive_references_witness :
  online Examples.empty_db = true
  /\ shipment_sequence Examples.empty_db = []
  /\ reference_numbers_generated
       (validation_stats
          (snd (process_all_data Examples.a_sheet
                  (new_generator Examples.empty_db Examples.a_clock))))
     = ["11111"; "11112"].
Proof.
  split; [reflexivity|]. split; [reflexivity|].
  destruct (run_issues_consecutive_reference_numbers Examples.a_sheet
              Examples.empty_db Examples.a_clock eq_refl eq_refl) as (Hr & _).
  rewrite Hr. vm_compute. reflexivity.
Defined.

(** X13 on the example manifest. *)
Lemma load_data_witness :
  load_data false Examples.a_sheet = Ok Examples.a_sheet
  /\ fst (process_all_data Examples.a_sheet
            (new_generator Examples.a_db Examples.a_clock)) = Ok tt.
Proof.
  assert (Hl : load_data false Examples.a_sheet = Ok Examples.a_sheet)
    by (vm_compute; reflexivity).
  split; [exact Hl|].
  destruct (loaded_manifest_has_shipment_codes_and_runs_to_completion false
              Examples.a_sheet Examples.a_sheet
              (new_generator Examples.a_db Examples.a_clock) Hl)
    as (_ & _ & _ & _ & Hok).
  exact Hok.
Defined.

(** X15 on the example store. *)
Lemma allocator_frame_witness :
  online Examples.a_db = true
  /\ maestro_dtto (snd (DatabaseManager.get_next_reference_number
                          (Examples.a_clock 0) Examples.a_db))
     = maestro_dtto Examples.a_db
  /\ online (snd (DatabaseManager.get_next_reference_number
                    (Examples.a_clock 0) Examples.a_db)) = true.
Proof.
  split; [reflexivity|].
  destruct (allocator_touches_only_the_newest_counter_row Examples.a_db
              (Examples.a_clock 0) eq_refl) as (_ & _ & _ & _ & _ & Hm & Ho).
  split; [exact Hm | exact Ho].
Defined.
